(** * Vehicle reports: the Express backend and the browser-side JWT check

    A shallow embedding of [backend/src/server.js] (configuration store,
    vehicle listing, report generation, report download and listing) and of
    [isJWTValid] from [src/storage-service.js] / [src/dimo-api-service.js].

    Conventions of the embedding.
    - JSON supplied by the HTTP client is untyped: [JsVal]. A request body
      is the object [express.json()] parsed, given by its fields.
    - Data returned by the vendor follows the vendor's GraphQL schema:
      records whose nullable fields are [option]s.
    - The numbers of client JSON are given by their value, an integer
      ([JNum n] with [n : Z]); the odometer readings the vendor measures
      are IEEE 754 doubles ([float]), subtracted as JavaScript subtracts
      them.
    - Code that can throw returns an [outcome]; handlers run in the monad
      [M] of a state with exceptions, in which the effects made before a
      throw persist, as they do in JavaScript. *)

From stdpp Require Import gmap strings list.
From Stdlib Require Import ZArith Ascii DecimalString Floats.

Local Open Scope Z_scope.
Local Open Scope string_scope.
Local Open Scope list_scope.

(** ** JavaScript values *)

#[warnings="-register-all"]
Inductive JsVal : Type :=
  | JUndefined
  | JNull
  | JBool (b : bool)
  | JNum (n : Z)
  | JStr (s : string)
  | JArr (items : list JsVal)
  | JObj (fields : list (string * JsVal)).

(** [ToBoolean]: undefined, null, false, 0 and the empty string are falsy. *)
Definition truthy (v : JsVal) : bool :=
  match v with
  | JUndefined | JNull => false
  | JBool b => b
  | JNum n => negb (Z.eqb n 0)
  | JStr s => negb (String.eqb s EmptyString)
  | JArr _ | JObj _ => true
  end.

(** [a || b] *)
Definition js_or (a b : JsVal) : JsVal := if truthy a then a else b.

(** [Array.isArray(v)] *)
Definition Array_isArray (v : JsVal) : bool :=
  match v with JArr _ => true | _ => false end.

(** Property lookup in an object literal or a parsed JSON object. *)
Fixpoint obj_get (fields : list (string * JsVal)) (key : string) : JsVal :=
  match fields with
  | [] => JUndefined
  | (k, v) :: rest => if String.eqb k key then v else obj_get rest key
  end.

(** Nullable vendor fields seen as JavaScript values. *)
Definition of_string (o : option string) : JsVal :=
  match o with Some s => JStr s | None => JNull end.

(** *** Number::toString for an integral number

    [JNum n] is the number the integer [n] denotes in JavaScript and in
    JSON: [n] itself below 2^53, and from there on the double nearest to
    [n]. The digits of a number below 2^53 are its own. From 2^53 on a
    double stands for every real that rounds to it, and JavaScript prints
    the shortest decimal that does, the closest to the number when there
    are several, in exponent form from 21 digits on. *)

Definition decimal (n : Z) : string := NilZero.string_of_int (Z.to_int n).

(** The number of decimal digits. *)
Definition width (n : Z) : Z := Z.of_nat (String.length (decimal n)).

(** The distance from a double [x >= 2^53] to the next one. *)
Definition ulp (x : Z) : Z := 2 ^ (Z.log2 x - 52).

(** Whether the integer [v] rounds to the double [x], to nearest and to
    the even mantissa on a tie; the double below a power of two is half
    as far away as the one above. *)
Definition rounds_to (x v : Z) : bool :=
  let below := if Z.eqb x (2 ^ Z.log2 x) then ulp x / 2 else ulp x in
  let low := 2 * x - below in
  let high := 2 * x + ulp x in
  if Z.even (x / ulp x)
  then Z.leb low (2 * v) && Z.leb (2 * v) high
  else Z.ltb low (2 * v) && Z.ltb (2 * v) high.

(** The multiple of the largest power of ten, from [unit] down, that
    rounds to [x]. *)
Fixpoint shortest (fuel : nat) (x unit : Z) : Z :=
  match fuel with
  | O => x
  | S fuel' =>
      let low := x / unit * unit in
      let high := low + unit in
      match rounds_to x low, rounds_to x high with
      | true, true =>
          if Z.ltb (x - low) (high - x) then low
          else if Z.ltb (high - x) (x - low) then high
          else if Z.even (low / unit) then low else high
      | true, false => low
      | false, true => high
      | false, false => shortest fuel' x (unit / 10)
      end
  end.

Fixpoint strip_zeros (s : string) : string :=
  match s with
  | EmptyString => EmptyString
  | String c rest =>
      match strip_zeros rest with
      | EmptyString =>
          if Ascii.eqb c "0" then EmptyString else String c EmptyString
      | kept => String c kept
      end
  end.

(** [d.ddde+n] *)
Definition exponential (v : Z) : string :=
  match strip_zeros (decimal v) with
  | EmptyString => "0"
  | String first EmptyString =>
      String first ("e+" +:+ decimal (width v - 1))
  | String first more =>
      String first ("." +:+ more +:+ "e+" +:+ decimal (width v - 1))
  end.

(** The double nearest to an integer [n >= 2^53], the one of even
    mantissa on a tie. *)
Definition nearest (n : Z) : Z :=
  let u := ulp n in
  let q := n / u in
  let r := n mod u in
  if Z.ltb (2 * r) u then q * u
  else if Z.ltb u (2 * r) then (q + 1) * u
  else if Z.even q then q * u else (q + 1) * u.

Definition String_of_natural (n : Z) : string :=
  if Z.ltb n (2 ^ 53) then decimal n
  else
    let x := nearest n in
    if Z.leb (2 ^ 1024) x then "Infinity"
    else
      let v := shortest (Z.to_nat (width x)) x (10 ^ (width x - 1)) in
      if Z.leb (width v) 21 then decimal v else exponential v.

(** [String(n)] *)
Definition String_of_number (n : Z) : string :=
  if Z.ltb n 0 then "-" +:+ String_of_natural (- n) else String_of_natural n.

(** [`${x}`] for a nullable string and a nullable number. *)
Definition template_string (x : option string) : string :=
  match x with Some s => s | None => "null" end.

Definition template_number (x : option Z) : string :=
  match x with Some n => String_of_number n | None => "null" end.

(** [s.endsWith(suffix)] *)
Definition endsWith (s suffix : string) : bool :=
  let n := String.length s in
  let m := String.length suffix in
  if (m <=? n)%nat then String.eqb (String.substring (n - m) m s) suffix else false.

(** [s.replace(/[:.]/g, '-')] *)
Fixpoint replace_colon_dot (s : string) : string :=
  match s with
  | EmptyString => EmptyString
  | String c rest =>
      String (if Ascii.eqb c ":" || Ascii.eqb c "." then "-"%char else c)
             (replace_colon_dot rest)
  end.

(** ** Results of code that can throw *)

Inductive outcome (A : Type) : Type :=
  | Returned (a : A)
  | Thrown.
Arguments Returned {A} a.
Arguments Thrown {A}.

(** The TypeErrors of the code modelled here, by what raises them: reading
    a property of [null] or [undefined], calling what is not a function,
    and converting an object that has no string to a string. *)
Inductive TypeError : Type :=
  | PropertyOfNullish
  | NotAFunction
  | NotPrimitive.

(** Whether an object has a property of its own under [key]. *)
Fixpoint has_own (fields : list (string * JsVal)) (key : string) : bool :=
  match fields with
  | [] => false
  | (k, _) :: rest => String.eqb k key || has_own rest key
  end.

(** [String(v)], which is also [`${v}`], the conversion [parseInt] and
    [localStorage.setItem] start with and, on the values that have the
    method, [v.toString()]. An array joins the strings of its elements,
    [null] and [undefined] counting as empty. An object answers
    [[object Object]] through the method it inherits; one whose own
    [toString] property hides that method has no string, as no value of
    [JsVal] is a function: the conversion throws a TypeError. *)
Fixpoint ToString (v : JsVal) : outcome string :=
  match v with
  | JUndefined => Returned "undefined"
  | JNull => Returned "null"
  | JBool true => Returned "true"
  | JBool false => Returned "false"
  | JNum n => Returned (String_of_number n)
  | JStr s => Returned s
  | JArr items =>
      (fix join (l : list JsVal) : outcome string :=
         match l with
         | [] => Returned EmptyString
         | x :: rest =>
             match match x with
                   | JUndefined | JNull => Returned EmptyString
                   | _ => ToString x
                   end with
             | Thrown => Thrown
             | Returned first =>
                 match rest with
                 | [] => Returned first
                 | _ :: _ =>
                     match join rest with
                     | Thrown => Thrown
                     | Returned more => Returned (first +:+ "," +:+ more)
                     end
                 end
             end
         end) items
  | JObj fields =>
      if has_own fields "toString" then Thrown
      else Returned "[object Object]"
  end.

(** ** State with exceptions

    [M St A] is a computation over a state [St] that returns an [A] or throws.
    The state reached before a throw is kept: what a [try] block pushed or
    wrote before it failed is still there in the [catch] block. *)

Definition M (St A : Type) : Type := St -> outcome A * St.

Definition ret {St A} (a : A) : M St A := fun s => (Returned a, s).

Definition throw {St A} : M St A := fun s => (Thrown, s).

Definition bind {St A B} (m : M St A) (k : A -> M St B) : M St B :=
  fun s => match m s with
           | (Returned a, s') => k a s'
           | (Thrown, s') => (Thrown, s')
           end.

(** [try { m } catch (error) { handler }] *)
Definition try_catch {St A} (m : M St A) (handler : M St A) : M St A :=
  fun s => match m s with
           | (Returned a, s') => (Returned a, s')
           | (Thrown, s') => handler s'
           end.

Definition lift {St A} (o : outcome A) : M St A := fun s => (o, s).

Definition gets {St A} (f : St -> A) : M St A := fun s => (Returned (f s), s).

Definition modify {St} (f : St -> St) : M St unit := fun s => (Returned tt, f s).

Declare Scope js_scope.
Delimit Scope js_scope with js.
Notation "x <- m ;; k" := (bind m (fun x => k))
  (at level 100, m at next level, right associativity) : js_scope.
Notation "m ;; k" := (bind m (fun _ => k))
  (at level 100, right associativity) : js_scope.
Local Open Scope js_scope.

(** [for (const x of l) { body(x) }] *)
Fixpoint for_of {St A} (l : list A) (body : A -> M St unit) : M St unit :=
  match l with
  | [] => ret tt
  | x :: rest => body x ;; for_of rest body
  end.

(** [l.forEach((x, index) => f(x, index))], started at [index]. *)
Fixpoint forEach_from {St A} (index : nat) (l : list A)
    (f : A -> nat -> M St unit) : M St unit :=
  match l with
  | [] => ret tt
  | x :: rest => f x index ;; forEach_from (S index) rest f
  end.

Definition forEach {St A} (l : list A) (f : A -> nat -> M St unit) : M St unit :=
  forEach_from 0 l f.

(** [v.key]: a TypeError on undefined and null; objects answer from their
    fields, the other values have none of the fields read here. *)
Definition js_prop (v : JsVal) (key : string) : outcome JsVal :=
  match v with
  | JUndefined | JNull => Thrown
  | JObj fields => Returned (obj_get fields key)
  | _ => Returned JUndefined
  end.

(** ** Vendor data, typed by the vendor's GraphQL schema *)

Module Telemetry.
(** The distance is a GraphQL [Float]: a double, or [null]. *)
Record Signal : Type := {
  powertrainTransmissionTravelledDistance : option float;
  timestamp : option string
}.
Record VinVC : Type := { vin : option string }.
Record Data : Type := {
  vinVCLatest : option VinVC;
  signals : option (list Signal)
}.
(** The SDK's answer; [data] is missing when the vendor sent none. *)
Record Result : Type := { data : option Data }.
End Telemetry.

Module Identity.
Record Definition_ : Type := {
  make : option string;
  model : option string;
  year : option Z
}.
Record AftermarketDevice : Type := { imei : option string }.
Record SyntheticDevice : Type := { mintedAt : option string }.
Record Vehicle : Type := {
  tokenId : Z;
  definition : option Definition_;
  aftermarketDevice : option AftermarketDevice;
  syntheticDevice : option SyntheticDevice
}.
Record Vehicles : Type := {
  totalCount : Z;
  pageInfo : JsVal;
  nodes : list Vehicle
}.
Record Data : Type := { vehicles : Vehicles }.
Record Result : Type := { data : option Data }.
End Identity.

(** ** The report rows and the files of the [tmp] directory *)

(** The odometer reading of a row: a number computed from the vendor's
    doubles, or one of the strings the handler writes in its place. *)
Inductive Reading : Type :=
  | Measured (x : float)
  | Marked (s : string).

(** One element of [reportData]. The token id is the request's; the
    travelled distance is always a number. *)
Record Row : Type := {
  tokenId : JsVal;
  vin : JsVal;
  timestamp : JsVal;
  odometerReading : Reading;
  travelledDistance : float
}.

(** What the CSV writer is given for one cell: a value as the request or
    the handler wrote it, or a number computed from the vendor's doubles. *)
Inductive Cell : Type :=
  | Value (v : JsVal)
  | Number (x : float).

Definition cell (reading : Reading) : Cell :=
  match reading with
  | Measured x => Number x
  | Marked s => Value (JStr s)
  end.

(** [record[id]] as the CSV writer reads it. *)
Definition Row_get (r : Row) (id : string) : Cell :=
  if String.eqb id "tokenId" then Value (tokenId r)
  else if String.eqb id "vin" then Value (vin r)
  else if String.eqb id "timestamp" then Value (timestamp r)
  else if String.eqb id "odometerReading" then cell (odometerReading r)
  else if String.eqb id "travelledDistance" then Number (travelledDistance r)
  else Value JUndefined.

(** File contents, up to what [JSON.parse] makes of them: [JsonText v] is
    the text [JSON.stringify] writes for [v], which parses back to [v];
    [CsvText] is a file written by the CSV writer, given by its title line
    and its records; [Garbage] is any other text. Neither of the last two
    is JSON. *)
Inductive FileData : Type :=
  | JsonText (v : JsVal)
  | CsvText (titles : list string) (records : list (list Cell))
  | Garbage (s : string).

Inductive Entry : Type :=
  | File (d : FileData)
  | Directory.

Definition JSON_stringify (v : JsVal) : FileData := JsonText v.

Definition JSON_parse (d : FileData) : outcome JsVal :=
  match d with
  | JsonText v => Returned v
  | CsvText _ _ | Garbage _ => Thrown
  end.

(** The input/output a handler performs, in the order performed. *)
Inductive Event : Type :=
  | FsWriteFile (name : string)
  | FsReadFile (name : string)
  | FsAccess (name : string)
  | FsUnlink (name : string)
  | FsReaddir
  | AuthGetToken
  | AuthGetDeveloperJwt
  | TokenExchange (tokenId : JsVal)
  | TelemetryQuery (tokenId : JsVal)
  | IdentityQuery
  | ClockRead.

(** ** The outside world

    [W] is the state of everything outside the process: the vendor's
    services and the clock. Each call may fail and may change it. *)

(** The vendor SDK object [dimo].
    - [tokenexchange_exchange developerJwt privileges text]: the call with
      [tokenId: parseInt(tokenId)]. [parseInt] converts its argument to a
      string, which the handler does and which can throw; the number is
      then read off that string, [text], alone, so that every behaviour of
      the call is that of a function of [text].
    - [telemetry_query vehicleJwt id from to]: the call with the query
      text, which is a template filled with the strings of the token id,
      the start date and the end date. *)
Record DIMO (W : Type) : Type := {
  auth_getToken : JsVal -> W -> outcome JsVal * W;
  auth_getDeveloperJwt : JsVal -> W -> outcome JsVal * W;
  tokenexchange_exchange :
    JsVal -> list Z -> string -> W -> outcome JsVal * W;
  telemetry_query :
    JsVal -> string -> string -> string -> W -> outcome Telemetry.Result * W;
  identity_query : JsVal -> JsVal -> W -> outcome Identity.Result * W
}.
Arguments auth_getToken {W}.
Arguments auth_getDeveloperJwt {W}.
Arguments tokenexchange_exchange {W}.
Arguments telemetry_query {W}.
Arguments identity_query {W}.

(** The JavaScript runtime: [new Date().toISOString()],
    [new Date(s).toLocaleDateString()], and what [fs.access] finds at
    [path.join(tmpDir, name)] for a name that is not the name of an entry
    of [tmpDir], one with a separator, [.] or [..]: it throws when there
    is nothing. *)
Record Runtime (W : Type) : Type := {
  Date_toISOString : W -> string * W;
  Date_toLocaleDateString : string -> string;
  fs_elsewhere : string -> W -> outcome Entry
}.
Arguments Date_toISOString {W}.
Arguments Date_toLocaleDateString {W}.
Arguments fs_elsewhere {W}.

(** The state a handler runs in: the world, the [tmp] directory ([None] when
    it is missing or cannot be read), the array [reportData] of the report
    being generated, and the log of the input/output performed. *)
Record State (W : Type) : Type := {
  world : W;
  tmpDir : option (gmap string Entry);
  reportData : list Row;
  io_log : list Event
}.
Arguments world {W}.
Arguments tmpDir {W}.
Arguments reportData {W}.
Arguments io_log {W}.

Definition add_log {W} (e : Event) (s : State W) : State W :=
  {| world := world s; tmpDir := tmpDir s; reportData := reportData s;
     io_log := io_log s ++ [e] |}.

Definition put_world {W} (w : W) (s : State W) : State W :=
  {| world := w; tmpDir := tmpDir s; reportData := reportData s;
     io_log := io_log s |}.

Definition put_tmpDir {W} (d : option (gmap string Entry)) (s : State W)
    : State W :=
  {| world := world s; tmpDir := d; reportData := reportData s;
     io_log := io_log s |}.

Definition put_reportData {W} (rows : list Row) (s : State W) : State W :=
  {| world := world s; tmpDir := tmpDir s; reportData := rows;
     io_log := io_log s |}.

(** What a handler sends. *)
Inductive Response : Type :=
  | Json (status : Z) (body : JsVal)
  | Download (filename : string) (content : option Entry).

Definition error_body (message : string) : JsVal :=
  JObj [("error", JStr message)].

Definition opt {A} (o : option A) : outcome A :=
  match o with Some a => Returned a | None => Thrown end.

(** [l.map(f)] for a callback that can throw. *)
Fixpoint map_outcome {A B} (f : A -> outcome B) (l : list A)
    : outcome (list B) :=
  match l with
  | [] => Returned []
  | x :: rest =>
      match f x with
      | Thrown => Thrown
      | Returned y =>
          match map_outcome f rest with
          | Thrown => Thrown
          | Returned ys => Returned (y :: ys)
          end
      end
  end.

(** [ToBoolean] of a double: 0, -0 and NaN are falsy. *)
Definition falsy (x : float) : bool :=
  PrimFloat.eqb 0 x || PrimFloat.is_nan x.

(** [x || 0] for a nullable double. *)
Definition or_zero (x : option float) : float :=
  match x with
  | Some v => if falsy v then 0%float else v
  | None => 0%float
  end.

(** Whether [path.join(tmpDir, name)] is the entry [name] of [tmpDir]:
    the name has no separator and is neither [.] nor [..]. *)
Definition backslash : ascii := ascii_of_nat 92.

Fixpoint has_separator (name : string) : bool :=
  match name with
  | EmptyString => false
  | String c rest =>
      Ascii.eqb c "/" || Ascii.eqb c backslash || has_separator rest
  end.

Definition entry_name (name : string) : bool :=
  negb (has_separator name)
  && negb (String.eqb name ".") && negb (String.eqb name "..").

(** [v.length] and the elements of an array. *)
Definition array_length (v : JsVal) : nat :=
  match v with JArr items => length items | _ => 0%nat end.

Definition elements (v : JsVal) : list JsVal :=
  match v with JArr items => items | _ => [] end.

(** ** backend/src/server.js *)

Section Server.
Context {W : Type}.
Variable dimo : DIMO W.
Variable runtime : Runtime W.

Local Abbreviation Handler := (M (State W)).

Definition log (e : Event) : Handler unit := modify (add_log e).

Definition set_tmpDir (d : option (gmap string Entry)) : Handler unit :=
  modify (put_tmpDir d).

Definition set_reportData (rows : list Row) : Handler unit :=
  modify (put_reportData rows).

(** A call to the outside world, logged. *)
Definition call {A} (e : Event) (f : W -> outcome A * W) : Handler A :=
  log e ;;
  fun s => let (o, w) := f (world s) in (o, put_world w s).

(** [new Date().toISOString()] *)
Definition now_iso : Handler string :=
  call ClockRead (fun w => let (iso, w') := Date_toISOString runtime w in
                           (Returned iso, w')).

(** *** fs/promises on the files of [tmpDir] *)

Definition fs_writeFile (name : string) (d : FileData) : Handler unit :=
  log (FsWriteFile name) ;;
  dir <- gets tmpDir ;;
  match dir with
  | None => throw
  | Some entries =>
      match entries !! name with
      | Some Directory => throw
      | _ => set_tmpDir (Some (<[name := File d]> entries))
      end
  end.

Definition fs_readFile (name : string) : Handler FileData :=
  log (FsReadFile name) ;;
  dir <- gets tmpDir ;;
  match dir with
  | None => throw
  | Some entries =>
      match entries !! name with
      | Some (File d) => ret d
      | _ => throw
      end
  end.

Definition fs_access (name : string) : Handler unit :=
  log (FsAccess name) ;;
  dir <- gets tmpDir ;;
  match dir with
  | None => throw
  | Some entries =>
      match entries !! name with
      | Some _ => ret tt
      | None => throw
      end
  end.

Definition fs_unlink (name : string) : Handler unit :=
  log (FsUnlink name) ;;
  dir <- gets tmpDir ;;
  match dir with
  | None => throw
  | Some entries =>
      match entries !! name with
      | Some (File _) => set_tmpDir (Some (delete name entries))
      | _ => throw
      end
  end.

Definition fs_readdir : Handler (list string) :=
  log FsReaddir ;;
  dir <- gets tmpDir ;;
  match dir with
  | None => throw
  | Some entries => ret (map fst (map_to_list entries))
  end.

(** *** class FileStorage, with [baseDir = tmpDir] *)

Definition saveConfig (config : JsVal) : Handler string :=
  let configPath := "app-config.json" in
  fs_writeFile configPath (JSON_stringify config) ;;
  ret configPath.

Definition loadConfig : Handler JsVal :=
  try_catch
    (let configPath := "app-config.json" in
     data <- fs_readFile configPath ;;
     lift (JSON_parse data))
    (ret JNull).

Definition saveReport (reportData : FileData) (filename : string)
    : Handler string :=
  let reportPath := filename in
  fs_writeFile reportPath reportData ;;
  ret reportPath.

Definition listReports : Handler (list string) :=
  try_catch
    (files <- fs_readdir ;;
     ret (filter (fun file => endsWith file ".csv" = true) files))
    (ret []).

(** *** GET /api/config *)
Definition get_config : Handler Response :=
  try_catch
    (config <- loadConfig ;;
     if negb (truthy config)
     then ret (Json 404 (error_body "No configuration found"))
     else ret (Json 200 config))
    (ret (Json 500 (error_body "Failed to load configuration"))).

(** *** POST /api/config *)
Definition post_config (body : list (string * JsVal)) : Handler Response :=
  try_catch
    (let clientId := obj_get body "clientId" in
     let apiKey := obj_get body "apiKey" in
     let redirectUri := obj_get body "redirectUri" in
     if negb (truthy clientId) || negb (truthy apiKey)
     then ret (Json 400 (error_body "Client ID and API Key are required"))
     else
       createdAt <- call ClockRead
                      (fun w => let (iso, w') := Date_toISOString runtime w in
                                (Returned iso, w')) ;;
       let config :=
         JObj [("clientId", clientId);
               ("apiKey", apiKey);
               ("redirectUri", js_or redirectUri (JStr "http://localhost:5173"));
               ("createdAt", JStr createdAt)] in
       saveConfig config ;;
       ret (Json 200 (JObj [("message", JStr "Configuration saved successfully");
                            ("config", config)])))
    (ret (Json 500 (error_body "Failed to save configuration"))).

(** *** DELETE /api/config *)
Definition delete_config : Handler Response :=
  try_catch
    (let configPath := "app-config.json" in
     missing <- try_catch
                  (fs_access configPath ;; ret None)
                  (ret (Some (Json 404 (error_body "No configuration found")))) ;;
     match missing with
     | Some response => ret response
     | None =>
         fs_unlink configPath ;;
         ret (Json 200 (JObj [("message", JStr "Configuration deleted successfully")]))
     end)
    (ret (Json 500 (error_body "Failed to delete configuration"))).

(** *** GET /api/vehicles *)

(** The callback of [nodes.map]: one vendor node to one listed vehicle. *)
Definition mapVehicle (vehicle : Identity.Vehicle) : outcome JsVal :=
  match Identity.definition vehicle with
  | None => Thrown
  | Some definition =>
      let make := Identity.make definition in
      let model := Identity.model definition in
      let year := Identity.year definition in
      let imei :=
        match Identity.aftermarketDevice vehicle with
        | Some device => of_string (Identity.imei device)
        | None => JUndefined
        end in
      let mintedAt :=
        match Identity.syntheticDevice vehicle with
        | Some device => Identity.mintedAt device
        | None => None
        end in
      Returned
        (JObj [("tokenId", JNum (Identity.tokenId vehicle));
               ("vehicleType",
                JStr (template_string make +:+ " " +:+ template_string model
                        +:+ " " +:+ template_number year));
               ("imei", js_or imei (JStr "N/A"));
               ("mintedAt",
                match mintedAt with
                | Some m =>
                    if truthy (JStr m)
                    then JStr (Date_toLocaleDateString runtime m)
                    else JStr "N/A"
                | None => JStr "N/A"
                end)])
  end.

Definition credentials (config : JsVal) : outcome JsVal :=
  match js_prop config "clientId", js_prop config "redirectUri",
        js_prop config "apiKey" with
  | Returned clientId, Returned redirectUri, Returned apiKey =>
      Returned (JObj [("client_id", clientId);
                      ("domain", redirectUri);
                      ("private_key", apiKey)])
  | _, _, _ => Thrown
  end.

Definition get_vehicles (after : JsVal) : Handler Response :=
  try_catch
    (config <- loadConfig ;;
     if negb (truthy config)
     then ret (Json 400 (error_body
                 "No configuration found. Please configure the app first."))
     else
       args <- lift (credentials config) ;;
       developerJwt <- call AuthGetToken (auth_getToken dimo args) ;;
       result <- call IdentityQuery
                   (identity_query dimo developerJwt (js_or after JNull)) ;;
       data <- lift (opt (Identity.data result)) ;;
       let vehicles := Identity.vehicles data in
       mappedVehicles <- lift (map_outcome mapVehicle (Identity.nodes vehicles)) ;;
       ret (Json 200 (JObj [("totalCount", JNum (Identity.totalCount vehicles));
                            ("pageInfo", Identity.pageInfo vehicles);
                            ("nodes", JArr mappedVehicles)])))
    (ret (Json 500 (error_body "Failed to load vehicles"))).

(** *** POST /api/reports/generate *)

Definition push (row : Row) : Handler unit :=
  rows <- gets reportData ;;
  set_reportData (rows ++ [row]).

(** The body of [signals.forEach((signal, index) => ...)]. *)
Definition signalRow (tokenId vin : JsVal) (signals : list Telemetry.Signal)
    (signal : Telemetry.Signal) (index : nat) : Handler unit :=
  let odometerReading :=
    or_zero (Telemetry.powertrainTransmissionTravelledDistance signal) in
  travelledDistance <-
    (if (0 <? index)%nat
     then
       previous <- lift (opt (signals !! (index - 1)%nat)) ;;
       let previousReading :=
         or_zero (Telemetry.powertrainTransmissionTravelledDistance previous) in
       ret (PrimFloat.sub odometerReading previousReading)
     else ret 0%float) ;;
  push {| tokenId := tokenId;
          vin := vin;
          timestamp := js_or (of_string (Telemetry.timestamp signal)) (JStr "N/A");
          odometerReading := Measured odometerReading;
          travelledDistance := travelledDistance |}.

Definition fallbackRow (tokenId vin : JsVal) : Row :=
  {| tokenId := tokenId;
     vin := vin;
     timestamp := JStr "N/A";
     odometerReading := Marked "N/A";
     travelledDistance := 0%float |}.

Definition errorRow (tokenId : JsVal) : Row :=
  {| tokenId := tokenId;
     vin := JStr "ERROR";
     timestamp := JStr "ERROR";
     odometerReading := Marked "ERROR";
     travelledDistance := 0%float |}.

(** The [try] block of the per-vehicle loop. The strings of the token id
    and of the dates are made where the code makes them: the id for
    [parseInt] before the token exchange, then id, start and end date for
    the query text, before the telemetry call. *)
Definition fetchVehicle (developerJwt startDate endDate tokenId : JsVal)
    : Handler unit :=
  text <- lift (ToString tokenId) ;;
  vehicleJwt <- call (TokenExchange tokenId)
                  (tokenexchange_exchange dimo developerJwt [1] text) ;;
  id <- lift (ToString tokenId) ;;
  from <- lift (ToString startDate) ;;
  to <- lift (ToString endDate) ;;
  telemetryResult <- call (TelemetryQuery tokenId)
                       (telemetry_query dimo vehicleJwt id from to) ;;
  data <- lift (opt (Telemetry.data telemetryResult)) ;;
  let vin :=
    js_or (match Telemetry.vinVCLatest data with
           | Some vc => of_string (Telemetry.vin vc)
           | None => JUndefined
           end) (JStr "N/A") in
  match Telemetry.signals data with
  | Some signals => forEach signals (signalRow tokenId vin signals)
  | None => push (fallbackRow tokenId vin)
  end.

(** One turn of [for (const tokenId of vehicleTokenIds)]. The [catch]
    block first logs a message made of the token id's string, so it throws
    in its turn for an id that has none. *)
Definition processVehicle (developerJwt startDate endDate tokenId : JsVal)
    : Handler unit :=
  try_catch
    (fetchVehicle developerJwt startDate endDate tokenId)
    (lift (ToString tokenId) ;;
     push (errorRow tokenId)).

Definition header : list (string * string) :=
  [("tokenId", "Token ID");
   ("vin", "VIN");
   ("timestamp", "Timestamp");
   ("odometerReading", "Odometer Reading");
   ("travelledDistance", "Travelled Distance")].

(** [createObjectCsvWriter({path, header}).writeRecords(records)]: the title
    line, then one record per row with the cells in the header's order. *)
Definition csv_writeRecords (path : string) (header : list (string * string))
    (records : list Row) : Handler unit :=
  fs_writeFile path
    (CsvText (map snd header)
             (map (fun record => map (fun column => Row_get record (fst column)) header)
                  records)).

Definition report_filename (iso : string) : string :=
  let timestamp := replace_colon_dot iso in
  "vehicle-report-" +:+ timestamp +:+ ".csv".

Definition post_reports_generate (body : list (string * JsVal))
    : Handler Response :=
  try_catch
    (let vehicleTokenIds := obj_get body "vehicleTokenIds" in
     let startDate := obj_get body "startDate" in
     let endDate := obj_get body "endDate" in
     if negb (truthy vehicleTokenIds) || negb (Array_isArray vehicleTokenIds)
        || Nat.eqb (array_length vehicleTokenIds) 0
     then ret (Json 400 (error_body "Vehicle token IDs are required"))
     else if negb (truthy startDate) || negb (truthy endDate)
     then ret (Json 400 (error_body "Start date and end date are required"))
     else
       config <- loadConfig ;;
       if negb (truthy config)
       then ret (Json 400 (error_body
                   "No configuration found. Please configure the app first."))
       else
         args <- lift (credentials config) ;;
         developerJwt <- call AuthGetDeveloperJwt
                           (auth_getDeveloperJwt dimo args) ;;
         set_reportData [] ;;
         iso <- now_iso ;;
         let filename := report_filename iso in
         for_of (elements vehicleTokenIds)
                (processVehicle developerJwt startDate endDate) ;;
         rows <- gets reportData ;;
         csv_writeRecords filename header rows ;;
         ret (Json 200
                (JObj [("message", JStr "Report generated successfully");
                       ("filename", JStr filename);
                       ("recordCount", JNum (Z.of_nat (length rows)));
                       ("downloadUrl",
                        JStr ("/api/reports/download/" +:+ filename))])))
    (ret (Json 500 (error_body "Failed to generate report"))).

(** *** GET /api/reports/download/:filename

    [fs.access(path.join(tmpDir, filename))] finds the entry of that name
    in [tmpDir]; a name with a separator, [.] and [..] lead elsewhere, and
    what is there is the runtime's to say. *)
Definition get_reports_download (filename : string) : Handler Response :=
  try_catch
    (let filePath := filename in
     log (FsAccess filePath) ;;
     dir <- gets tmpDir ;;
     match dir ≫= (.!! filePath) with
     | Some entry => ret (Download filename (Some entry))
     | None =>
         if entry_name filePath then throw
         else
           entry <- (fun s => (fs_elsewhere runtime filePath (world s), s)) ;;
           ret (Download filename (Some entry))
     end)
    (ret (Json 404 (error_body "Report file not found"))).

(** *** GET /api/reports *)
Definition get_reports : Handler Response :=
  try_catch
    (reports <- listReports ;;
     ret (Json 200 (JObj [("reports", JArr (map JStr reports))])))
    (ret (Json 500 (error_body "Failed to list reports"))).

End Server.

(** ** The browser-side JWT check *)

(** [s.split(sep)] for a one-character separator. *)
Fixpoint split (sep : ascii) (s : string) : list string :=
  match s with
  | EmptyString => [EmptyString]
  | String c rest =>
      if Ascii.eqb c sep
      then EmptyString :: split sep rest
      else match split sep rest with
           | part :: parts => String c part :: parts
           | [] => [String c EmptyString]
           end
  end.

Definition and_then {A B} (o : outcome A) (k : A -> outcome B) : outcome B :=
  match o with
  | Returned a => k a
  | Thrown => Thrown
  end.

(** What the browser provides: [atob], [JSON.parse] on text, the clock
    [Date.now()] in milliseconds, and the number a non-number operand of [>]
    is converted to ([None] for NaN). *)
Record Browser : Type := {
  window_atob : string -> outcome string;
  window_JSON_parse : string -> outcome JsVal;
  Date_now : Z;
  ToNumber : JsVal -> option Z
}.

Section Client.
Variable browser : Browser.

(** [a > n] for a number [n]. *)
Definition js_gt (a : JsVal) (n : Z) : bool :=
  match a with
  | JNum m => Z.ltb n m
  | _ => match ToNumber browser a with
         | Some m => Z.ltb n m
         | None => false
         end
  end.

(** The [try] block shared by the two checks. *)
Definition decodeAndCompare (jwt : string) : outcome JsVal :=
  let segment :=
    match split "." jwt !! 1%nat with
    | Some part => part
    | None => "undefined"
    end in
  and_then (window_atob browser segment) (fun text =>
  and_then (window_JSON_parse browser text) (fun payload =>
  let now := Date_now browser / 1000 in
  and_then (js_prop payload "exp") (fun exp =>
  Returned (if truthy exp then JBool (js_gt exp now) else exp)))).

(** [StorageService.isJWTValid], src/storage-service.js *)
Definition isJWTValid (jwt : string) : JsVal :=
  match decodeAndCompare jwt with
  | Returned result => result
  | Thrown => JBool false
  end.

(** [DimoApiService.isJwtValid], src/dimo-api-service.js *)
Definition isJwtValid (jwt : string) : JsVal :=
  if negb (truthy (JStr jwt)) then JBool false
  else match decodeAndCompare jwt with
       | Returned result => result
       | Thrown => JBool false
       end.

End Client.

(** ** The specification's side

    The rows the specification describes, written by structural recursion,
    to be compared with what the handler computes. *)

(** The value of a sample as the specification reads it: the value, or 0
    if the sample has none. *)
Definition value (signal : Telemetry.Signal) : float :=
  match Telemetry.powertrainTransmissionTravelledDistance signal with
  | Some x => x
  | None => 0%float
  end.

(** Two doubles that are the same number: [==], under which 0 and -0 are
    one number and NaN is none. *)
Definition same_number (x y : float) : Prop := PrimFloat.eqb x y = true.

(** The reading of a sample as the handler defaults it. *)
Definition reading (signal : Telemetry.Signal) : float :=
  or_zero (Telemetry.powertrainTransmissionTravelledDistance signal).

(** The row of a sample, given the sample before it: the distance is 0 for
    the first sample and the difference of the two readings otherwise. *)
Definition derivedRow (tokenId vin : JsVal)
    (previous : option Telemetry.Signal) (signal : Telemetry.Signal) : Row :=
  {| tokenId := tokenId;
     vin := vin;
     timestamp := js_or (of_string (Telemetry.timestamp signal)) (JStr "N/A");
     odometerReading := Measured (reading signal);
     travelledDistance :=
       match previous with
       | Some before => PrimFloat.sub (reading signal) (reading before)
       | None => 0%float
       end |}.

Fixpoint derivedRows (tokenId vin : JsVal)
    (previous : option Telemetry.Signal) (signals : list Telemetry.Signal)
    : list Row :=
  match signals with
  | [] => []
  | signal :: rest =>
      derivedRow tokenId vin previous signal
      :: derivedRows tokenId vin (Some signal) rest
  end.

(** The VIN and the rows one successful telemetry answer contributes. *)
Definition vinOf (data : Telemetry.Data) : JsVal :=
  js_or match Telemetry.vinVCLatest data with
        | Some vc => of_string (Telemetry.vin vc)
        | None => JUndefined
        end (JStr "N/A").

Definition rowsOf (tokenId : JsVal) (data : Telemetry.Data) : list Row :=
  match Telemetry.signals data with
  | Some signals => derivedRows tokenId (vinOf data) None signals
  | None => [fallbackRow tokenId (vinOf data)]
  end.

(** The sentinel rows of a report. *)
Definition is_string (v : JsVal) (s : string) : bool :=
  match v with JStr t => String.eqb t s | _ => false end.

Definition is_marked (reading : Reading) (s : string) : bool :=
  match reading with Marked t => String.eqb t s | Measured _ => false end.

Definition isErrorRow (row : Row) : bool :=
  is_string (vin row) "ERROR" && is_string (timestamp row) "ERROR"
  && is_marked (odometerReading row) "ERROR"
  && PrimFloat.eqb (travelledDistance row) 0.

Definition sentinels (rows : list Row) : nat :=
  length (List.filter isErrorRow rows).

(** What the vendor did for one vehicle: its token exchange failed, its
    telemetry query failed, the query returned an answer without data, or
    it returned data. *)
Inductive Fate : Type :=
  | ExchangeFailed
  | QueryFailed
  | Unanswered
  | Answered (data : Telemetry.Data).

(** The vendor's calls for one vehicle, given the strings of its token id
    and of the dates. *)
Definition fate {W} (dimo : DIMO W) (developerJwt : JsVal)
    (from to id : string) (w : W) : Fate * W :=
  match tokenexchange_exchange dimo developerJwt [1] id w with
  | (Thrown, w1) => (ExchangeFailed, w1)
  | (Returned vehicleJwt, w1) =>
      match telemetry_query dimo vehicleJwt id from to w1 with
      | (Thrown, w2) => (QueryFailed, w2)
      | (Returned result, w2) =>
          (match Telemetry.data result with
           | Some data => Answered data
           | None => Unanswered
           end, w2)
      end
  end.

(** The fates of a batch, the world passing from one vehicle to the next. *)
Fixpoint fates {W} (dimo : DIMO W) (developerJwt : JsVal)
    (from to : string) (ids : list string) (w : W) : list Fate * W :=
  match ids with
  | [] => ([], w)
  | id :: rest =>
      let (first, w1) := fate dimo developerJwt from to id w in
      let (others, w2) := fates dimo developerJwt from to rest w1 in
      (first :: others, w2)
  end.

(** The rows the specification gives a vehicle of a given fate. *)
Definition rowsFor (tokenId : JsVal) (f : Fate) : list Row :=
  match f with
  | Answered data => rowsOf tokenId data
  | _ => [errorRow tokenId]
  end.

(** The rows of a batch: one group per vehicle, in the order of the batch. *)
Definition groups (ids : list JsVal) (l : list Fate) : list (list Row) :=
  zip_with rowsFor ids l.

(** The vehicles whose token exchange or telemetry query failed, and those
    whose query returned no data. *)
Definition failed (f : Fate) : bool :=
  match f with ExchangeFailed | QueryFailed => true | _ => false end.

Definition unanswered (f : Fate) : bool :=
  match f with Unanswered => true | _ => false end.

Definition failures (l : list Fate) : nat := length (List.filter failed l).

Definition blanks (l : list Fate) : nat := length (List.filter unanswered l).

(** The listed vehicle the specification describes for a vendor node: the
    node has a definition, the vehicle type is make, model and year joined
    by single spaces, and the IMEI and the mint date are strings, ["N/A"]
    when the vendor has none, the mint date otherwise the runtime's locale
    date string of it. *)
Definition normalized {W} (runtime : Runtime W) (vehicle : Identity.Vehicle)
    (node : JsVal) : Prop :=
  exists definition,
    Identity.definition vehicle = Some definition
    /\ js_prop node "tokenId" = Returned (JNum (Identity.tokenId vehicle))
    /\ js_prop node "vehicleType"
       = Returned (JStr (template_string (Identity.make definition) +:+ " "
                         +:+ template_string (Identity.model definition) +:+ " "
                         +:+ template_number (Identity.year definition)))
    /\ js_prop node "imei"
       = Returned (JStr match Identity.aftermarketDevice vehicle
                              ≫= Identity.imei with
                        | Some imei =>
                            if String.eqb imei EmptyString then "N/A" else imei
                        | None => "N/A"
                        end)
    /\ js_prop node "mintedAt"
       = Returned (JStr match Identity.syntheticDevice vehicle
                              ≫= Identity.mintedAt with
                        | Some mintedAt =>
                            if String.eqb mintedAt EmptyString then "N/A"
                            else Date_toLocaleDateString runtime mintedAt
                        | None => "N/A"
                        end).

(** What [loadConfig] answers on a given [tmp] directory. *)
Definition stored_config (dir : option (gmap string Entry)) : JsVal :=
  match dir with
  | Some entries =>
      match entries !! "app-config.json" with
      | Some (File (JsonText v)) => v
      | _ => JNull
      end
  | None => JNull
  end.

(** ** A scripted world for the worked examples

    The world has no state of its own: the developer token is always
    granted, the vehicle token and the telemetry of a vehicle are given by
    the script, and the clock always reads the same instant. *)

Definition scripted
    (exchange : string -> outcome JsVal)
    (telemetry : string -> outcome Telemetry.Result)
    (identity : outcome Identity.Result) : DIMO unit :=
  {| auth_getToken := fun _ w => (Returned (JStr "developer-jwt"), w);
     auth_getDeveloperJwt := fun _ w => (Returned (JStr "developer-jwt"), w);
     tokenexchange_exchange := fun _ _ tokenId w => (exchange tokenId, w);
     telemetry_query := fun _ tokenId _ _ w => (telemetry tokenId, w);
     identity_query := fun _ _ w => (identity, w) |}.

(** Outside [tmpDir] the examples have one file, the server's own source
    beside the directory. *)
Definition fixed_clock : Runtime unit :=
  {| Date_toISOString := fun w => ("2024-01-15T10:30:45.123Z", w);
     Date_toLocaleDateString := fun s => String.substring 0 10 s;
     fs_elsewhere :=
       fun name _ => if String.eqb name "../src/server.js"
                     then Returned (File (Garbage "import express"))
                     else Thrown |}.

Definition start (dir : option (gmap string Entry)) : State unit :=
  {| world := tt; tmpDir := dir; reportData := []; io_log := [] |}.

Definition sample (reading : option float) (time : string) : Telemetry.Signal :=
  {| Telemetry.powertrainTransmissionTravelledDistance := reading;
     Telemetry.timestamp := Some time |}.

Definition answer (vin : option string)
    (signals : option (list Telemetry.Signal)) : Telemetry.Result :=
  {| Telemetry.data :=
       Some {| Telemetry.vinVCLatest := Some {| Telemetry.vin := vin |};
               Telemetry.signals := signals |} |}.

(** Vehicle 7 has four daily readings, vehicle 42 an empty series, vehicle 8
    no series at all; vehicle 5 has readings that are not small integers:
    1, 2^54, 12345.5, none and -0. Every other vehicle fails its telemetry
    query. *)
Definition fleet : DIMO unit :=
  scripted
    (fun _ => Returned (JStr "vehicle-jwt"))
    (fun tokenId =>
       if String.eqb tokenId "7"
       then Returned (answer (Some "1HGCM82633A004352")
                        (Some [sample (Some 100%float) "2024-01-01T00:00:00Z";
                               sample (Some 150%float) "2024-01-02T00:00:00Z";
                               sample (Some 140%float) "2024-01-03T00:00:00Z";
                               sample (Some 200%float) "2024-01-04T00:00:00Z"]))
       else if String.eqb tokenId "42"
       then Returned (answer (Some "5YJ3E1EA7KF317000") (Some []))
       else if String.eqb tokenId "8"
       then Returned (answer None None)
       else if String.eqb tokenId "5"
       then Returned (answer (Some "WVWZZZ1JZXW000001")
                        (Some [sample (Some 1%float) "2024-01-01T00:00:00Z";
                               sample (Some 0x1p54%float) "2024-01-02T00:00:00Z";
                               sample (Some 12345.5%float) "2024-01-03T00:00:00Z";
                               sample None "2024-01-04T00:00:00Z";
                               sample (Some (-0)%float) "2024-01-05T00:00:00Z"]))
       else Thrown)
    (Returned
       {| Identity.data :=
            Some {| Identity.vehicles :=
              {| Identity.totalCount := 2;
                 Identity.pageInfo := JObj [("hasNextPage", JBool false)];
                 Identity.nodes :=
                   [{| Identity.tokenId := 7;
                       Identity.definition :=
                         Some {| Identity.make := Some "Honda";
                                 Identity.model := Some "Accord";
                                 Identity.year := Some 2003 |};
                       Identity.aftermarketDevice := None;
                       Identity.syntheticDevice :=
                         Some {| Identity.mintedAt :=
                                   Some "2023-06-01T12:00:00Z" |} |};
                    {| Identity.tokenId := 42;
                       Identity.definition :=
                         Some {| Identity.make := Some "Tesla";
                                 Identity.model := Some "Model 3";
                                 Identity.year := Some 2019 |};
                       Identity.aftermarketDevice :=
                         Some {| Identity.imei := Some "356938035643809" |};
                       Identity.syntheticDevice := None |}] |} |} |}).

Definition credentials_body : list (string * JsVal) :=
  [("clientId", JStr "0xabc"); ("apiKey", JStr "k1")].

Definition report_body (ids : list JsVal) : list (string * JsVal) :=
  [("vehicleTokenIds", JArr ids);
   ("startDate", JStr "2024-01-01");
   ("endDate", JStr "2024-01-31")].

(** The state after [POST /api/config] on an empty [tmp] directory. *)
Definition configured : State unit :=
  snd (post_config fixed_clock credentials_body (start (Some ∅))).

(** A browser for the worked example: it decodes the one payload segment
    used there, the empty object. *)
Definition example_browser : Browser :=
  {| window_atob := fun s => if String.eqb s "e30" then Returned "{}" else Thrown;
     window_JSON_parse :=
       fun text => if String.eqb text "{}" then Returned (JObj []) else Thrown;
     Date_now := 1705314645123;
     ToNumber := fun _ => None |}.

(** ** backend/src/server.js, the token routes *)

Section Tokens.
Context {W : Type}.
Variable dimo : DIMO W.

(** [dimo.tokenexchange.getVehicleJwt], given the developer token and the
    string [parseInt] reads the token id from, as [tokenexchange_exchange]
    is. *)
Variable tokenexchange_getVehicleJwt : JsVal -> string -> W -> outcome JsVal * W.

(** *** POST /api/auth/developer *)
Definition post_auth_developer : M (State W) Response :=
  try_catch
    (config <- loadConfig ;;
     if negb (truthy config)
     then ret (Json 400 (error_body
                 "No configuration found. Please configure the app first."))
     else
       args <- lift (credentials config) ;;
       developerJwt <- call AuthGetToken (auth_getToken dimo args) ;;
       ret (Json 200 developerJwt))
    (ret (Json 500 (error_body
            "Failed to authenticate with DIMO. Please check your credentials."))).

(** *** POST /api/auth/vehicle

    [parseInt(tokenId)] runs inside the [try] block, before the call. The
    [catch] block makes the string of [req.body.tokenId] for its log line
    and for its answer: for an id that has no string it throws in its
    turn, the handler's promise is rejected and no answer is sent. *)
Definition post_auth_vehicle (body : list (string * JsVal))
    : M (State W) Response :=
  try_catch
    (let tokenId := obj_get body "tokenId" in
     let developerJwt := obj_get body "developerJwt" in
     if negb (truthy tokenId) || negb (truthy developerJwt)
     then ret (Json 400 (error_body "Token ID and Developer JWT are required"))
     else
       text <- lift (ToString tokenId) ;;
       vehicleJwt <- call (TokenExchange tokenId)
                       (tokenexchange_getVehicleJwt developerJwt text) ;;
       ret (Json 200 vehicleJwt))
    (text <- lift (ToString (obj_get body "tokenId")) ;;
     ret (Json 500 (error_body
            ("Failed to get vehicle access for token " +:+ text)))).

End Tokens.

(** A vendor that refuses the developer token and everything after it. *)
Definition locked_out : DIMO unit :=
  {| auth_getToken := fun _ w => (Thrown, w);
     auth_getDeveloperJwt := fun _ w => (Thrown, w);
     tokenexchange_exchange := fun _ _ _ w => (Thrown, w);
     telemetry_query := fun _ _ _ _ w => (Thrown, w);
     identity_query := fun _ _ w => (Thrown, w) |}.

(** ** src/dimo-api-service.js and src/config-utils.js *)

(** A promise settled: resolved with a value or rejected with an [Error]
    of the given message. *)
Inductive result (A : Type) : Type :=
  | Resolved (a : A)
  | Rejected (message : string).
Arguments Resolved {A} a.
Arguments Rejected {A} message.

(** What [fetch] resolves to: the status line and what [response.json()]
    settles to. *)
Record Reply : Type := {
  status : Z;
  statusText : string;
  json : result JsVal
}.

(** [response.ok] *)
Definition ok (response : Reply) : bool :=
  Z.leb 200 (status response) && Z.leb (status response) 299.

(** [a && b] *)
Definition js_and (a b : JsVal) : JsVal := if truthy a then b else a.

(** A number, [null] or NaN. *)
Inductive NumberOrNull : Type :=
  | IsNull
  | IsNumber (n : Z)
  | IsNaN.

Module DimoApiService.
Section WithBrowser.
Variable browser : Browser.

(** The message of each TypeError. *)
Variable TypeError_message : TypeError -> string.

(** [errorData.error || `HTTP ${response.status}: ${response.statusText}`]
    after [response.json().catch(() => ({}))], as the message of the
    [Error] thrown for a reply that is not ok; the message of the
    TypeError when reading [errorData.error] or making the [Error]
    throws one. *)
Definition failure (response : Reply) : string :=
  let errorData :=
    match json response with
    | Resolved data => data
    | Rejected _ => JObj []
    end in
  match js_prop errorData "error" with
  | Thrown => TypeError_message PropertyOfNullish
  | Returned error =>
      match ToString (js_or error
                        (JStr ("HTTP " +:+ String_of_number (status response)
                                 +:+ ": " +:+ statusText response))) with
      | Returned message => message
      | Thrown => TypeError_message NotPrimitive
      end
  end.

(** The shape shared by [saveConfig], [deleteConfig] and [generateReport]:
    the parsed body of an ok reply, and every failure rethrown under the
    method's own prefix. *)
Definition settle (prefix : string) (fetched : result Reply) : result JsVal :=
  match fetched with
  | Rejected message => Rejected (prefix +:+ message)
  | Resolved response =>
      if negb (ok response)
      then Rejected (prefix +:+ failure response)
      else match json response with
           | Resolved data => Resolved data
           | Rejected message => Rejected (prefix +:+ message)
           end
  end.

Definition getConfig (fetched : result Reply) : result JsVal :=
  match fetched with
  | Rejected message => Rejected ("Failed to get configuration: " +:+ message)
  | Resolved response =>
      if negb (ok response)
      then if Z.eqb (status response) 404
           then Resolved JNull
           else Rejected ("Failed to get configuration: " +:+ failure response)
      else match json response with
           | Resolved data => Resolved data
           | Rejected message =>
               Rejected ("Failed to get configuration: " +:+ message)
           end
  end.

Definition saveConfig (fetched : result Reply) : result JsVal :=
  settle "Failed to save configuration: " fetched.

Definition deleteConfig (fetched : result Reply) : result JsVal :=
  settle "Failed to delete configuration: " fetched.

Definition generateReport (fetched : result Reply) : result JsVal :=
  settle "Failed to generate report: " fetched.

(** [payload.exp * 1000] for a truthy [exp]. *)
Definition times_1000 (exp : JsVal) : NumberOrNull :=
  match exp with
  | JNum n => IsNumber (n * 1000)
  | _ => match ToNumber browser exp with
         | Some n => IsNumber (n * 1000)
         | None => IsNaN
         end
  end.

Definition getJwtExpiration (jwt : string) : NumberOrNull :=
  if negb (truthy (JStr jwt)) then IsNull
  else
    let segment :=
      match split "." jwt !! 1%nat with
      | Some part => part
      | None => "undefined"
      end in
    match and_then (window_atob browser segment) (fun text =>
          and_then (window_JSON_parse browser text) (fun payload =>
          and_then (js_prop payload "exp") (fun exp =>
          Returned (if truthy exp then times_1000 exp else IsNull)))) with
    | Returned expiration => expiration
    | Thrown => IsNull
    end.

End WithBrowser.
End DimoApiService.

(** The reply a client sees for what a handler sent. [reason] gives the
    reason phrase of a status code; a download is not JSON. *)
Definition reply_of (reason : Z -> string) (response : Response) : Reply :=
  match response with
  | Json code body =>
      {| status := code; statusText := reason code; json := Resolved body |}
  | Download _ _ =>
      {| status := 200; statusText := reason 200;
         json := Rejected "Unexpected token in JSON" |}
  end.

Module ConfigUtils.
Section WithBrowser.

(** [String.prototype.trim] *)
Variable trim : string -> string.
Variable TypeError_message : TypeError -> string.

(** The object [checkAppConfiguration] resolves to. *)
Record Checked : Type := {
  isConfigured : JsVal;
  config : JsVal;
  error : JsVal
}.

(** [v.trim() !== ''], a TypeError when [v] has no such method. *)
Definition not_blank (v : JsVal) : outcome JsVal :=
  match v with
  | JStr s => Returned (JBool (negb (String.eqb (trim s) EmptyString)))
  | _ => Thrown
  end.

(** The [&&] chain of [checkAppConfiguration], left to right. *)
Definition evaluate (config : JsVal) : outcome JsVal :=
  if negb (truthy config) then Returned config
  else
    and_then (js_prop config "clientId") (fun clientId =>
    if negb (truthy clientId) then Returned clientId
    else
      and_then (js_prop config "apiKey") (fun apiKey =>
      if negb (truthy apiKey) then Returned apiKey
      else
        and_then (not_blank clientId) (fun first =>
        if negb (truthy first) then Returned first
        else not_blank apiKey))).

(** [checkAppConfiguration], given what [dimoApiService.getConfig()]
    settled to. *)
Definition checkAppConfiguration (loaded : result JsVal) : Checked :=
  match loaded with
  | Rejected message =>
      {| isConfigured := JBool false; config := JNull; error := JStr message |}
  | Resolved config =>
      match evaluate config with
      | Thrown =>
          {| isConfigured := JBool false; config := JNull;
             error := JStr (TypeError_message NotAFunction) |}
      | Returned isConfigured =>
          {| isConfigured := isConfigured;
             config := if truthy isConfigured then config else JNull;
             error := JNull |}
      end
  end.

End WithBrowser.
End ConfigUtils.

(** ** src/storage-service.js

    The page keeps [localStorage], the listeners registered with the
    service, given by their identities in the order they were added, and
    the notifications delivered so far. A listener is code from outside:
    it acts on the outside world [W] and may throw; listeners that call
    back into the service or the storage are not modelled. *)

Record Page (W : Type) : Type := {
  localStorage : gmap string string;
  listeners : list nat;
  delivered : list (nat * string * JsVal);
  outside : W
}.
Arguments localStorage {W}.
Arguments listeners {W}.
Arguments delivered {W}.
Arguments outside {W}.

Definition put_localStorage {W} (store : gmap string string) (p : Page W)
    : Page W :=
  {| localStorage := store; listeners := listeners p;
     delivered := delivered p; outside := outside p |}.

Definition put_listeners {W} (l : list nat) (p : Page W) : Page W :=
  {| localStorage := localStorage p; listeners := l;
     delivered := delivered p; outside := outside p |}.

Definition put_delivered {W} (d : list (nat * string * JsVal)) (p : Page W)
    : Page W :=
  {| localStorage := localStorage p; listeners := listeners p;
     delivered := d; outside := outside p |}.

Definition put_outside {W} (w : W) (p : Page W) : Page W :=
  {| localStorage := localStorage p; listeners := listeners p;
     delivered := delivered p; outside := w |}.

Module StorageService.

(** [StorageService.KEYS] *)
Definition DIMO_JWT : string := "dimo_jwt".
Definition DIMO_JWT_TIMESTAMP : string := "dimo_jwt_timestamp".
Definition USER_JWT : string := "user_jwt".
Definition USER_JWT_TIMESTAMP : string := "user_jwt_timestamp".
Definition OAUTH_STATE : string := "oauth_state".

(** [Object.values(StorageService.KEYS)] *)
Definition KEYS : list string :=
  [DIMO_JWT; DIMO_JWT_TIMESTAMP; USER_JWT; USER_JWT_TIMESTAMP; OAUTH_STATE].

Section WithBrowser.
Context {W : Type}.
Variable browser : Browser.

(** The listener of a given identity, called with a key and a value. *)
Variable callback : nat -> string -> JsVal -> W -> outcome unit * W.

(** One call [callback(key, value)], recorded. *)
Definition invoke (listener : nat) (key : string) (value : JsVal)
    : M (Page W) unit :=
  modify (fun p => put_delivered (delivered p ++ [(listener, key, value)]) p) ;;
  fun p => let (o, w) := callback listener key value (outside p) in
           (o, put_outside w p).

Definition notifyListeners (key : string) (value : JsVal) : M (Page W) unit :=
  registered <- gets listeners ;;
  forEach registered
    (fun listener _ => try_catch (invoke listener key value) (ret tt)).

(** [localStorage.setItem], which stores the string of the value and
    throws for a value that has none, [getItem] and [removeItem] *)
Definition localStorage_setItem (key : string) (value : JsVal)
    : M (Page W) unit :=
  text <- lift (ToString value) ;;
  modify (fun p => put_localStorage (<[key := text]> (localStorage p)) p).

Definition localStorage_getItem (key : string) : M (Page W) JsVal :=
  gets (fun p => match localStorage p !! key with
                 | Some value => JStr value
                 | None => JNull
                 end).

Definition localStorage_removeItem (key : string) : M (Page W) unit :=
  modify (fun p => put_localStorage (delete key (localStorage p)) p).

Definition setItem (key : string) (value : JsVal) : M (Page W) unit :=
  localStorage_setItem key value ;;
  notifyListeners key value.

Definition getItem (key : string) : M (Page W) JsVal :=
  localStorage_getItem key.

Definition removeItem (key : string) : M (Page W) unit :=
  localStorage_removeItem key ;;
  notifyListeners key JNull.

Definition clearAll : M (Page W) unit :=
  forEach KEYS (fun key _ => localStorage_removeItem key) ;;
  notifyListeners "all" JNull.

Definition clearUserSession : M (Page W) unit :=
  removeItem USER_JWT ;;
  removeItem USER_JWT_TIMESTAMP ;;
  removeItem OAUTH_STATE.

Definition isUserAuthenticated : M (Page W) JsVal :=
  userJwt <- getItem USER_JWT ;;
  match userJwt with
  | JStr jwt =>
      if negb (truthy userJwt) then ret (JBool false)
      else ret (isJWTValid browser jwt)
  | _ => ret (JBool false)
  end.

Definition getUserJwt : M (Page W) JsVal := getItem USER_JWT.

Definition getUserWalletAddress : M (Page W) JsVal :=
  getItem "user_wallet_address".

Definition getUserEmail : M (Page W) JsVal := getItem "user_email".

Definition setUserSession (userSession : JsVal) : M (Page W) unit :=
  let now := JStr (String_of_number (Date_now browser)) in
  match userSession with
  | JStr _ =>
      setItem USER_JWT userSession ;;
      setItem USER_JWT_TIMESTAMP now
  | JNull => throw
  | JObj fields =>
      if truthy (obj_get fields "jwt")
      then
        setItem USER_JWT (obj_get fields "jwt") ;;
        stamp <- (if truthy (obj_get fields "timestamp")
                  then text <- lift (ToString (obj_get fields "timestamp")) ;;
                       ret (JStr text)
                  else ret now) ;;
        setItem USER_JWT_TIMESTAMP stamp ;;
        (if truthy (obj_get fields "walletAddress")
         then setItem "user_wallet_address" (obj_get fields "walletAddress")
         else ret tt) ;;
        (if truthy (obj_get fields "email")
         then setItem "user_email" (obj_get fields "email")
         else ret tt)
      else ret tt
  | _ => ret tt
  end.

Definition setOAuthState (state : JsVal) : M (Page W) unit :=
  setItem OAUTH_STATE state.

Definition getOAuthState : M (Page W) JsVal := getItem OAUTH_STATE.

Definition clearOAuthState : M (Page W) unit := removeItem OAUTH_STATE.

(** [this.listeners.add(callback)] and [this.listeners.delete(callback)] *)
Definition addListener (listener : nat) : M (Page W) unit :=
  modify (fun p => if bool_decide (listener ∈ listeners p) then p
                   else put_listeners (listeners p ++ [listener]) p).

Definition removeListener (listener : nat) : M (Page W) unit :=
  modify (fun p => put_listeners
                     (filter (fun other => other <> listener) (listeners p)) p).

Definition getAppState : M (Page W) JsVal :=
  isAuthenticated <- isUserAuthenticated ;;
  userJwt <- getUserJwt ;;
  ret (JObj [("isAuthenticated", isAuthenticated); ("userJwt", userJwt)]).

End WithBrowser.
End StorageService.

(** ** src/vehicles-page.js: the request of [generateReport] *)

Definition is_digit (c : ascii) : bool :=
  (48 <=? nat_of_ascii c)%nat && (nat_of_ascii c <=? 57)%nat.

(** [/^\d{4}-\d{2}-\d{2}$/.test(s)] *)
Definition dateRegex_test (s : string) : bool :=
  match s with
  | String y1 (String y2 (String y3 (String y4 (String h1
      (String m1 (String m2 (String h2
        (String d1 (String d2 EmptyString))))))))) =>
      is_digit y1 && is_digit y2 && is_digit y3 && is_digit y4
      && Ascii.eqb h1 "-"
      && is_digit m1 && is_digit m2
      && Ascii.eqb h2 "-"
      && is_digit d1 && is_digit d2
  | _ => false
  end.

Module VehiclesPage.
Section WithBrowser.

(** The time value of [new Date(s)], [None] for an invalid date. *)
Variable Date_getTime : string -> option Z.

(** [new Date(a) > new Date(b)] *)
Definition later (a b : string) : bool :=
  match Date_getTime a, Date_getTime b with
  | Some x, Some y => Z.ltb y x
  | _, _ => false
  end.

(** The checks of [generateReport] on the page's dates and selected
    vehicles: the message alerted, or the body sent to the backend.
    [selectedVehicles] lists the elements of the page's set: the strings
    a checkbox gives ([event.target.value]) and the token ids of the
    listing that select-all puts in, which are numbers. *)
Definition request (startDate endDate : string) (selectedVehicles : list JsVal)
    : string + list (string * JsVal) :=
  if negb (truthy (JStr startDate)) || negb (truthy (JStr endDate))
  then inl "Please select both start and end dates."
  else if Nat.eqb (length selectedVehicles) 0
  then inl "Please select at least one vehicle."
  else if negb (dateRegex_test startDate) || negb (dateRegex_test endDate)
  then inl "Please use YYYY-MM-DD format for dates."
  else if later startDate endDate
  then inl "Start date must be before end date."
  else inr [("vehicleTokenIds", JArr selectedVehicles);
            ("startDate", JStr startDate);
            ("endDate", JStr endDate)].

End WithBrowser.
End VehiclesPage.

(** A calendar for the worked examples: the time value of a date is left
    out, so no date is later than another. *)
Definition no_calendar : string -> option Z := fun _ => None.

(** Status codes and their reason phrases, as far as the examples go. *)
Definition reason_phrase (code : Z) : string :=
  if Z.eqb code 200 then "OK"
  else if Z.eqb code 400 then "Bad Request"
  else if Z.eqb code 404 then "Not Found"
  else "Internal Server Error".

(** A page with one well-behaved and one throwing listener. *)
Definition example_callback (listener : nat) (key : string) (value : JsVal)
    (w : unit) : outcome unit * unit :=
  (if Nat.eqb listener 1 then Thrown else Returned tt, w).

Definition example_page : Page unit :=
  {| localStorage := {["user_wallet_address" := "0xfeed"]};
     listeners := [1%nat; 2%nat];
     delivered := [];
     outside := tt |}.

(** What the page concludes from a reply of [GET /api/config]:
    [checkAppConfiguration] on [getConfig] on the handler's response. *)
Definition check_through (reason : Z -> string) (trim : string -> string)
    (TypeError_message : TypeError -> string) (response : Response)
    : ConfigUtils.Checked :=
  ConfigUtils.checkAppConfiguration trim TypeError_message
    (DimoApiService.getConfig TypeError_message
       (Resolved (reply_of reason response))).

(** What the page gets from [dimoApiService.generateReport] for a response
    of [POST /api/reports/generate]. *)
Definition report_through (reason : Z -> string)
    (TypeError_message : TypeError -> string) (response : Response)
    : result JsVal :=
  DimoApiService.generateReport TypeError_message
    (Resolved (reply_of reason response)).

(** A vendor whose catalogue has a vehicle without a definition. *)
Definition broken_catalog : DIMO unit :=
  scripted
    (fun _ => Thrown)
    (fun _ => Thrown)
    (Returned
       {| Identity.data :=
            Some {| Identity.vehicles :=
              {| Identity.totalCount := 1;
                 Identity.pageInfo := JObj [("hasNextPage", JBool false)];
                 Identity.nodes :=
                   [{| Identity.tokenId := 11;
                       Identity.definition := None;
                       Identity.aftermarketDevice := None;
                       Identity.syntheticDevice := None |}] |} |} |}).

(** A vehicle-token exchange that knows vehicle 42 only. *)
Definition example_getVehicleJwt (developerJwt : JsVal) (tokenId : string)
    (w : unit) : outcome JsVal * unit :=
  (if String.eqb tokenId "42" then Returned (JStr "vehicle-jwt") else Thrown, w).

(** The messages of the TypeErrors, as one engine words them. *)
Definition example_messages (e : TypeError) : string :=
  match e with
  | PropertyOfNullish => "Cannot read properties of null"
  | NotAFunction => "config.clientId.trim is not a function"
  | NotPrimitive => "Cannot convert object to primitive value"
  end.

(** A browser that decodes one token payload, an object whose [exp] is
    9999999999; the decoded text stands for the JSON in between. *)
Definition token_browser : Browser :=
  {| window_atob :=
       fun s => if String.eqb s "eyJleHAiOjk5OTk5OTk5OTl9"
                then Returned "payload" else Thrown;
     window_JSON_parse :=
       fun text => if String.eqb text "payload"
                   then Returned (JObj [("exp", JNum 9999999999)])
                   else Thrown;
     Date_now := 1705314645123;
     ToNumber := fun _ => None |}.

(** * Properties *)

(** ** Reasoning about [M] *)

Section Monad.
Context {St A B : Type}.

Lemma bind_returned (m : M St A) (k : A -> M St B) s b s' :
  bind m k s = (Returned b, s') ->
  exists a s1, m s = (Returned a, s1) /\ k a s1 = (Returned b, s').
Proof.
  unfold bind. destruct (m s) as [[a|] s1]; intros H.
  - exists a, s1. split; [reflexivity | exact H].
  - discriminate H.
Qed.

Lemma bind_run (m : M St A) (k : A -> M St B) s a s1 :
  m s = (Returned a, s1) -> bind m k s = k a s1.
Proof. unfold bind. intros ->. reflexivity. Qed.

Lemma try_catch_run (m handler : M St A) s a s1 :
  m s = (Returned a, s1) -> try_catch m handler s = (Returned a, s1).
Proof. unfold try_catch. intros ->. reflexivity. Qed.

Lemma try_catch_caught (m handler : M St A) s s1 :
  m s = (Thrown, s1) -> try_catch m handler s = handler s1.
Proof. unfold try_catch. intros ->. reflexivity. Qed.

Lemma try_catch_returned (m handler : M St A) s a s' :
  try_catch m handler s = (Returned a, s') ->
  m s = (Returned a, s')
  \/ exists s1, m s = (Thrown, s1) /\ handler s1 = (Returned a, s').
Proof.
  unfold try_catch. destruct (m s) as [[a0|] s1]; intros H.
  - left. exact H.
  - right. exists s1. split; [reflexivity | exact H].
Qed.

Lemma ret_returned (a a' : A) (s s' : St) :
  ret a s = (Returned a', s') -> a = a' /\ s = s'.
Proof. unfold ret. intros [= -> ->]. split; reflexivity. Qed.

Lemma lift_returned (o : outcome A) (a : A) (s s' : St) :
  lift o s = (Returned a, s') -> o = Returned a /\ s = s'.
Proof. unfold lift. intros [= -> ->]. split; reflexivity. Qed.

End Monad.

(** ** Strings *)

Lemma substring_all s : String.substring 0 (String.length s) s = s.
Proof. induction s as [|c s IH]; simpl; [reflexivity | now rewrite IH]. Qed.

Lemma substring_skip p suffix :
  String.substring (String.length p) (String.length suffix) (p +:+ suffix)
  = suffix.
Proof. induction p as [|c p IH]; simpl; [apply substring_all | exact IH]. Qed.

Lemma substring_split s k :
  (k <= String.length s)%nat ->
  s = String.substring 0 k s +:+ String.substring k (String.length s - k) s.
Proof.
  revert k. induction s as [|c s IH]; intros [|k] Hk.
  - reflexivity.
  - simpl in Hk. lia.
  - simpl. now rewrite substring_all.
  - simpl in Hk.
    change (String c s
            = String c (String.substring 0 k s
                          +:+ String.substring k (String.length s - k) s)).
    f_equal. apply IH. lia.
Qed.

Lemma string_app_length (a b : string) :
  String.length (a +:+ b) = (String.length a + String.length b)%nat.
Proof. induction a as [|c a IH]; simpl; [reflexivity | now rewrite IH]. Qed.

Lemma replace_colon_dot_length s :
  String.length (replace_colon_dot s) = String.length s.
Proof. induction s as [|c s IH]; simpl; [reflexivity | now rewrite IH]. Qed.

Lemma replace_colon_dot_get s :
  forall i,
    String.get i (replace_colon_dot s)
    = (fun c => if Ascii.eqb c ":" || Ascii.eqb c "." then "-"%char else c)
        <$> String.get i s.
Proof.
  induction s as [|c s IH]; intros [|i]; simpl; try reflexivity. apply IH.
Qed.

(** [endsWith] holds exactly of the strings that end with the suffix. *)
Lemma endsWith_spec s suffix :
  endsWith s suffix = true <-> exists p, s = p +:+ suffix.
Proof.
  unfold endsWith. split.
  - destruct (Nat.leb_spec (String.length suffix) (String.length s)) as [Hle|Hlt];
      [|discriminate].
    intros H. apply String.eqb_eq in H.
    exists (String.substring 0 (String.length s - String.length suffix) s).
    pose proof (substring_split s (String.length s - String.length suffix))
      as Hs.
    replace (String.length s - (String.length s - String.length suffix))%nat
      with (String.length suffix) in Hs by lia.
    rewrite H in Hs. apply Hs. lia.
  - intros [p ->]. rewrite string_app_length.
    destruct (Nat.leb_spec (String.length suffix)
                (String.length p + String.length suffix)) as [_|Hlt]; [|lia].
    replace (String.length p + String.length suffix - String.length suffix)%nat
      with (String.length p) by lia.
    rewrite substring_skip. apply String.eqb_refl.
Qed.

Create HintDb handler.
#[export] Hint Unfold ret throw bind try_catch lift gets modify : handler.
#[export] Hint Unfold log set_tmpDir set_reportData call now_iso
  fs_writeFile fs_readFile fs_access fs_unlink fs_readdir
  saveConfig loadConfig : handler.

Ltac run := repeat (autounfold with handler; simpl).

Section ServerFacts.
Context {W : Type}.
Variable dimo : DIMO W.
Variable runtime : Runtime W.

Lemma loadConfig_run (s : State W) :
  loadConfig s
  = (Returned (stored_config (tmpDir s)), add_log (FsReadFile "app-config.json") s).
Proof.
  destruct s as [w [entries|] rows lg]; [|reflexivity].
  run. destruct (entries !! "app-config.json") as [[[v| |]|]|]; reflexivity.
Qed.

Lemma post_config_run body (s : State W) entries :
  truthy (obj_get body "clientId") = true ->
  truthy (obj_get body "apiKey") = true ->
  tmpDir s = Some entries ->
  entries !! "app-config.json" <> Some Directory ->
  let iso := fst (Date_toISOString runtime (world s)) in
  let config :=
    JObj [("clientId", obj_get body "clientId");
          ("apiKey", obj_get body "apiKey");
          ("redirectUri",
           js_or (obj_get body "redirectUri") (JStr "http://localhost:5173"));
          ("createdAt", JStr iso)] in
  post_config runtime body s
  = (Returned (Json 200 (JObj [("message", JStr "Configuration saved successfully");
                               ("config", config)])),
     put_tmpDir (Some (<["app-config.json" := File (JsonText config)]> entries))
       (add_log (FsWriteFile "app-config.json")
          (put_world (snd (Date_toISOString runtime (world s)))
             (add_log ClockRead s)))).
Proof.
  intros Hc Hk Hdir Hnd. destruct s as [w dir rows lg]. simpl in *. subst dir.
  unfold post_config. rewrite Hc, Hk. run.
  destruct (Date_toISOString runtime w) as [iso w'] eqn:E. run.
  destruct (entries !! "app-config.json") as [[d|]|] eqn:El; try reflexivity.
  congruence.
Qed.

Lemma listReports_run (s : State W) :
  listReports s
  = (Returned match tmpDir s with
              | Some entries =>
                  filter (fun file => endsWith file ".csv" = true)
                         (map fst (map_to_list entries))
              | None => []
              end,
     add_log FsReaddir s).
Proof. destruct s as [w [entries|] rows lg]; reflexivity. Qed.

(** C9. On every state of the directory [listReports] returns a list: the
    empty list when the directory cannot be read, otherwise exactly the
    entries whose name ends in .csv; GET /api/reports answers 200 with
    that list. *)
Theorem listReports_total (s : State W) :
  exists names s',
    listReports s = (Returned names, s') /\
    (tmpDir s = None -> names = []) /\
    (forall name, name ∈ names -> exists stem, name = stem +:+ ".csv") /\
    (forall entries,
       tmpDir s = Some entries ->
       forall name,
         name ∈ names
         <-> is_Some (entries !! name) /\ endsWith name ".csv" = true) /\
    get_reports s
    = (Returned (Json 200 (JObj [("reports", JArr (map JStr names))])), s').
Proof.
  eexists _, _. split; [apply listReports_run|].
  split; [intros ->; reflexivity|].
  split; [|split].
  - intros name Hin. apply endsWith_spec.
    destruct (tmpDir s) as [entries|]; [|inversion Hin].
    apply list_elem_of_filter in Hin. apply Hin.
  - intros entries -> name. rewrite list_elem_of_filter, list_elem_of_fmap.
    split.
    + intros [He [[k e] [-> Hin]]]. split; [|exact He].
      apply elem_of_map_to_list in Hin. simpl. eauto.
    + intros [[e He] Hs]. split; [exact Hs|].
      exists (name, e). split; [reflexivity|]. now apply elem_of_map_to_list.
  - unfold get_reports. erewrite try_catch_run; [reflexivity|].
    erewrite bind_run by apply listReports_run. reflexivity.
Qed.

Lemma delete_config_run (s : State W) :
  delete_config s
  = match tmpDir s with
    | Some entries =>
        match entries !! "app-config.json" with
        | Some (File _) =>
            (Returned (Json 200 (JObj [("message",
                         JStr "Configuration deleted successfully")])),
             put_tmpDir (Some (delete "app-config.json" entries))
               (add_log (FsUnlink "app-config.json")
                  (add_log (FsAccess "app-config.json") s)))
        | Some Directory =>
            (Returned (Json 500 (error_body "Failed to delete configuration")),
             add_log (FsUnlink "app-config.json")
               (add_log (FsAccess "app-config.json") s))
        | None =>
            (Returned (Json 404 (error_body "No configuration found")),
             add_log (FsAccess "app-config.json") s)
        end
    | None =>
        (Returned (Json 404 (error_body "No configuration found")),
         add_log (FsAccess "app-config.json") s)
    end.
Proof.
  destruct s as [w [entries|] rows lg]; [|reflexivity].
  unfold delete_config. run.
  destruct (entries !! "app-config.json") as [[d|]|] eqn:E; run;
    rewrite ?E; reflexivity.
Qed.

Lemma delete_then_load (s s2 : State W) body :
  delete_config s = (Returned (Json 200 body), s2) ->
  fst (loadConfig s2) = Returned JNull.
Proof.
  rewrite delete_config_run, loadConfig_run.
  destruct (tmpDir s) as [entries|]; [|discriminate].
  destruct (entries !! "app-config.json") as [[d|]|]; try discriminate.
  intros [= _ <-]. simpl. now rewrite lookup_delete_eq.
Qed.

(** C4, as amended. With a non-empty clientId and apiKey and a writable
    store, saving answers 200 and loading returns the saved record: the
    same clientId and apiKey, the redirectUri that was sent, or the default
    http://localhost:5173 when the one sent is missing or falsy (the empty
    string among them), and a createdAt; after a successful delete, load
    returns null; and load returns a value on every store, null when the
    directory or the record is missing, when the record cannot be read and
    when it is not JSON. *)
Theorem config_save_load_delete body (s : State W) entries :
  truthy (obj_get body "clientId") = true ->
  truthy (obj_get body "apiKey") = true ->
  tmpDir s = Some entries ->
  entries !! "app-config.json" <> Some Directory ->
  (exists config createdAt s1 s2,
     post_config runtime body s
     = (Returned (Json 200 (JObj [("message",
                                   JStr "Configuration saved successfully");
                                  ("config", config)])), s1) /\
     js_prop config "clientId" = Returned (obj_get body "clientId") /\
     js_prop config "apiKey" = Returned (obj_get body "apiKey") /\
     js_prop config "redirectUri"
     = Returned (js_or (obj_get body "redirectUri")
                       (JStr "http://localhost:5173")) /\
     js_prop config "createdAt" = Returned (JStr createdAt) /\
     fst (loadConfig s1) = Returned config /\
     fst (get_config s1) = Returned (Json 200 config) /\
     delete_config s1
     = (Returned (Json 200 (JObj [("message",
                                   JStr "Configuration deleted successfully")])),
        s2) /\
     fst (loadConfig s2) = Returned JNull) /\
  (forall (s0 s2 : State W) answer,
     delete_config s0 = (Returned (Json 200 answer), s2) ->
     fst (loadConfig s2) = Returned JNull) /\
  (forall s0 : State W, exists v, fst (loadConfig s0) = Returned v) /\
  (forall s0 : State W, fst (loadConfig (put_tmpDir None s0)) = Returned JNull) /\
  (forall (s0 : State W) files,
     fst (loadConfig (put_tmpDir (Some (delete "app-config.json" files)) s0))
     = Returned JNull) /\
  (forall (s0 : State W) files,
     fst (loadConfig
            (put_tmpDir (Some (<["app-config.json" := Directory]> files)) s0))
     = Returned JNull) /\
  (forall (s0 : State W) files d,
     JSON_parse d = Thrown ->
     fst (loadConfig
            (put_tmpDir (Some (<["app-config.json" := File d]> files)) s0))
     = Returned JNull).
Proof.
  intros Hc Hk Hdir Hnd.
  split; [|split; [|split; [|split; [|split; [|split]]]]].
  - eexists _, _, _, _.
    split; [apply (post_config_run body s entries Hc Hk Hdir Hnd)|].
    repeat (split; [reflexivity|]).
    split; [|split; [|split]].
    + rewrite loadConfig_run. simpl. now rewrite lookup_insert_eq.
    + unfold get_config. unfold try_catch at 1, bind at 1.
      rewrite loadConfig_run. simpl. now rewrite lookup_insert_eq.
    + rewrite delete_config_run. simpl. rewrite lookup_insert_eq. reflexivity.
    + rewrite loadConfig_run. simpl. now rewrite lookup_delete_eq.
  - intros s0 s2 answer. apply delete_then_load.
  - intros s0. rewrite loadConfig_run. eauto.
  - intros s0. now rewrite loadConfig_run.
  - intros s0 files. rewrite loadConfig_run. simpl. now rewrite lookup_delete_eq.
  - intros s0 files. rewrite loadConfig_run. simpl. now rewrite lookup_insert_eq.
  - intros s0 files d Hd. rewrite loadConfig_run. simpl.
    rewrite lookup_insert_eq. destruct d; [discriminate Hd| |]; reflexivity.
Qed.

Lemma push_run row (s : State W) :
  push row s = (Returned tt, put_reportData (reportData s ++ [row]) s).
Proof. reflexivity. Qed.

Lemma put_reportData_twice rows1 rows2 (s : State W) :
  put_reportData rows2 (put_reportData rows1 s) = put_reportData rows2 s.
Proof. reflexivity. Qed.

(** A reading is the sample's value as a number, whenever the value is one:
    the only values the handler changes are -0, which it reads as 0, and
    NaN, which the vendor's JSON cannot carry. *)
Lemma reading_value signal :
  PrimFloat.is_nan (value signal) = false ->
  same_number (reading signal) (value signal).
Proof.
  unfold reading, value, or_zero, same_number, falsy.
  destruct (Telemetry.powertrainTransmissionTravelledDistance signal) as [x|];
    [|reflexivity].
  intros Hnan. rewrite Hnan, orb_false_r.
  destruct (PrimFloat.eqb 0 x) eqn:E; [exact E|].
  unfold PrimFloat.is_nan in Hnan. now apply negb_false_iff in Hnan.
Qed.

Lemma reading_absent signal :
  Telemetry.powertrainTransmissionTravelledDistance signal = None ->
  reading signal = 0%float.
Proof. unfold reading. now intros ->. Qed.

(** A truthy value is read as it is. *)
Lemma value_reading signal x :
  value signal = x -> falsy x = false -> reading signal = x.
Proof.
  unfold reading, value, or_zero.
  destruct (Telemetry.powertrainTransmissionTravelledDistance signal) as [v|];
    intros <- H; [now rewrite H|].
  vm_compute in H. discriminate H.
Qed.

Lemma signalRow_run tokenId vin signals index signal (s : State W) :
  signals !! index = Some signal ->
  signalRow tokenId vin signals signal index s
  = (Returned tt,
     put_reportData
       (reportData s
          ++ [derivedRow tokenId vin
                match index with O => None | S j => signals !! j end
                signal]) s).
Proof.
  intros Hi. unfold signalRow, derivedRow, reading.
  destruct index as [|j]; [reflexivity|].
  assert (Hj : is_Some (signals !! j)).
  { apply lookup_lt_is_Some. apply lookup_lt_Some in Hi. lia. }
  destruct Hj as [previous Hj].
  replace (S j - 1)%nat with j by lia.
  unfold bind, lift, opt, ret. rewrite Hj. reflexivity.
Qed.

Lemma forEach_from_signalRow tokenId vin signals rest :
  forall pre (s : State W),
    signals = pre ++ rest ->
    forEach_from (length pre) rest (signalRow tokenId vin signals) s
    = (Returned tt,
       put_reportData
         (reportData s ++ derivedRows tokenId vin (last pre) rest) s).
Proof.
  induction rest as [|signal rest IH]; intros pre s Hs.
  - destruct s. simpl. unfold ret, put_reportData. simpl.
    now rewrite app_nil_r.
  - simpl forEach_from.
    assert (Hi : signals !! length pre = Some signal).
    { subst signals. now rewrite list_lookup_middle. }
    erewrite bind_run by (apply signalRow_run; exact Hi).
    replace (S (length pre)) with (length (pre ++ [signal]))
      by (rewrite length_app; simpl; lia).
    rewrite IH by (subst signals; now rewrite <- app_assoc).
    rewrite put_reportData_twice, last_snoc. simpl.
    rewrite <- app_assoc. simpl.
    replace (match length pre with O => None | S j => signals !! j end)
      with (last pre); [reflexivity|].
    rewrite last_lookup. subst signals.
    destruct pre as [|p pre]; [reflexivity|].
    change (length (p :: pre)) with (S (length pre)). cbv iota beta.
    change (Nat.pred (S (length pre))) with (length pre).
    symmetry. apply lookup_app_l. simpl. lia.
Qed.

Lemma forEach_signalRow tokenId vin signals (s : State W) :
  forEach signals (signalRow tokenId vin signals) s
  = (Returned tt,
     put_reportData (reportData s ++ derivedRows tokenId vin None signals) s).
Proof. apply (forEach_from_signalRow tokenId vin signals signals []). reflexivity. Qed.

Lemma derivedRows_length tokenId vin previous signals :
  length (derivedRows tokenId vin previous signals) = length signals.
Proof.
  revert previous. induction signals as [|x l IH]; intros previous; simpl;
    [reflexivity | now rewrite IH].
Qed.

Lemma derivedRows_lookup tokenId vin signals :
  forall previous i signal,
    signals !! i = Some signal ->
    derivedRows tokenId vin previous signals !! i
    = Some (derivedRow tokenId vin
              match i with O => previous | S j => signals !! j end signal).
Proof.
  induction signals as [|x l IH]; intros previous i signal Hi; [discriminate|].
  destruct i as [|i]; simpl in *.
  - now injection Hi as ->.
  - rewrite (IH (Some x) i signal Hi). destruct i; reflexivity.
Qed.

(** Every row but the first carries the difference of its own reading and
    the reading of the row before it. *)
Lemma derivedRows_consecutive tokenId vin signals i before row :
  derivedRows tokenId vin None signals !! i = Some before ->
  derivedRows tokenId vin None signals !! S i = Some row ->
  exists x y,
    odometerReading before = Measured x
    /\ odometerReading row = Measured y
    /\ travelledDistance row = PrimFloat.sub y x.
Proof.
  intros Hb Hr.
  assert (Hi : is_Some (signals !! i)).
  { apply lookup_lt_is_Some. apply lookup_lt_Some in Hb.
    now rewrite derivedRows_length in Hb. }
  assert (Hj : is_Some (signals !! S i)).
  { apply lookup_lt_is_Some. apply lookup_lt_Some in Hr.
    now rewrite derivedRows_length in Hr. }
  destruct Hi as [previous Hi], Hj as [signal Hj].
  rewrite (derivedRows_lookup _ _ _ _ _ _ Hi) in Hb.
  rewrite (derivedRows_lookup _ _ _ _ _ _ Hj) in Hr.
  injection Hb as <-. injection Hr as <-. rewrite Hi.
  exists (reading previous), (reading signal). repeat split.
Qed.

Lemma call_run {A} e (f : W -> outcome A * W) (s : State W) :
  call e f s = (fst (f (world s)), put_world (snd (f (world s))) (add_log e s)).
Proof. run. destruct (f (world s)); reflexivity. Qed.

(** The [try] block of a vehicle whose token id and dates have strings: the
    two calls, in order, then the rows of the answer. *)
Lemma fetchVehicle_run developerJwt startDate endDate tokenId id from to
    (s : State W) :
  ToString tokenId = Returned id ->
  ToString startDate = Returned from ->
  ToString endDate = Returned to ->
  fetchVehicle dimo developerJwt startDate endDate tokenId s
  = let s1 := add_log (TokenExchange tokenId) s in
    match tokenexchange_exchange dimo developerJwt [1] id (world s) with
    | (Thrown, w1) => (Thrown, put_world w1 s1)
    | (Returned vehicleJwt, w1) =>
        let s2 := add_log (TelemetryQuery tokenId) (put_world w1 s1) in
        match telemetry_query dimo vehicleJwt id from to w1 with
        | (Thrown, w2) => (Thrown, put_world w2 s2)
        | (Returned telemetryResult, w2) =>
            match Telemetry.data telemetryResult with
            | None => (Thrown, put_world w2 s2)
            | Some data =>
                (Returned tt,
                 put_reportData (reportData s ++ rowsOf tokenId data)
                   (put_world w2 s2))
            end
        end
    end.
Proof.
  intros Hid Hfrom Hto. unfold fetchVehicle. rewrite Hid, Hfrom, Hto.
  unfold bind at 1, lift at 1. unfold bind at 1. rewrite call_run.
  destruct (tokenexchange_exchange dimo developerJwt [1] id (world s))
    as [[vehicleJwt|] w1]; simpl; [|reflexivity].
  unfold bind at 1, lift at 1. unfold bind at 1, lift at 1.
  unfold bind at 1, lift at 1. unfold bind at 1. rewrite call_run. simpl.
  destruct (telemetry_query dimo vehicleJwt id from to w1)
    as [[[[data|]]|] w2]; simpl; try reflexivity.
  unfold bind, lift. simpl. unfold rowsOf, vinOf.
  destruct (Telemetry.signals data) as [signals|].
  - rewrite forEach_signalRow. reflexivity.
  - rewrite push_run. reflexivity.
Qed.

(** For a token id that has no string the turn of the loop throws, before
    any call: [parseInt] throws in the [try] block and the log line of the
    [catch] block throws again. *)
Lemma processVehicle_unprintable developerJwt startDate endDate tokenId
    (s : State W) :
  ToString tokenId = Thrown ->
  processVehicle dimo developerJwt startDate endDate tokenId s = (Thrown, s).
Proof.
  intros H. unfold processVehicle, fetchVehicle, try_catch, bind, lift.
  now rewrite H.
Qed.

(** One turn of the loop for a token id and dates that have strings: it
    returns, and it adds the rows of the vehicle's fate. *)
Lemma processVehicle_run developerJwt startDate endDate tokenId id from to
    (s : State W) :
  ToString tokenId = Returned id ->
  ToString startDate = Returned from ->
  ToString endDate = Returned to ->
  exists s',
    processVehicle dimo developerJwt startDate endDate tokenId s
    = (Returned tt, s')
    /\ reportData s'
       = reportData s
           ++ rowsFor tokenId
                (fst (fate dimo developerJwt from to id (world s)))
    /\ world s' = snd (fate dimo developerJwt from to id (world s))
    /\ tmpDir s' = tmpDir s.
Proof.
  intros Hid Hfrom Hto. unfold processVehicle, try_catch.
  rewrite (fetchVehicle_run _ _ _ _ _ _ _ s Hid Hfrom Hto). cbv zeta.
  unfold fate.
  destruct (tokenexchange_exchange dimo developerJwt [1] id (world s))
    as [[vehicleJwt|] w1].
  - destruct (telemetry_query dimo vehicleJwt id from to w1)
      as [[[[data|]]|] w2]; simpl.
    + eexists. repeat split.
    + unfold bind, lift. rewrite Hid, push_run. eexists. repeat split.
    + unfold bind, lift. rewrite Hid, push_run. eexists. repeat split.
  - unfold bind, lift. rewrite Hid, push_run. eexists. repeat split.
Qed.

(** C2. A vehicle whose token exchange and telemetry query succeed with a
    non-empty series adds one row per sample, in order. The reading of a
    row is 0 when the sample has no value and the sample's value when it
    has a truthy one; the falsy values 0, -0 and NaN are read as 0, so the
    reading is the sample's value, as a number, whenever that is a number.
    The distance is 0 in the first row and, in every later row, that row's
    reading minus the reading of the row before it, as JavaScript
    subtracts doubles, negative when the feed goes down. Readings 100,
    150, 140, 200 give distances 0, 50, -10, 60. *)
Theorem signals_become_rows developerJwt startDate endDate vehicle
    (s : State W) id from to vehicleJwt w1 w2 data signals :
  ToString vehicle = Returned id ->
  ToString startDate = Returned from ->
  ToString endDate = Returned to ->
  tokenexchange_exchange dimo developerJwt [1] id (world s)
  = (Returned vehicleJwt, w1) ->
  telemetry_query dimo vehicleJwt id from to w1
  = (Returned {| Telemetry.data := Some data |}, w2) ->
  Telemetry.signals data = Some signals ->
  signals <> [] ->
  exists s' rows,
    processVehicle dimo developerJwt startDate endDate vehicle s
    = (Returned tt, s')
    /\ reportData s' = reportData s ++ rows
    /\ length rows = length signals
    /\ (forall i signal,
          signals !! i = Some signal ->
          exists row x,
            rows !! i = Some row
            /\ tokenId row = vehicle
            /\ odometerReading row = Measured x
            /\ (Telemetry.powertrainTransmissionTravelledDistance signal = None
                -> x = 0%float)
            /\ (forall v,
                  Telemetry.powertrainTransmissionTravelledDistance signal
                  = Some v ->
                  x = if falsy v then 0%float else v)
            /\ (PrimFloat.is_nan (value signal) = false
                -> same_number x (value signal)))
    /\ (exists row, rows !! 0%nat = Some row
                    /\ travelledDistance row = 0%float)
    /\ (forall i before row,
          rows !! i = Some before ->
          rows !! S i = Some row ->
          exists x y,
            odometerReading before = Measured x
            /\ odometerReading row = Measured y
            /\ travelledDistance row = PrimFloat.sub y x)
    /\ (map value signals = [100; 150; 140; 200]%float ->
        map odometerReading rows
        = [Measured 100; Measured 150; Measured 140; Measured 200]
        /\ map travelledDistance rows = [0; 50; -10; 60]%float).
Proof.
  intros Hid Hfrom Hto Hx Hq Hs Hne.
  exists (put_reportData (reportData s ++ rowsOf vehicle data)
            (put_world w2
               (add_log (TelemetryQuery vehicle)
                  (put_world w1 (add_log (TokenExchange vehicle) s))))),
         (rowsOf vehicle data).
  split.
  { unfold processVehicle. apply try_catch_run.
    rewrite (fetchVehicle_run _ _ _ _ _ _ _ s Hid Hfrom Hto), Hx. cbv zeta.
    now rewrite Hq. }
  split; [reflexivity|].
  unfold rowsOf. rewrite Hs.
  split; [apply derivedRows_length|].
  split; [|split; [|split]].
  - intros i signal Hi. eexists _, (reading signal).
    split; [apply derivedRows_lookup, Hi|].
    split; [reflexivity|]. split; [reflexivity|].
    split; [apply reading_absent|].
    split; [|apply reading_value].
    intros v Hv. unfold reading. now rewrite Hv.
  - destruct signals as [|first rest]; [congruence|].
    eexists. split; reflexivity.
  - apply derivedRows_consecutive.
  - intros Hr.
    destruct signals as [|a [|b [|c [|d [|e rest]]]]]; try discriminate Hr.
    injection Hr as Ha Hb Hc Hd. simpl.
    rewrite (value_reading a _ Ha eq_refl), (value_reading b _ Hb eq_refl),
      (value_reading c _ Hc eq_refl), (value_reading d _ Hd eq_refl).
    split; reflexivity.
Qed.

Lemma sentinels_app rows1 rows2 :
  sentinels (rows1 ++ rows2) = (sentinels rows1 + sentinels rows2)%nat.
Proof. unfold sentinels. now rewrite List.filter_app, length_app. Qed.

Lemma sentinels_derivedRows tokenId vin signals :
  forall previous, sentinels (derivedRows tokenId vin previous signals) = 0%nat.
Proof.
  induction signals as [|x l IH]; intros previous; [reflexivity|].
  change (derivedRows tokenId vin previous (x :: l))
    with ([derivedRow tokenId vin previous x]
            ++ derivedRows tokenId vin (Some x) l).
  rewrite sentinels_app, IH. unfold sentinels, isErrorRow. simpl.
  now rewrite andb_false_r.
Qed.

Lemma sentinels_rowsOf tokenId data : sentinels (rowsOf tokenId data) = 0%nat.
Proof.
  unfold rowsOf. destruct (Telemetry.signals data).
  - apply sentinels_derivedRows.
  - unfold sentinels, isErrorRow. simpl. now rewrite andb_false_r.
Qed.

Lemma sentinels_errorRow tokenId : sentinels [errorRow tokenId] = 1%nat.
Proof. reflexivity. Qed.

(** A vehicle contributes a sentinel row exactly when the vendor gave no
    data for it. *)
Lemma sentinels_rowsFor tokenId f :
  sentinels (rowsFor tokenId f)
  = if failed f || unanswered f then 1%nat else 0%nat.
Proof.
  destruct f; simpl; try apply sentinels_errorRow. apply sentinels_rowsOf.
Qed.

(** An answer without a VIN is listed under ["N/A"], and an answer without
    a series contributes the one N/A row. *)
Lemma vinOf_missing data :
  Telemetry.vinVCLatest data = None
  \/ Telemetry.vinVCLatest data = Some {| Telemetry.vin := None |} ->
  vinOf data = JStr "N/A".
Proof. unfold vinOf. now intros [-> | ->]. Qed.

Lemma rowsOf_no_series tokenId data :
  Telemetry.signals data = None ->
  rowsOf tokenId data
  = [{| tokenId := tokenId;
        vin := vinOf data;
        timestamp := JStr "N/A";
        odometerReading := Marked "N/A";
        travelledDistance := 0%float |}].
Proof. unfold rowsOf. now intros ->. Qed.

Lemma rowsOf_empty_series tokenId data :
  Telemetry.signals data = Some [] -> rowsOf tokenId data = [].
Proof. unfold rowsOf. now intros ->. Qed.

Lemma fates_length developerJwt from to texts :
  forall w : W,
    length (fst (fates dimo developerJwt from to texts w)) = length texts.
Proof.
  induction texts as [|text texts IH]; intros w; [reflexivity|].
  simpl. destruct (fate dimo developerJwt from to text w) as [first w1].
  specialize (IH w1).
  destruct (fates dimo developerJwt from to texts w1) as [others w2].
  simpl in *. now rewrite IH.
Qed.

(** The per-vehicle loop, for token ids and dates that have strings: it
    returns for every batch and every behaviour of the vendor, it leaves
    the files alone, and the rows it adds are those of the vehicles' fates,
    vehicle by vehicle. *)
Lemma loop_run developerJwt startDate endDate from to ids texts :
  ToString startDate = Returned from ->
  ToString endDate = Returned to ->
  Forall2 (fun tokenId text => ToString tokenId = Returned text) ids texts ->
  forall s : State W,
  exists s',
    for_of ids (processVehicle dimo developerJwt startDate endDate) s
    = (Returned tt, s')
    /\ reportData s'
       = reportData s
           ++ concat (groups ids
                        (fst (fates dimo developerJwt from to texts (world s))))
    /\ world s' = snd (fates dimo developerJwt from to texts (world s))
    /\ tmpDir s' = tmpDir s.
Proof.
  intros Hfrom Hto Hall. induction Hall as [|tokenId text ids texts Hid _ IH];
    intros s.
  - exists s. simpl. rewrite app_nil_r. auto.
  - destruct (processVehicle_run developerJwt startDate endDate tokenId
                text from to s Hid Hfrom Hto) as (s1 & Hp & Hr1 & Hw1 & Hd1).
    destruct (IH s1) as (s2 & Hl & Hr2 & Hw2 & Hd2).
    exists s2. simpl for_of. rewrite (bind_run _ _ _ _ _ Hp), Hl.
    split; [reflexivity|]. simpl fates.
    destruct (fate dimo developerJwt from to text (world s)) as [first w1].
    simpl in Hr1, Hw1. rewrite Hw1 in Hr2, Hw2.
    destruct (fates dimo developerJwt from to texts w1) as [others w2].
    simpl in *. unfold groups in *. simpl.
    split; [now rewrite Hr2, Hr1, <- app_assoc|].
    split; [exact Hw2 | congruence].
Qed.

(** A loop that returned went through token ids that have strings. *)
Lemma loop_returned developerJwt startDate endDate ids :
  forall s s' : State W,
    for_of ids (processVehicle dimo developerJwt startDate endDate) s
    = (Returned tt, s') ->
    exists texts,
      Forall2 (fun tokenId text => ToString tokenId = Returned text) ids texts.
Proof.
  induction ids as [|tokenId ids IH]; intros s s' H.
  - exists []. constructor.
  - simpl in H. apply bind_returned in H as ([] & s1 & Hp & H).
    destruct (ToString tokenId) as [text|] eqn:Hid.
    + destruct (IH _ _ H) as [texts Hall]. exists (text :: texts).
      now constructor.
    + rewrite (processVehicle_unprintable _ _ _ _ s Hid) in Hp. discriminate.
Qed.

Lemma sentinels_groups ids :
  forall l,
    length l = length ids ->
    sentinels (concat (groups ids l)) = (failures l + blanks l)%nat.
Proof.
  unfold groups, failures, blanks.
  induction ids as [|tokenId ids IH]; intros [|f l] Hlen; try discriminate;
    [reflexivity|].
  simpl. rewrite sentinels_app, sentinels_rowsFor, IH by (simpl in Hlen; lia).
  destruct f; simpl; lia.
Qed.

(** The per-vehicle loop adds exactly one sentinel row per vehicle whose
    token exchange or telemetry query failed, and one per vehicle whose
    query returned no data; a vehicle's failure is not passed on to the
    rest of the batch. *)
Lemma loop_isolates_failures developerJwt startDate endDate from to ids texts :
  ToString startDate = Returned from ->
  ToString endDate = Returned to ->
  Forall2 (fun tokenId text => ToString tokenId = Returned text) ids texts ->
  forall s : State W,
  exists s' rows,
    for_of ids (processVehicle dimo developerJwt startDate endDate) s
    = (Returned tt, s')
    /\ reportData s' = reportData s ++ rows
    /\ tmpDir s' = tmpDir s
    /\ sentinels rows
       = (failures (fst (fates dimo developerJwt from to texts (world s)))
          + blanks (fst (fates dimo developerJwt from to texts (world s))))%nat.
Proof.
  intros Hfrom Hto Hall s.
  destruct (loop_run developerJwt startDate endDate from to ids texts
              Hfrom Hto Hall s) as (s' & Hl & Hr & _ & Hd).
  eexists _, _. split; [exact Hl|]. split; [exact Hr|]. split; [exact Hd|].
  apply sentinels_groups. rewrite fates_length.
  symmetry. eapply Forall2_length, Hall.
Qed.

Lemma call_returned {A} e (f : W -> outcome A * W) (s s' : State W) a :
  call e f s = (Returned a, s') ->
  f (world s) = (Returned a, world s')
  /\ tmpDir s' = tmpDir s /\ reportData s' = reportData s.
Proof.
  rewrite call_run. destruct (f (world s)) as [o w]. simpl.
  intros [= -> <-]. auto.
Qed.

Lemma map_outcome_returned {A B} (f : A -> outcome B) l :
  forall l', map_outcome f l = Returned l' ->
             Forall2 (fun x y => f x = Returned y) l l'.
Proof.
  induction l as [|x l IH]; simpl; intros l' H.
  - injection H as <-. constructor.
  - destruct (f x) as [y|] eqn:E; [|discriminate].
    destruct (map_outcome f l) as [ys|]; [|discriminate].
    injection H as <-. constructor; [exact E | now apply IH].
Qed.

Lemma map_outcome_total {A B} (f : A -> outcome B) l :
  Forall (fun x => exists y, f x = Returned y) l ->
  exists l', map_outcome f l = Returned l'.
Proof.
  induction 1 as [|x l [y Hy] _ [l' IH]]; simpl; [eauto|].
  rewrite Hy, IH. eauto.
Qed.

Lemma mapVehicle_spec vehicle node :
  mapVehicle runtime vehicle = Returned node -> normalized runtime vehicle node.
Proof.
  unfold mapVehicle, normalized.
  destruct (Identity.definition vehicle) as [definition|]; [|discriminate].
  intros [= <-]. exists definition. split; [reflexivity|].
  split; [reflexivity|]. split; [reflexivity|]. split.
  - simpl. destruct (Identity.aftermarketDevice vehicle) as [[[imei|]]|];
      try reflexivity.
    simpl. unfold js_or. simpl. now destruct (String.eqb imei EmptyString).
  - simpl. destruct (Identity.syntheticDevice vehicle) as [[[mintedAt|]]|];
      try reflexivity.
    simpl. now destruct (String.eqb mintedAt EmptyString).
Qed.

(** A vendor node is mapped exactly when it has a definition. *)
Lemma mapVehicle_total vehicle :
  Identity.definition vehicle <> None ->
  exists node, mapVehicle runtime vehicle = Returned node.
Proof.
  unfold mapVehicle.
  destruct (Identity.definition vehicle); [eauto | congruence].
Qed.

(** The listing up to the vendor's page, on a configured backend whose
    two vendor calls return. *)
Lemma get_vehicles_run after (s : State W) args developerJwt w1 data w2 :
  truthy (stored_config (tmpDir s)) = true ->
  credentials (stored_config (tmpDir s)) = Returned args ->
  auth_getToken dimo args (world s) = (Returned developerJwt, w1) ->
  identity_query dimo developerJwt (js_or after JNull) w1
  = (Returned {| Identity.data := Some data |}, w2) ->
  get_vehicles dimo runtime after s
  = (match map_outcome (mapVehicle runtime)
             (Identity.nodes (Identity.vehicles data)) with
     | Returned mappedVehicles =>
         Returned
           (Json 200
              (JObj [("totalCount",
                      JNum (Identity.totalCount (Identity.vehicles data)));
                     ("pageInfo", Identity.pageInfo (Identity.vehicles data));
                     ("nodes", JArr mappedVehicles)]))
     | Thrown => Returned (Json 500 (error_body "Failed to load vehicles"))
     end,
     put_world w2
       (add_log IdentityQuery
          (put_world w1
             (add_log AuthGetToken
                (add_log (FsReadFile "app-config.json") s))))).
Proof.
  intros Hcfg Hargs Hauth Hquery. unfold get_vehicles.
  unfold try_catch, bind at 1. rewrite loadConfig_run, Hcfg. simpl.
  unfold bind at 1, lift at 1. rewrite Hargs.
  unfold bind at 1. rewrite call_run. simpl. rewrite Hauth. simpl.
  unfold bind at 1. rewrite call_run. simpl. rewrite Hquery. simpl.
  unfold bind, lift. simpl.
  destruct (map_outcome (mapVehicle runtime)
              (Identity.nodes (Identity.vehicles data))); reflexivity.
Qed.

(** C7. Every vendor node that has a definition is mapped to a listed
    vehicle of the normal form: vehicleType is make, model and year joined
    by single spaces, imei and mintedAt are strings, "N/A" when the vendor
    has none, and a present mint date is the runtime's locale date string
    of it. On a configured backend whose vendor calls return a page of such
    nodes the listing answers 200 with one normal vehicle per node, in
    order; and the nodes of every 200 answer are of that form. *)
Theorem listed_vehicles_normalized after (s : State W) :
  (forall vehicle,
     Identity.definition vehicle <> None ->
     exists node,
       mapVehicle runtime vehicle = Returned node
       /\ normalized runtime vehicle node)
  /\ (forall args developerJwt w1 data w2,
        truthy (stored_config (tmpDir s)) = true ->
        credentials (stored_config (tmpDir s)) = Returned args ->
        auth_getToken dimo args (world s) = (Returned developerJwt, w1) ->
        identity_query dimo developerJwt (js_or after JNull) w1
        = (Returned {| Identity.data := Some data |}, w2) ->
        Forall (fun vehicle => Identity.definition vehicle <> None)
               (Identity.nodes (Identity.vehicles data)) ->
        exists body nodes s',
          get_vehicles dimo runtime after s = (Returned (Json 200 body), s')
          /\ js_prop body "nodes" = Returned (JArr nodes)
          /\ Forall2 (normalized runtime)
                     (Identity.nodes (Identity.vehicles data)) nodes)
  /\ (forall s' body,
        get_vehicles dimo runtime after s = (Returned (Json 200 body), s') ->
        exists developerJwt w w' data nodes,
          identity_query dimo developerJwt (js_or after JNull) w
          = (Returned {| Identity.data := Some data |}, w')
          /\ js_prop body "nodes" = Returned (JArr nodes)
          /\ Forall2 (normalized runtime)
                     (Identity.nodes (Identity.vehicles data)) nodes).
Proof.
  split; [|split].
  - intros vehicle Hdef.
    destruct (mapVehicle_total vehicle Hdef) as [node Hnode].
    exists node. split; [exact Hnode | now apply mapVehicle_spec].
  - intros args developerJwt w1 data w2 Hcfg Hargs Hauth Hquery Hall.
    rewrite (get_vehicles_run after s args developerJwt w1 data w2
               Hcfg Hargs Hauth Hquery).
    destruct (map_outcome_total (mapVehicle runtime)
                (Identity.nodes (Identity.vehicles data))) as [nodes Hmap].
    { eapply Forall_impl; [exact Hall|]. intros vehicle.
      apply mapVehicle_total. }
    rewrite Hmap. eexists _, nodes, _. split; [reflexivity|].
    split; [reflexivity|].
    apply map_outcome_returned in Hmap.
    eapply Forall2_impl; [exact Hmap|]. intros vehicle node.
    apply mapVehicle_spec.
  - unfold get_vehicles. intros s' body H.
    apply try_catch_returned in H as [H | (s1 & _ & H)];
      [|apply ret_returned in H as [[=] _]].
    apply bind_returned in H as (config & s1 & _ & H).
    destruct (negb (truthy config)); [apply ret_returned in H as [[=] _]|].
    apply bind_returned in H as (args & s2 & _ & H).
    apply bind_returned in H as (developerJwt & s3 & _ & H).
    apply bind_returned in H as ([[data|]] & s4 & Hq & H);
      [|apply bind_returned in H as (? & ? & Hd & _); discriminate Hd].
    apply call_returned in Hq as (Hq & _).
    apply bind_returned in H as (data' & s5 & Hd & H).
    apply lift_returned in Hd as [[= <-] <-].
    apply bind_returned in H as (nodes & s6 & Hm & H).
    apply lift_returned in Hm as [Hm <-].
    apply ret_returned in H as [[= <-] _].
    exists developerJwt, (world s3), (world s4), data, nodes.
    split; [exact Hq|]. split; [reflexivity|].
    apply map_outcome_returned in Hm.
    eapply Forall2_impl; [exact Hm|]. intros vehicle node.
    apply mapVehicle_spec.
Qed.

Lemma fs_writeFile_returned name d (s s' : State W) :
  fs_writeFile name d s = (Returned tt, s') ->
  exists entries,
    tmpDir s = Some entries
    /\ s' = put_tmpDir (Some (<[name := File d]> entries))
              (add_log (FsWriteFile name) s).
Proof.
  destruct s as [w [entries|] rows lg]; run; [|discriminate].
  destruct (entries !! name) as [[d0|]|]; run; intros [= <-]; eauto.
Qed.

(** C8. A completed generation has written a CSV file whose titles are
    Token ID, VIN, Timestamp, Odometer Reading, Travelled Distance, whose
    records are the rows with their cells in that order, and whose name is
    vehicle-report-T.csv, T being the ISO string read from the clock with
    each colon and dot replaced by a hyphen and nothing else changed. *)
Theorem report_artifact body (s s' : State W) answer :
  post_reports_generate dimo runtime body s = (Returned (Json 200 answer), s') ->
  exists iso w w' entries,
    Date_toISOString runtime w = (iso, w')
    /\ js_prop answer "filename"
       = Returned (JStr ("vehicle-report-" +:+ replace_colon_dot iso +:+ ".csv"))
    /\ js_prop answer "recordCount"
       = Returned (JNum (Z.of_nat (length (reportData s'))))
    /\ tmpDir s' = Some entries
    /\ entries !! ("vehicle-report-" +:+ replace_colon_dot iso +:+ ".csv")
       = Some (File (CsvText
                       ["Token ID"; "VIN"; "Timestamp"; "Odometer Reading";
                        "Travelled Distance"]
                       (map (fun row => [Value (tokenId row);
                                         Value (vin row);
                                         Value (timestamp row);
                                         cell (odometerReading row);
                                         Number (travelledDistance row)])
                            (reportData s'))))
    /\ String.length (replace_colon_dot iso) = String.length iso
    /\ forall i,
         String.get i (replace_colon_dot iso)
         = (fun c => if Ascii.eqb c ":" || Ascii.eqb c "." then "-"%char else c)
             <$> String.get i iso.
Proof.
  unfold post_reports_generate. intros H.
  apply try_catch_returned in H as [H | (s1 & _ & H)];
    [|apply ret_returned in H as [[=] _]].
  destruct (negb (truthy (obj_get body "vehicleTokenIds"))
            || negb (Array_isArray (obj_get body "vehicleTokenIds"))
            || Nat.eqb (array_length (obj_get body "vehicleTokenIds")) 0);
    [apply ret_returned in H as [[=] _]|].
  destruct (negb (truthy (obj_get body "startDate"))
            || negb (truthy (obj_get body "endDate")));
    [apply ret_returned in H as [[=] _]|].
  apply bind_returned in H as (config & s1 & _ & H).
  destruct (negb (truthy config)); [apply ret_returned in H as [[=] _]|].
  apply bind_returned in H as (args & s2 & _ & H).
  apply bind_returned in H as (developerJwt & s3 & _ & H).
  apply bind_returned in H as ([] & s4 & _ & H).
  apply bind_returned in H as (iso & s5 & Hc & H).
  apply call_returned in Hc as (Hc & _).
  destruct (Date_toISOString runtime (world s4)) as [iso' w'] eqn:Eclock.
  injection Hc as -> _.
  apply bind_returned in H as ([] & s6 & _ & H).
  apply bind_returned in H as (rows & s7 & Hr & H).
  apply ret_returned in Hr as [<- <-].
  apply bind_returned in H as ([] & s8 & Hw & H).
  apply fs_writeFile_returned in Hw as (entries & Hd & ->).
  apply ret_returned in H as [[= <-] <-].
  exists iso, (world s4), w', (<[report_filename iso :=
                 File (CsvText (map snd header)
                         (map (fun record =>
                                 map (fun column => Row_get record (fst column))
                                     header) (reportData s6)))]> entries).
  split; [exact Eclock|]. split; [reflexivity|]. split; [reflexivity|].
  split; [reflexivity|].
  split; [apply lookup_insert_eq|].
  split; [apply replace_colon_dot_length | apply replace_colon_dot_get].
Qed.

(** C5. A request whose vehicleTokenIds is missing, not an array or empty,
    or whose startDate or endDate is missing, is answered 400 with the
    state untouched: nothing was read, no call was made. A valid request
    on a store without credentials is answered 400 after the one read of
    the configuration file and nothing else. *)
Theorem generate_rejects_before_work body (s : State W) :
  let vehicleTokenIds := obj_get body "vehicleTokenIds" in
  let startDate := obj_get body "startDate" in
  let endDate := obj_get body "endDate" in
  (Array_isArray vehicleTokenIds = false \/ vehicleTokenIds = JArr [] ->
   post_reports_generate dimo runtime body s
   = (Returned (Json 400 (error_body "Vehicle token IDs are required")), s)) /\
  (truthy startDate = false \/ truthy endDate = false ->
   exists message,
     post_reports_generate dimo runtime body s
     = (Returned (Json 400 (error_body message)), s) /\
     (message = "Vehicle token IDs are required"
      \/ message = "Start date and end date are required")) /\
  (forall id ids config,
     vehicleTokenIds = JArr (id :: ids) ->
     truthy startDate = true -> truthy endDate = true ->
     fst (loadConfig s) = Returned config -> truthy config = false ->
     post_reports_generate dimo runtime body s
     = (Returned (Json 400 (error_body
                   "No configuration found. Please configure the app first.")),
        add_log (FsReadFile "app-config.json") s)).
Proof.
  cbv zeta. unfold post_reports_generate. split; [|split].
  - intros [Ha | ->].
    + rewrite Ha. simpl. now rewrite orb_true_r.
    + reflexivity.
  - intros Hd.
    destruct (negb (truthy (obj_get body "vehicleTokenIds"))
              || negb (Array_isArray (obj_get body "vehicleTokenIds"))
              || Nat.eqb (array_length (obj_get body "vehicleTokenIds")) 0) eqn:E.
    + eexists. split; [reflexivity | now left].
    + eexists. split; [|now right].
      destruct Hd as [-> | ->]; simpl; [|rewrite orb_true_r]; reflexivity.
  - intros id ids config -> Hs He Hl Hc. simpl. rewrite Hs, He. simpl.
    unfold try_catch at 1, bind at 1. rewrite loadConfig_run in *.
    simpl in Hl. injection Hl as ->. now rewrite Hc.
Qed.

(** The download route serves the entry of that name in [tmpDir]; without
    one it answers 404 for an entry name, and for a path that leads out of
    [tmpDir] it serves what is there. *)
Lemma get_reports_download_run filename (s : State W) :
  fst (get_reports_download runtime filename s)
  = match tmpDir s ≫= (.!! filename) with
    | Some entry => Returned (Download filename (Some entry))
    | None =>
        if entry_name filename
        then Returned (Json 404 (error_body "Report file not found"))
        else match fs_elsewhere runtime filename (world s) with
             | Returned entry => Returned (Download filename (Some entry))
             | Thrown => Returned (Json 404 (error_body "Report file not found"))
             end
    end.
Proof.
  unfold get_reports_download. run.
  destruct (tmpDir s ≫= (.!! filename)) as [entry|]; [reflexivity|].
  destruct (entry_name filename); [reflexivity|].
  destruct s as [w dir rows lg]. simpl.
  destruct (fs_elsewhere runtime filename w); reflexivity.
Qed.

End ServerFacts.

(** C6, at a file where it fails. After the configuration was saved and
    before any report was generated, the download route serves
    [app-config.json], the credential record, although no report has that
    name and the listing does not show it. *)
Theorem download_serves_credentials :
  io_log configured = [ClockRead; FsWriteFile "app-config.json"]
  /\ (forall iso, report_filename iso <> "app-config.json")
  /\ fst (listReports configured) = Returned []
  /\ fst (get_reports_download fixed_clock "app-config.json" configured)
     = Returned
         (Download "app-config.json"
            (Some (File (JsonText
                           (JObj [("clientId", JStr "0xabc");
                                  ("apiKey", JStr "k1");
                                  ("redirectUri", JStr "http://localhost:5173");
                                  ("createdAt",
                                   JStr "2024-01-15T10:30:45.123Z")]))))).
Proof.
  split; [|split; [|split]].
  - vm_compute. reflexivity.
  - intros iso. unfold report_filename. discriminate.
  - vm_compute. reflexivity.
  - vm_compute. reflexivity.
Qed.


(** C4, at a record where the claim as worded fails. A record with a
    non-empty clientId and apiKey and the empty string as redirectUri is
    saved with 200; loading returns the default redirectUri, not the one
    that was saved. *)
Lemma empty_redirectUri_is_replaced :
  let body :=
    [("clientId", JStr "0xabc"); ("apiKey", JStr "k1");
     ("redirectUri", JStr EmptyString)] in
  let saved := post_config fixed_clock body (start (Some ∅)) in
  truthy (obj_get body "clientId") = true
  /\ truthy (obj_get body "apiKey") = true
  /\ (exists config,
        fst saved
        = Returned (Json 200 (JObj [("message",
                                     JStr "Configuration saved successfully");
                                    ("config", config)])))
  /\ (exists config,
        fst (loadConfig (snd saved)) = Returned config
        /\ js_prop config "clientId" = Returned (obj_get body "clientId")
        /\ js_prop config "apiKey" = Returned (obj_get body "apiKey")
        /\ js_prop config "redirectUri"
           = Returned (JStr "http://localhost:5173"))
  /\ ~ (exists config,
          fst (loadConfig (snd saved)) = Returned config
          /\ js_prop config "redirectUri"
             = Returned (obj_get body "redirectUri")).
Proof.
  cbv zeta. split; [reflexivity|]. split; [reflexivity|].
  split; [eexists; vm_compute; reflexivity|].
  split; [eexists; repeat split; vm_compute; reflexivity|].
  intros (config & Hload & Huri). vm_compute in Hload.
  injection Hload as <-. vm_compute in Huri. discriminate Huri.
Qed.

(** ** Worked runs of the report generator *)

(** C1, at a batch where it fails. Vehicle 42 answers with an empty series
    and vehicle 9 fails its telemetry query: the report is produced, holds
    the one sentinel row of vehicle 9 and no row at all for vehicle 42,
    which did not fail. The failure isolation itself holds for every batch
    of token ids that have strings, see [loop_isolates_failures]. *)
Theorem empty_series_vehicle_gets_no_row :
  let developerJwt := JStr "developer-jwt" in
  let startDate := JStr "2024-01-01" in
  let endDate := JStr "2024-01-31" in
  let run :=
    post_reports_generate fleet fixed_clock
      (report_body [JStr "42"; JStr "9"]) configured in
  fst (fetchVehicle fleet developerJwt startDate endDate (JStr "42")
         (start (Some ∅)))
  = Returned tt
  /\ fst (fetchVehicle fleet developerJwt startDate endDate (JStr "9")
            (start (Some ∅)))
     = Thrown
  /\ fst run
     = Returned
         (Json 200
            (JObj [("message", JStr "Report generated successfully");
                   ("filename",
                    JStr "vehicle-report-2024-01-15T10-30-45-123Z.csv");
                   ("recordCount", JNum 1);
                   ("downloadUrl",
                    JStr "/api/reports/download/vehicle-report-2024-01-15T10-30-45-123Z.csv")]))
  /\ reportData (snd run) = [errorRow (JStr "9")].
Proof. cbv zeta. repeat split; vm_compute; reflexivity. Qed.

(** C3, at an answer where it fails. Vehicle 42 answers with an empty
    series: its turn of the loop returns and adds no row, so a report of
    that vehicle alone has zero records, while vehicle 8, which answers
    without a series and without a VIN, gets the one N/A row. *)
Theorem empty_series_is_not_a_fallback :
  let developerJwt := JStr "developer-jwt" in
  let startDate := JStr "2024-01-01" in
  let endDate := JStr "2024-01-31" in
  let turn tokenId :=
    processVehicle fleet developerJwt startDate endDate tokenId
      (start (Some ∅)) in
  fst (turn (JStr "42")) = Returned tt
  /\ reportData (snd (turn (JStr "42"))) = []
  /\ reportData (snd (turn (JStr "8")))
     = [{| tokenId := JStr "8";
           vin := JStr "N/A";
           timestamp := JStr "N/A";
           odometerReading := Marked "N/A";
           travelledDistance := 0%float |}]
  /\ fst (post_reports_generate fleet fixed_clock (report_body [JStr "42"])
            configured)
     = Returned
         (Json 200
            (JObj [("message", JStr "Report generated successfully");
                   ("filename",
                    JStr "vehicle-report-2024-01-15T10-30-45-123Z.csv");
                   ("recordCount", JNum 0);
                   ("downloadUrl",
                    JStr "/api/reports/download/vehicle-report-2024-01-15T10-30-45-123Z.csv")])).
Proof. cbv zeta. repeat split; vm_compute; reflexivity. Qed.

(** ** The browser-side JWT check *)

Section ClientFacts.
Variable browser : Browser.

Lemma js_gt_number exp now : js_gt browser (JNum exp) now = true <-> now < exp.
Proof. simpl. apply Z.ltb_lt. Qed.

(** The check answers [true] only for a decodable payload whose [exp] is
    greater than the current time in seconds. *)
Lemma isJWTValid_true jwt :
  isJWTValid browser jwt = JBool true ->
  exists segment text payload exp,
    window_atob browser segment = Returned text
    /\ window_JSON_parse browser text = Returned payload
    /\ js_prop payload "exp" = Returned exp
    /\ truthy exp = true
    /\ js_gt browser exp (Date_now browser / 1000) = true.
Proof.
  unfold isJWTValid, decodeAndCompare, and_then.
  set (segment := match split "." jwt !! 1%nat with
                  | Some part => part
                  | None => "undefined"
                  end).
  destruct (window_atob browser segment) as [text|] eqn:Ea; [|discriminate].
  destruct (window_JSON_parse browser text) as [payload|] eqn:Ep;
    [|discriminate].
  destruct (js_prop payload "exp") as [exp|] eqn:Ee; [|discriminate].
  destruct (truthy exp) eqn:Et.
  - intros [= Hgt]. exists segment, text, payload, exp. auto.
  - intros ->. discriminate Et.
Qed.

(** Whatever the input, the check answers [true] or a falsy value. *)
Lemma isJWTValid_fail_closed jwt :
  truthy (isJWTValid browser jwt) = true -> isJWTValid browser jwt = JBool true.
Proof.
  unfold isJWTValid, decodeAndCompare, and_then.
  destruct (window_atob browser _) as [text|]; [|discriminate].
  destruct (window_JSON_parse browser text) as [payload|]; [|discriminate].
  destruct (js_prop payload "exp") as [exp|]; [|discriminate].
  destruct (truthy exp) eqn:Et.
  - simpl. now intros ->.
  - rewrite Et. discriminate.
Qed.

(** When a step of the [try] block throws, the answer is [false]. *)
Lemma isJWTValid_caught jwt :
  decodeAndCompare browser jwt = Thrown -> isJWTValid browser jwt = JBool false.
Proof. unfold isJWTValid. now intros ->. Qed.

(** C10, at a token where it fails. For a token whose payload decodes to
    the empty object both checks answer [undefined], not [false]. That the
    answer is never truthy unless [exp] is greater than the current time is
    [isJWTValid_true] and [isJWTValid_fail_closed]. *)
Theorem isJWTValid_without_exp :
  window_atob browser "e30" = Returned "{}" ->
  window_JSON_parse browser "{}" = Returned (JObj []) ->
  isJWTValid browser "a.e30.c" = JUndefined
  /\ isJwtValid browser "a.e30.c" = JUndefined
  /\ JUndefined <> JBool false.
Proof.
  intros Ha Hp. unfold isJwtValid, isJWTValid, decodeAndCompare, and_then.
  simpl. rewrite Ha, Hp. simpl. repeat split. discriminate.
Qed.

End ClientFacts.

Lemma isJWTValid_without_exp_witness :
  window_atob example_browser "e30" = Returned "{}"
  /\ window_JSON_parse example_browser "{}" = Returned (JObj [])
  /\ isJWTValid example_browser "a.e30.c" = JUndefined.
Proof.
  split; [reflexivity|]. split; [reflexivity|].
  apply (isJWTValid_without_exp example_browser); reflexivity.
Defined.

(** ** The theorems at the worked examples *)

Lemma signals_become_rows_witness :
  exists s' rows,
    processVehicle fleet (JStr "developer-jwt") (JStr "2024-01-01")
      (JStr "2024-01-31") (JStr "7") (start (Some ∅))
    = (Returned tt, s')
    /\ reportData s' = rows
    /\ map odometerReading rows
       = [Measured 100; Measured 150; Measured 140; Measured 200]
    /\ map travelledDistance rows = [0; 50; -10; 60]%float.
Proof.
  destruct (signals_become_rows fleet (JStr "developer-jwt") (JStr "2024-01-01")
              (JStr "2024-01-31") (JStr "7") (start (Some ∅))
              "7" "2024-01-01" "2024-01-31"
              (JStr "vehicle-jwt") tt tt
              {| Telemetry.vinVCLatest :=
                   Some {| Telemetry.vin := Some "1HGCM82633A004352" |};
                 Telemetry.signals :=
                   Some [sample (Some 100%float) "2024-01-01T00:00:00Z";
                         sample (Some 150%float) "2024-01-02T00:00:00Z";
                         sample (Some 140%float) "2024-01-03T00:00:00Z";
                         sample (Some 200%float) "2024-01-04T00:00:00Z"] |}
              [sample (Some 100%float) "2024-01-01T00:00:00Z";
               sample (Some 150%float) "2024-01-02T00:00:00Z";
               sample (Some 140%float) "2024-01-03T00:00:00Z";
               sample (Some 200%float) "2024-01-04T00:00:00Z"]
              eq_refl eq_refl eq_refl eq_refl eq_refl eq_refl
              ltac:(discriminate))
    as (s' & rows & Hrun & Hrows & _ & _ & _ & _ & Hexample).
  simpl in Hrows.
  exists s', rows. split; [exact Hrun|]. split; [exact Hrows|].
  apply Hexample. reflexivity.
Defined.

(** Readings are doubles and are subtracted as doubles: after a reading of 1
    the reading 2^54 gives the distance 2^54 (the exact difference is not a
    double), a reading with a fraction keeps it, an absent reading and the
    reading -0 both count as 0. *)
Lemma readings_are_doubles :
  map (fun row => (odometerReading row, travelledDistance row))
    (reportData (snd (processVehicle fleet (JStr "developer-jwt")
                        (JStr "2024-01-01") (JStr "2024-01-31") (JNum 5)
                        (start (Some ∅)))))
  = [(Measured 1, 0%float);
     (Measured 0x1p54, 0x1p54%float);
     (Measured 12345.5, (-18014398509469638)%float);
     (Measured 0, (-12345.5)%float);
     (Measured 0, 0%float)].
Proof. vm_compute. reflexivity. Qed.

Lemma config_save_load_delete_witness :
  exists config,
    fst (post_config fixed_clock credentials_body (start (Some ∅)))
    = Returned (Json 200 (JObj [("message",
                                 JStr "Configuration saved successfully");
                                ("config", config)]))
    /\ js_prop config "clientId" = Returned (JStr "0xabc")
    /\ js_prop config "apiKey" = Returned (JStr "k1")
    /\ fst (loadConfig configured) = Returned config.
Proof.
  destruct (config_save_load_delete fixed_clock credentials_body
              (start (Some ∅)) ∅ eq_refl eq_refl eq_refl
              ltac:(rewrite lookup_empty; discriminate))
    as ((config & createdAt & s1 & s2 & Hsave & Hid & Hkey & _ & _ & Hload & _)
        & _).
  exists config. unfold configured. rewrite Hsave. auto.
Defined.

Lemma generate_rejects_before_work_witness :
  post_reports_generate fleet fixed_clock
    [("vehicleTokenIds", JArr []); ("startDate", JStr "2024-01-01");
     ("endDate", JStr "2024-01-31")] configured
  = (Returned (Json 400 (error_body "Vehicle token IDs are required")),
     configured)
  /\ post_reports_generate fleet fixed_clock (report_body [JStr "42"])
       (start (Some ∅))
     = (Returned (Json 400 (error_body
                    "No configuration found. Please configure the app first.")),
        add_log (FsReadFile "app-config.json") (start (Some ∅))).
Proof.
  split.
  - apply (generate_rejects_before_work fleet fixed_clock). now right.
  - apply (generate_rejects_before_work fleet fixed_clock
             (report_body [JStr "42"]) (start (Some ∅)))
      with (id := JStr "42") (ids := []) (config := JNull); reflexivity.
Defined.

Lemma listed_vehicles_normalized_witness :
  exists nodes,
    fst (get_vehicles fleet fixed_clock JUndefined configured)
    = Returned (Json 200 (JObj [("totalCount", JNum 2);
                                ("pageInfo", JObj [("hasNextPage", JBool false)]);
                                ("nodes", JArr nodes)]))
    /\ nodes
       = [JObj [("tokenId", JNum 7);
                ("vehicleType", JStr "Honda Accord 2003");
                ("imei", JStr "N/A");
                ("mintedAt", JStr "2023-06-01")];
          JObj [("tokenId", JNum 42);
                ("vehicleType", JStr "Tesla Model 3 2019");
                ("imei", JStr "356938035643809");
                ("mintedAt", JStr "N/A")]].
Proof.
  destruct (listed_vehicles_normalized fleet fixed_clock JUndefined configured)
    as (_ & Hlisting & _).
  destruct (Hlisting
              (JObj [("client_id", JStr "0xabc");
                     ("domain", JStr "http://localhost:5173");
                     ("private_key", JStr "k1")])
              (JStr "developer-jwt") tt
              {| Identity.vehicles :=
                   {| Identity.totalCount := 2;
                      Identity.pageInfo := JObj [("hasNextPage", JBool false)];
                      Identity.nodes :=
                        [{| Identity.tokenId := 7;
                            Identity.definition :=
                              Some {| Identity.make := Some "Honda";
                                      Identity.model := Some "Accord";
                                      Identity.year := Some 2003 |};
                            Identity.aftermarketDevice := None;
                            Identity.syntheticDevice :=
                              Some {| Identity.mintedAt :=
                                        Some "2023-06-01T12:00:00Z" |} |};
                         {| Identity.tokenId := 42;
                            Identity.definition :=
                              Some {| Identity.make := Some "Tesla";
                                      Identity.model := Some "Model 3";
                                      Identity.year := Some 2019 |};
                            Identity.aftermarketDevice :=
                              Some {| Identity.imei := Some "356938035643809" |};
                            Identity.syntheticDevice := None |}] |} |}
              tt eq_refl eq_refl eq_refl eq_refl
              ltac:(repeat constructor; discriminate))
    as (body & nodes & s' & Hrun & Hnodes & _).
  apply (f_equal fst) in Hrun. simpl fst in Hrun.
  assert (E : fst (get_vehicles fleet fixed_clock JUndefined configured)
              = Returned
                  (Json 200
                     (JObj [("totalCount", JNum 2);
                            ("pageInfo", JObj [("hasNextPage", JBool false)]);
                            ("nodes",
                             JArr [JObj [("tokenId", JNum 7);
                                         ("vehicleType", JStr "Honda Accord 2003");
                                         ("imei", JStr "N/A");
                                         ("mintedAt", JStr "2023-06-01")];
                                   JObj [("tokenId", JNum 42);
                                         ("vehicleType", JStr "Tesla Model 3 2019");
                                         ("imei", JStr "356938035643809");
                                         ("mintedAt", JStr "N/A")]])])))
    by (vm_compute; reflexivity).
  eexists. split; [exact E | reflexivity].
Defined.

Lemma report_artifact_witness :
  let run :=
    post_reports_generate fleet fixed_clock (report_body [JStr "7"; JStr "9"])
      configured in
  fst run
  = Returned
      (Json 200
         (JObj [("message", JStr "Report generated successfully");
                ("filename", JStr "vehicle-report-2024-01-15T10-30-45-123Z.csv");
                ("recordCount", JNum 5);
                ("downloadUrl",
                 JStr "/api/reports/download/vehicle-report-2024-01-15T10-30-45-123Z.csv")]))
  /\ exists iso entries records,
       tmpDir (snd run) = Some entries
       /\ entries !! ("vehicle-report-" +:+ replace_colon_dot iso +:+ ".csv")
          = Some (File (CsvText
                          ["Token ID"; "VIN"; "Timestamp"; "Odometer Reading";
                           "Travelled Distance"] records)).
Proof.
  cbv zeta.
  assert (E : fst (post_reports_generate fleet fixed_clock
                     (report_body [JStr "7"; JStr "9"]) configured)
              = Returned
                  (Json 200
                     (JObj [("message", JStr "Report generated successfully");
                            ("filename",
                             JStr "vehicle-report-2024-01-15T10-30-45-123Z.csv");
                            ("recordCount", JNum 5);
                            ("downloadUrl",
                             JStr "/api/reports/download/vehicle-report-2024-01-15T10-30-45-123Z.csv")])))
    by (vm_compute; reflexivity).
  split; [exact E|].
  destruct (report_artifact fleet fixed_clock
              (report_body [JStr "7"; JStr "9"]) configured
              (snd (post_reports_generate fleet fixed_clock
                      (report_body [JStr "7"; JStr "9"]) configured))
              _ ltac:(rewrite <- E; apply surjective_pairing))
    as (iso & w & w' & entries & _ & _ & _ & Hdir & Hfile & _).
  exists iso, entries. eexists. split; [exact Hdir | exact Hfile].
Defined.

(** * Further properties of the backend *)

Section MoreServerFacts.
Context {W : Type}.
Variable dimo : DIMO W.
Variable runtime : Runtime W.

(** Saving twice: the second save answers with its own record and that is
    the record loaded afterwards; the files beside it are as they were. *)
Theorem post_config_last_write_wins first second (s : State W) entries :
  truthy (obj_get first "clientId") = true ->
  truthy (obj_get first "apiKey") = true ->
  truthy (obj_get second "clientId") = true ->
  truthy (obj_get second "apiKey") = true ->
  tmpDir s = Some entries ->
  entries !! "app-config.json" <> Some Directory ->
  exists config s1 s2 final,
    s1 = snd (post_config runtime first s)
    /\ post_config runtime second s1
       = (Returned (Json 200 (JObj [("message",
                                     JStr "Configuration saved successfully");
                                    ("config", config)])), s2)
    /\ js_prop config "clientId" = Returned (obj_get second "clientId")
    /\ js_prop config "apiKey" = Returned (obj_get second "apiKey")
    /\ fst (loadConfig s2) = Returned config
    /\ tmpDir s2 = Some final
    /\ forall name, name <> "app-config.json" -> final !! name = entries !! name.
Proof.
  intros Hc1 Hk1 Hc2 Hk2 Hdir Hnd.
  pose proof (post_config_run runtime first s entries Hc1 Hk1 Hdir Hnd) as H1.
  cbv zeta in H1.
  set (s1 := snd (post_config runtime first s)).
  assert (Hd1 : exists d, tmpDir s1
                          = Some (<["app-config.json" := File d]> entries)).
  { subst s1. rewrite H1. simpl. eauto. }
  destruct Hd1 as [d Hd1].
  pose proof (post_config_run runtime second s1 _ Hc2 Hk2 Hd1) as H2.
  cbv zeta in H2. rewrite lookup_insert_eq in H2.
  specialize (H2 ltac:(discriminate)).
  eexists _, s1, _, _. split; [reflexivity|]. split; [exact H2|].
  split; [reflexivity|]. split; [reflexivity|].
  split; [|split; [reflexivity|]].
  - rewrite loadConfig_run. simpl. now rewrite lookup_insert_eq.
  - intros name Hn. now rewrite !lookup_insert_ne by congruence.
Qed.

(** When the directory is missing, or the record's path is a directory, a
    valid save answers 500 and the store is left as it was. *)
Theorem post_config_store_failure body (s : State W) :
  truthy (obj_get body "clientId") = true ->
  truthy (obj_get body "apiKey") = true ->
  tmpDir s = None
  \/ (exists entries, tmpDir s = Some entries
                      /\ entries !! "app-config.json" = Some Directory) ->
  fst (post_config runtime body s)
  = Returned (Json 500 (error_body "Failed to save configuration"))
  /\ tmpDir (snd (post_config runtime body s)) = tmpDir s.
Proof.
  intros Hc Hk Hbad. destruct s as [w dir rows lg]. simpl in Hbad.
  unfold post_config. rewrite Hc, Hk. run.
  destruct (Date_toISOString runtime w) as [iso w'].
  destruct Hbad as [-> | (entries & -> & He)]; run; [auto|].
  rewrite He. auto.
Qed.

(** Deleting the configuration removes that file only: every other entry
    is kept, the same reports are listed, and a second delete answers 404
    without touching the store. *)
Theorem delete_config_only_config (s s' : State W) answer :
  delete_config s = (Returned (Json 200 answer), s') ->
  exists entries before after,
    tmpDir s = Some entries
    /\ tmpDir s' = Some (delete "app-config.json" entries)
    /\ (forall name, name <> "app-config.json" ->
                     delete "app-config.json" entries !! name = entries !! name)
    /\ fst (listReports s) = Returned before
    /\ fst (listReports s') = Returned after
    /\ (forall name, name ∈ after <-> name ∈ before)
    /\ fst (delete_config s')
       = Returned (Json 404 (error_body "No configuration found"))
    /\ tmpDir (snd (delete_config s')) = tmpDir s'.
Proof.
  rewrite delete_config_run.
  destruct (tmpDir s) as [entries|] eqn:Hd; [|discriminate].
  destruct (entries !! "app-config.json") as [[d|]|] eqn:He; try discriminate.
  intros [= _ <-]. exists entries. eexists _, _. split; [reflexivity|].
  split; [reflexivity|].
  split; [intros name Hn; now rewrite lookup_delete_ne by congruence|].
  split; [rewrite listReports_run; reflexivity|].
  split; [rewrite listReports_run; reflexivity|].
  split; [|split].
  - intros name. simpl. rewrite Hd.
    rewrite !list_elem_of_filter, !list_elem_of_fmap.
    split; intros [Hcsv [[k e] [-> Hin]]]; (split; [exact Hcsv|]);
      exists (k, e); (split; [reflexivity|]);
      apply elem_of_map_to_list; apply elem_of_map_to_list in Hin; simpl in *.
    + apply lookup_delete_Some in Hin. apply Hin.
    + apply lookup_delete_Some. split; [|exact Hin].
      intros <-. discriminate Hcsv.
  - rewrite delete_config_run. simpl. now rewrite lookup_delete_eq.
  - rewrite delete_config_run. simpl. now rewrite lookup_delete_eq.
Qed.

(** *** The report loop and the report file *)

Lemma string_app_assoc (a b c : string) : (a +:+ b) +:+ c = a +:+ (b +:+ c).
Proof.
  induction a as [|x a IH]; [reflexivity|].
  change (String x ((a +:+ b) +:+ c) = String x (a +:+ (b +:+ c))).
  now rewrite IH.
Qed.

Lemma report_filename_csv iso : endsWith (report_filename iso) ".csv" = true.
Proof.
  apply endsWith_spec. exists ("vehicle-report-" +:+ replace_colon_dot iso).
  unfold report_filename. now rewrite string_app_assoc.
Qed.

Lemma report_filename_not_config iso : report_filename iso <> "app-config.json".
Proof. unfold report_filename. discriminate. Qed.

Lemma derivedRows_tokenId id vin signals :
  forall previous,
    Forall (fun row => tokenId row = id) (derivedRows id vin previous signals).
Proof.
  induction signals as [|x l IH]; intros previous; simpl; constructor;
    [reflexivity | apply IH].
Qed.

(** The loop leaves the files alone, whatever happens in it. *)
Lemma fetchVehicle_keeps_files developerJwt startDate endDate tokenId
    (s : State W) :
  tmpDir (snd (fetchVehicle dimo developerJwt startDate endDate tokenId s))
  = tmpDir s.
Proof.
  unfold fetchVehicle.
  destruct (ToString tokenId) as [id|]; [|reflexivity].
  unfold bind at 1, lift at 1. unfold bind at 1. rewrite call_run.
  destruct (tokenexchange_exchange dimo developerJwt [1] id (world s))
    as [[vehicleJwt|] w1]; simpl; [|reflexivity].
  unfold bind at 1, lift at 1.
  destruct (ToString startDate) as [from|]; [|reflexivity].
  unfold bind at 1, lift at 1.
  destruct (ToString endDate) as [to|]; [|reflexivity].
  unfold bind at 1, lift at 1. unfold bind at 1. rewrite call_run. simpl.
  destruct (telemetry_query dimo vehicleJwt id from to w1)
    as [[[[data|]]|] w2]; simpl; try reflexivity.
  unfold bind, lift. simpl.
  destruct (Telemetry.signals data) as [signals|].
  - rewrite forEach_signalRow. reflexivity.
  - rewrite push_run. reflexivity.
Qed.

Lemma processVehicle_keeps_files developerJwt startDate endDate tokenId
    (s : State W) :
  tmpDir (snd (processVehicle dimo developerJwt startDate endDate tokenId s))
  = tmpDir s.
Proof.
  unfold processVehicle, try_catch.
  pose proof (fetchVehicle_keeps_files developerJwt startDate endDate
                tokenId s) as Hkeep.
  destruct (fetchVehicle dimo developerJwt startDate endDate tokenId s)
    as [[[]|] s1]; simpl in *; [exact Hkeep|].
  unfold bind, lift. destruct (ToString tokenId); [|exact Hkeep].
  rewrite push_run. exact Hkeep.
Qed.

Lemma loop_keeps_files developerJwt startDate endDate ids :
  forall s : State W,
    tmpDir (snd (for_of ids (processVehicle dimo developerJwt startDate
                               endDate) s))
    = tmpDir s.
Proof.
  induction ids as [|tokenId ids IH]; intros s; [reflexivity|].
  simpl. unfold bind.
  pose proof (processVehicle_keeps_files developerJwt startDate endDate
                tokenId s) as Hkeep.
  destruct (processVehicle dimo developerJwt startDate endDate tokenId s)
    as [[[]|] s1]; simpl in *; [|exact Hkeep].
  now rewrite IH.
Qed.


(** What a completed generation did, step by step. *)
Lemma generate_success body (s s' : State W) answer :
  post_reports_generate dimo runtime body s = (Returned (Json 200 answer), s') ->
  exists ids args developerJwt w1 s0 s1 entries,
    let iso := fst (Date_toISOString runtime w1) in
    obj_get body "vehicleTokenIds" = JArr ids
    /\ credentials (stored_config (tmpDir s)) = Returned args
    /\ auth_getDeveloperJwt dimo args (world s) = (Returned developerJwt, w1)
    /\ world s0 = snd (Date_toISOString runtime w1)
    /\ tmpDir s0 = tmpDir s
    /\ reportData s0 = []
    /\ truthy (stored_config (tmpDir s)) = true
    /\ for_of ids (processVehicle dimo developerJwt (obj_get body "startDate")
                     (obj_get body "endDate")) s0
       = (Returned tt, s1)
    /\ tmpDir s1 = Some entries
    /\ s' = put_tmpDir
              (Some (<[report_filename iso :=
                         File (CsvText (map snd header)
                                 (map (fun record =>
                                         map (fun column =>
                                                Row_get record (fst column))
                                             header)
                                      (reportData s1)))]> entries))
              (add_log (FsWriteFile (report_filename iso)) s1)
    /\ answer
       = JObj [("message", JStr "Report generated successfully");
               ("filename", JStr (report_filename iso));
               ("recordCount", JNum (Z.of_nat (length (reportData s1))));
               ("downloadUrl",
                JStr ("/api/reports/download/" +:+ report_filename iso))].
Proof.
  unfold post_reports_generate. intros H.
  apply try_catch_returned in H as [H | (sx & _ & H)];
    [|apply ret_returned in H as [[=] _]].
  destruct (obj_get body "vehicleTokenIds") as [| |b|n|str|ids|fields] eqn:Eids;
    simpl in H; rewrite ?orb_true_r in H;
    try (apply ret_returned in H as [[=] _]).
  destruct (Nat.eqb (length ids) 0);
    [apply ret_returned in H as [[=] _]|].
  destruct (negb (truthy (obj_get body "startDate"))
            || negb (truthy (obj_get body "endDate")));
    [apply ret_returned in H as [[=] _]|].
  unfold bind at 1 in H. rewrite loadConfig_run in H.
  destruct (truthy (stored_config (tmpDir s))) eqn:Ecfg;
    [|apply ret_returned in H as [[=] _]].
  simpl negb in H. cbv iota in H.
  apply bind_returned in H as (args & s2 & Ha & H).
  apply lift_returned in Ha as [Hargs <-].
  apply bind_returned in H as (developerJwt & s3 & Hj & H).
  apply call_returned in Hj as (Hj & Hd3 & _).
  apply bind_returned in H as ([] & s4 & Hs & H).
  injection Hs as <-.
  apply bind_returned in H as (iso & s5 & Hc & H).
  apply call_returned in Hc as (Hc & Hd5 & Hr5).
  simpl in Hc.
  destruct (Date_toISOString runtime (world s3)) as [iso' w2] eqn:Eclock.
  injection Hc as -> Hw5.
  apply bind_returned in H as ([] & s6 & Hloop & H).
  apply bind_returned in H as (rows & s7 & Hr & H).
  apply ret_returned in Hr as [<- <-].
  apply bind_returned in H as ([] & s8 & Hw & H).
  apply fs_writeFile_returned in Hw as (entries & Hd & ->).
  apply ret_returned in H as [[= <-] <-].
  exists ids, args, developerJwt, (world s3), s5, s6, entries.
  cbv zeta. rewrite Eclock. simpl fst. simpl snd.
  split; [reflexivity|]. split; [exact Hargs|]. split; [exact Hj|].
  split; [now rewrite Hw5|].
  split; [rewrite Hd5; simpl; rewrite Hd3; reflexivity|].
  split; [rewrite Hr5; reflexivity|].
  split; [reflexivity|].
  split; [exact Hloop|]. split; [exact Hd|]. split; reflexivity.
Qed.

(** A generated report can be fetched: its file name is what the listing
    shows and what the download route serves, the file holds as many
    records as the answer counts, and the stored configuration is still the
    one the generation started from. *)
Theorem generated_report_is_listed_and_served body (s s' : State W) answer :
  post_reports_generate dimo runtime body s = (Returned (Json 200 answer), s') ->
  exists filename names titles records,
    js_prop answer "filename" = Returned (JStr filename)
    /\ js_prop answer "downloadUrl"
       = Returned (JStr ("/api/reports/download/" +:+ filename))
    /\ js_prop answer "recordCount"
       = Returned (JNum (Z.of_nat (length records)))
    /\ fst (listReports s') = Returned names
    /\ filename ∈ names
    /\ fst (get_reports_download runtime filename s')
       = Returned (Download filename (Some (File (CsvText titles records))))
    /\ fst (loadConfig s') = fst (loadConfig s).
Proof.
  intros H. apply generate_success in H
    as (ids & args & developerJwt & w1 & s0 & s1 & entries
        & _ & _ & _ & _ & Hd0 & _ & _ & Hloop & Hd1 & -> & ->).
  pose proof (loop_keeps_files developerJwt (obj_get body "startDate")
                (obj_get body "endDate") ids s0) as Hkeep.
  rewrite Hloop in Hkeep. simpl in Hkeep.
  eexists (report_filename _), _, _, _.
  split; [reflexivity|]. split; [reflexivity|].
  split; [simpl; now rewrite length_map|].
  split; [rewrite listReports_run; reflexivity|].
  split; [|split].
  - simpl. apply list_elem_of_filter. split; [apply report_filename_csv|].
    apply list_elem_of_fmap. eexists (report_filename _, _).
    split; [reflexivity|]. apply elem_of_map_to_list. apply lookup_insert_eq.
  - rewrite get_reports_download_run. simpl. now rewrite lookup_insert_eq.
  - rewrite !loadConfig_run. simpl. f_equal.
    rewrite <- Hd0, <- Hkeep, Hd1. simpl.
    rewrite lookup_insert_ne by apply report_filename_not_config. reflexivity.
Qed.

Lemma rowsFor_tokenId vehicle f :
  Forall (fun row => tokenId row = vehicle) (rowsFor vehicle f).
Proof.
  destruct f as [| | |data]; simpl; try (repeat constructor).
  unfold rowsOf. destruct (Telemetry.signals data).
  - apply derivedRows_tokenId.
  - repeat constructor.
Qed.

(** The rows of a report are those of the vendor's answers, grouped by
    vehicle in the order of the request. The vendor is called for each
    requested id in turn, starting in the world the clock read left;
    a vehicle whose exchange or query failed, or whose answer had no data,
    has its sentinel row, and every other vehicle the rows of its answer,
    which all carry its token id. *)
Theorem report_rows_grouped_by_vehicle body (s s' : State W) answer from to :
  post_reports_generate dimo runtime body s = (Returned (Json 200 answer), s') ->
  ToString (obj_get body "startDate") = Returned from ->
  ToString (obj_get body "endDate") = Returned to ->
  exists ids texts args developerJwt w1,
    obj_get body "vehicleTokenIds" = JArr ids
    /\ Forall2 (fun tokenId text => ToString tokenId = Returned text) ids texts
    /\ credentials (stored_config (tmpDir s)) = Returned args
    /\ auth_getDeveloperJwt dimo args (world s) = (Returned developerJwt, w1)
    /\ let outcomes :=
         fst (fates dimo developerJwt from to texts
                (snd (Date_toISOString runtime w1))) in
       reportData s' = concat (groups ids outcomes)
       /\ length outcomes = length ids
       /\ Forall2 (fun vehicle group =>
                     Forall (fun row => tokenId row = vehicle) group)
                  ids (groups ids outcomes).
Proof.
  intros H Hfrom Hto. apply generate_success in H
    as (ids & args & developerJwt & w1 & s0 & s1 & entries
        & Hids & Hargs & Hauth & Hw0 & _ & Hr0 & _ & Hloop & _ & -> & _).
  destruct (loop_returned dimo _ _ _ _ _ _ Hloop) as [texts Hall].
  destruct (loop_run dimo developerJwt _ _ from to ids texts Hfrom Hto Hall s0)
    as (s1' & Hloop' & Hrows & _ & _).
  rewrite Hloop in Hloop'. injection Hloop' as <-.
  exists ids, texts, args, developerJwt, w1.
  split; [exact Hids|]. split; [exact Hall|]. split; [exact Hargs|].
  split; [exact Hauth|]. cbv zeta. rewrite <- Hw0.
  split; [simpl; now rewrite Hrows, Hr0|].
  assert (Hlen : length (fst (fates dimo developerJwt from to texts (world s0)))
                 = length ids).
  { rewrite (fates_length dimo). symmetry. eapply Forall2_length, Hall. }
  split; [exact Hlen|].
  revert Hlen. generalize (fst (fates dimo developerJwt from to texts (world s0))).
  clear. unfold groups.
  induction ids as [|vehicle ids IH]; intros [|f l] Hlen; try discriminate;
    simpl; constructor.
  - apply rowsFor_tokenId.
  - apply IH. simpl in Hlen. lia.
Qed.

Lemma credentials_returns config :
  truthy config = true ->
  exists clientId redirectUri apiKey,
    credentials config
    = Returned (JObj [("client_id", clientId); ("domain", redirectUri);
                      ("private_key", apiKey)]).
Proof.
  unfold credentials. destruct config; try discriminate; simpl; eauto.
Qed.

(** Without a developer token there is no report: when the vendor refuses
    it the request answers 500 after the one read of the configuration and
    the one call, with no per-vehicle call and no file written. *)
Theorem generate_needs_developer_token body (s : State W) id ids args w' :
  obj_get body "vehicleTokenIds" = JArr (id :: ids) ->
  truthy (obj_get body "startDate") = true ->
  truthy (obj_get body "endDate") = true ->
  truthy (stored_config (tmpDir s)) = true ->
  credentials (stored_config (tmpDir s)) = Returned args ->
  auth_getDeveloperJwt dimo args (world s) = (Thrown, w') ->
  post_reports_generate dimo runtime body s
  = (Returned (Json 500 (error_body "Failed to generate report")),
     put_world w'
       (add_log AuthGetDeveloperJwt (add_log (FsReadFile "app-config.json") s))).
Proof.
  intros Hids Hs He Hcfg Hargs Hauth. unfold post_reports_generate.
  rewrite Hids, Hs, He. simpl.
  unfold try_catch at 1, bind at 1. rewrite loadConfig_run, Hcfg. simpl.
  unfold bind at 1, lift at 1. rewrite Hargs.
  unfold bind at 1. rewrite call_run. simpl. rewrite Hauth. reflexivity.
Qed.

Lemma fs_writeFile_run name d (s : State W) entries :
  tmpDir s = Some entries ->
  entries !! name <> Some Directory ->
  fs_writeFile name d s
  = (Returned tt,
     put_tmpDir (Some (<[name := File d]> entries)) (add_log (FsWriteFile name) s)).
Proof.
  intros Hd Hn. destruct s as [w dir rows lg]. simpl in Hd. subst dir. run.
  destruct (entries !! name) as [[d0|]|]; try reflexivity. congruence.
Qed.

(** The request up to the loop, for valid input, stored credentials and a
    developer token: what remains is the loop, the file and the answer. *)
Lemma generate_reaches_loop body (s : State W) id ids args developerJwt w1 :
  obj_get body "vehicleTokenIds" = JArr (id :: ids) ->
  truthy (obj_get body "startDate") = true ->
  truthy (obj_get body "endDate") = true ->
  truthy (stored_config (tmpDir s)) = true ->
  credentials (stored_config (tmpDir s)) = Returned args ->
  auth_getDeveloperJwt dimo args (world s) = (Returned developerJwt, w1) ->
  let iso := fst (Date_toISOString runtime w1) in
  let s0 :=
    put_world (snd (Date_toISOString runtime w1))
      (add_log ClockRead
         (put_reportData []
            (put_world w1
               (add_log AuthGetDeveloperJwt
                  (add_log (FsReadFile "app-config.json") s))))) in
  post_reports_generate dimo runtime body s
  = try_catch
      (for_of (id :: ids)
              (processVehicle dimo developerJwt (obj_get body "startDate")
                 (obj_get body "endDate")) ;;
       rows <- gets reportData ;;
       csv_writeRecords (report_filename iso) header rows ;;
       ret (Json 200
              (JObj [("message", JStr "Report generated successfully");
                     ("filename", JStr (report_filename iso));
                     ("recordCount", JNum (Z.of_nat (length rows)));
                     ("downloadUrl",
                      JStr ("/api/reports/download/"
                              +:+ report_filename iso))])))
      (ret (Json 500 (error_body "Failed to generate report"))) s0.
Proof.
  intros Hids Hs He Hcfg Hargs Hauth. cbv zeta.
  unfold post_reports_generate. rewrite Hids, Hs, He. simpl.
  unfold try_catch at 1 2, bind at 1. rewrite loadConfig_run, Hcfg. simpl.
  unfold bind at 1, lift at 1. rewrite Hargs.
  unfold bind at 1. rewrite call_run. simpl. rewrite Hauth. simpl.
  unfold bind at 1, set_reportData at 1, modify at 1.
  unfold bind at 1, now_iso. rewrite call_run. simpl.
  destruct (Date_toISOString runtime w1) as [iso w2]. reflexivity.
Qed.

(** With valid input, stored credentials, a developer token and token ids
    and dates that have strings, the generation answers 200 whatever the
    vendor does for the vehicles: no failure inside the loop reaches the
    caller. The report is the rows of the vehicles' fates, with exactly one
    sentinel row per vehicle whose token exchange or telemetry query
    failed and one per vehicle whose query returned no data. *)
Theorem generate_completes body (s : State W) id ids texts from to args
    developerJwt w1 :
  obj_get body "vehicleTokenIds" = JArr (id :: ids) ->
  Forall2 (fun tokenId text => ToString tokenId = Returned text)
          (id :: ids) texts ->
  truthy (obj_get body "startDate") = true ->
  truthy (obj_get body "endDate") = true ->
  ToString (obj_get body "startDate") = Returned from ->
  ToString (obj_get body "endDate") = Returned to ->
  truthy (stored_config (tmpDir s)) = true ->
  credentials (stored_config (tmpDir s)) = Returned args ->
  auth_getDeveloperJwt dimo args (world s) = (Returned developerJwt, w1) ->
  (forall entries,
     tmpDir s = Some entries ->
     entries !! report_filename (fst (Date_toISOString runtime w1))
     <> Some Directory) ->
  let outcomes :=
    fst (fates dimo developerJwt from to texts
           (snd (Date_toISOString runtime w1))) in
  exists answer s',
    post_reports_generate dimo runtime body s = (Returned (Json 200 answer), s')
    /\ js_prop answer "recordCount"
       = Returned (JNum (Z.of_nat (length (reportData s'))))
    /\ reportData s' = concat (groups (id :: ids) outcomes)
    /\ sentinels (reportData s') = (failures outcomes + blanks outcomes)%nat.
Proof.
  intros Hids Hall Hs He Hfrom Hto Hcfg Hargs Hauth Hfree outcomes.
  rewrite (generate_reaches_loop body s id ids args developerJwt w1
             Hids Hs He Hcfg Hargs Hauth).
  set (s0 := put_world _ _).
  destruct (loop_run dimo developerJwt _ _ from to (id :: ids) texts
              Hfrom Hto Hall s0) as (s1 & Hloop & Hrows & _ & Hkeep).
  assert (Hdir : exists entries, tmpDir s = Some entries).
  { destruct (tmpDir s) as [entries|]; [eauto | discriminate Hcfg]. }
  destruct Hdir as [entries Hdir].
  assert (Hd1 : tmpDir s1 = Some entries) by (rewrite Hkeep; exact Hdir).
  unfold try_catch, bind at 1. rewrite Hloop.
  unfold bind at 1, gets at 1.
  unfold bind at 1, csv_writeRecords.
  rewrite (fs_writeFile_run _ _ s1 entries Hd1 (Hfree entries Hdir)).
  assert (Hrows' : reportData s1 = concat (groups (id :: ids) outcomes))
    by (rewrite Hrows; reflexivity).
  unfold ret. eexists _, _. split; [reflexivity|].
  split; [reflexivity|].
  change (reportData s1 = concat (groups (id :: ids) outcomes)
          /\ sentinels (reportData s1)
             = (failures outcomes + blanks outcomes)%nat).
  split; [exact Hrows'|]. rewrite Hrows'.
  apply sentinels_groups. subst outcomes. rewrite (fates_length dimo).
  symmetry. eapply Forall2_length, Hall.
Qed.


(** *** The vehicle listing *)

Lemma map_outcome_thrown {A B} (f : A -> outcome B) l x :
  x ∈ l -> f x = Thrown -> map_outcome f l = Thrown.
Proof.
  induction 1 as [x l | x y l Hin IH]; intros Hx; simpl.
  - now rewrite Hx.
  - destruct (f y); [|reflexivity]. now rewrite (IH Hx).
Qed.

(** The listing is all or nothing: one vendor node without a definition
    makes the whole page answer 500, and an unconfigured backend answers
    400 without calling the vendor. *)
Theorem get_vehicles_all_or_nothing after (s : State W) :
  (truthy (stored_config (tmpDir s)) = false ->
   get_vehicles dimo runtime after s
   = (Returned (Json 400 (error_body
                  "No configuration found. Please configure the app first.")),
      add_log (FsReadFile "app-config.json") s))
  /\ (forall args developerJwt w1 data w2 vehicle,
        truthy (stored_config (tmpDir s)) = true ->
        credentials (stored_config (tmpDir s)) = Returned args ->
        auth_getToken dimo args (world s) = (Returned developerJwt, w1) ->
        identity_query dimo developerJwt (js_or after JNull) w1
        = (Returned {| Identity.data := Some data |}, w2) ->
        vehicle ∈ Identity.nodes (Identity.vehicles data) ->
        Identity.definition vehicle = None ->
        fst (get_vehicles dimo runtime after s)
        = Returned (Json 500 (error_body "Failed to load vehicles"))).
Proof.
  unfold get_vehicles. split.
  - intros Hcfg. unfold try_catch at 1, bind at 1.
    rewrite loadConfig_run, Hcfg. reflexivity.
  - intros args developerJwt w1 data w2 vehicle Hcfg Hargs Hauth Hq Hin Hdef.
    unfold try_catch at 1, bind at 1. rewrite loadConfig_run, Hcfg. simpl.
    unfold bind at 1, lift at 1. rewrite Hargs.
    unfold bind at 1. rewrite call_run. simpl. rewrite Hauth. simpl.
    unfold bind at 1. rewrite call_run. simpl. rewrite Hq. simpl.
    unfold bind at 1, lift at 1. simpl.
    unfold bind at 1, lift at 1.
    rewrite (map_outcome_thrown (mapVehicle runtime) _ vehicle Hin);
      [reflexivity|].
    unfold mapVehicle. now rewrite Hdef.
Qed.

(** A successful listing passes the vendor's page through: the total count
    and the page information as they came, one listed vehicle per vendor
    node, with the vendor's token ids in the vendor's order. *)
Theorem get_vehicles_passes_page_through after (s s' : State W) body :
  get_vehicles dimo runtime after s = (Returned (Json 200 body), s') ->
  exists developerJwt w w' data nodes,
    identity_query dimo developerJwt (js_or after JNull) w
    = (Returned {| Identity.data := Some data |}, w')
    /\ js_prop body "totalCount"
       = Returned (JNum (Identity.totalCount (Identity.vehicles data)))
    /\ js_prop body "pageInfo"
       = Returned (Identity.pageInfo (Identity.vehicles data))
    /\ js_prop body "nodes" = Returned (JArr nodes)
    /\ length nodes = length (Identity.nodes (Identity.vehicles data))
    /\ map (fun node => js_prop node "tokenId") nodes
       = map (fun vehicle => Returned (JNum (Identity.tokenId vehicle)))
             (Identity.nodes (Identity.vehicles data))
    /\ tmpDir s' = tmpDir s.
Proof.
  unfold get_vehicles. intros H.
  apply try_catch_returned in H as [H | (s1 & _ & H)];
    [|apply ret_returned in H as [[=] _]].
  unfold bind at 1 in H. rewrite loadConfig_run in H.
  destruct (negb (truthy (stored_config (tmpDir s))));
    [apply ret_returned in H as [[=] _]|].
  apply bind_returned in H as (args & s2 & Ha & H).
  apply lift_returned in Ha as [_ <-].
  apply bind_returned in H as (developerJwt & s3 & Hj & H).
  apply call_returned in Hj as (_ & Hd3 & _).
  apply bind_returned in H as ([[data|]] & s4 & Hq & H);
    [|apply bind_returned in H as (? & ? & Hd & _); discriminate Hd].
  apply call_returned in Hq as (Hq & Hd4 & _).
  apply bind_returned in H as (data' & s5 & Hd & H).
  apply lift_returned in Hd as [[= <-] <-].
  apply bind_returned in H as (nodes & s6 & Hm & H).
  apply lift_returned in Hm as [Hm <-].
  apply ret_returned in H as [[= <-] <-].
  exists developerJwt, (world s3), (world s4), data, nodes.
  split; [exact Hq|]. repeat (split; [reflexivity|]).
  apply map_outcome_returned in Hm.
  split; [symmetry; eapply Forall2_length; exact Hm|].
  split; [|rewrite Hd4, Hd3; reflexivity].
  induction Hm as [|vehicle node l l' Hv _ IH]; [reflexivity|].
  simpl. rewrite IH. f_equal.
  apply mapVehicle_spec in Hv as (d & _ & Ht & _). exact Ht.
Qed.

End MoreServerFacts.

(** *** The token routes *)

Section TokenFacts.
Context {W : Type}.
Variable dimo : DIMO W.
Variable getVehicleJwt : JsVal -> string -> W -> outcome JsVal * W.

(** The vehicle-token route refuses a body without a tokenId or a
    developerJwt before calling the vendor. Otherwise, for a token id that
    has a string, it makes exactly one call and answers 200 with the
    vendor's token, or 500 naming the token id when the call fails; for a
    token id that has no string it makes no call and sends no answer: the
    handler throws out of its own [catch] block. *)
Theorem post_auth_vehicle_answers body (s : State W) :
  let tokenId := obj_get body "tokenId" in
  let developerJwt := obj_get body "developerJwt" in
  (truthy tokenId = false \/ truthy developerJwt = false ->
   post_auth_vehicle getVehicleJwt body s
   = (Returned (Json 400 (error_body "Token ID and Developer JWT are required")),
      s))
  /\ (forall text,
        truthy tokenId = true -> truthy developerJwt = true ->
        ToString tokenId = Returned text ->
        post_auth_vehicle getVehicleJwt body s
        = (Returned
             match fst (getVehicleJwt developerJwt text (world s)) with
             | Returned vehicleJwt => Json 200 vehicleJwt
             | Thrown =>
                 Json 500 (error_body ("Failed to get vehicle access for token "
                                         +:+ text))
             end,
           put_world (snd (getVehicleJwt developerJwt text (world s)))
             (add_log (TokenExchange tokenId) s)))
  /\ (truthy tokenId = true -> truthy developerJwt = true ->
      ToString tokenId = Thrown ->
      post_auth_vehicle getVehicleJwt body s = (Thrown, s)).
Proof.
  cbv zeta. unfold post_auth_vehicle. split; [|split].
  - intros [-> | ->]; simpl; [|rewrite orb_true_r]; reflexivity.
  - intros text -> -> Hid. simpl. rewrite Hid.
    unfold try_catch, bind at 1, lift at 1. unfold bind at 1.
    rewrite call_run.
    destruct (getVehicleJwt _ _ _) as [[vehicleJwt|] w']; reflexivity.
  - intros -> -> Hid. simpl. rewrite Hid. reflexivity.
Qed.

(** The developer-token route answers 400 on an unconfigured backend
    without calling the vendor, and otherwise makes one call with the
    stored credentials: 200 with the vendor's token or 500. *)
Theorem post_auth_developer_answers (s : State W) :
  (truthy (stored_config (tmpDir s)) = false ->
   post_auth_developer dimo s
   = (Returned (Json 400 (error_body
                  "No configuration found. Please configure the app first.")),
      add_log (FsReadFile "app-config.json") s))
  /\ (forall args,
        truthy (stored_config (tmpDir s)) = true ->
        credentials (stored_config (tmpDir s)) = Returned args ->
        post_auth_developer dimo s
        = (Returned
             match fst (auth_getToken dimo args (world s)) with
             | Returned developerJwt => Json 200 developerJwt
             | Thrown =>
                 Json 500 (error_body
                   "Failed to authenticate with DIMO. Please check your credentials.")
             end,
           put_world (snd (auth_getToken dimo args (world s)))
             (add_log AuthGetToken
                (add_log (FsReadFile "app-config.json") s)))).
Proof.
  unfold post_auth_developer. split.
  - intros Hcfg. unfold try_catch at 1, bind at 1.
    rewrite loadConfig_run, Hcfg. reflexivity.
  - intros args Hcfg Hargs.
    unfold try_catch at 1, bind at 1. rewrite loadConfig_run, Hcfg. simpl.
    unfold bind at 1, lift at 1. rewrite Hargs.
    unfold bind at 1. rewrite call_run. simpl.
    destruct (auth_getToken dimo args (world s)) as [[developerJwt|] w'];
      reflexivity.
Qed.

End TokenFacts.

(** * Properties of the storage service *)

Section StorageFacts.
Context {W : Type}.
Variable browser : Browser.
Variable callback : nat -> string -> JsVal -> W -> outcome unit * W.

Lemma invoke_caught listener key value (p : Page W) :
  exists p',
    try_catch (StorageService.invoke callback listener key value) (ret tt) p
    = (Returned tt, p')
    /\ localStorage p' = localStorage p
    /\ listeners p' = listeners p
    /\ delivered p' = delivered p ++ [(listener, key, value)].
Proof.
  unfold try_catch, StorageService.invoke, bind, modify, ret. simpl.
  destruct (callback listener key value (outside p)) as [[[]|] w];
    eexists; repeat split.
Qed.

Lemma notify_from key value registered :
  forall index (p : Page W),
  exists p',
    forEach_from index registered
      (fun listener _ =>
         try_catch (StorageService.invoke callback listener key value) (ret tt))
      p
    = (Returned tt, p')
    /\ localStorage p' = localStorage p
    /\ listeners p' = listeners p
    /\ delivered p'
       = delivered p ++ map (fun listener => (listener, key, value)) registered.
Proof.
  induction registered as [|listener rest IH]; intros index p.
  - exists p. simpl. rewrite app_nil_r. auto.
  - destruct (invoke_caught listener key value p) as (p1 & H1 & Hs1 & Hl1 & Hd1).
    destruct (IH (S index) p1) as (p2 & H2 & Hs2 & Hl2 & Hd2).
    exists p2. simpl forEach_from. rewrite (bind_run _ _ _ _ _ H1), H2.
    split; [reflexivity|]. split; [congruence|]. split; [congruence|].
    rewrite Hd2, Hd1, <- app_assoc. reflexivity.
Qed.

(** Every registered listener is called once, in the order of
    registration, whichever of them throw; nothing is thrown to the caller
    and the storage is not touched. *)
Lemma notifyListeners_run key value (p : Page W) :
  exists p',
    StorageService.notifyListeners callback key value p = (Returned tt, p')
    /\ localStorage p' = localStorage p
    /\ listeners p' = listeners p
    /\ delivered p'
       = delivered p ++ map (fun listener => (listener, key, value)) (listeners p).
Proof.
  unfold StorageService.notifyListeners, bind, gets, forEach.
  apply notify_from.
Qed.

Lemma setItem_run key value text (p : Page W) :
  ToString value = Returned text ->
  exists p',
    StorageService.setItem callback key value p = (Returned tt, p')
    /\ localStorage p' = <[key := text]> (localStorage p)
    /\ listeners p' = listeners p
    /\ delivered p'
       = delivered p ++ map (fun listener => (listener, key, value)) (listeners p).
Proof.
  intros Htext.
  unfold StorageService.setItem, StorageService.localStorage_setItem, bind,
    modify, lift.
  rewrite Htext. cbv beta iota.
  destruct (notifyListeners_run key value
              (put_localStorage (<[key := text]> (localStorage p)) p))
    as (p' & H & Hs & Hl & Hd).
  exists p'. rewrite H. auto.
Qed.

(** A value that has no string is not stored: [localStorage.setItem]
    throws, before any listener is told. *)
Lemma setItem_unprintable key value (p : Page W) :
  ToString value = Thrown ->
  StorageService.setItem callback key value p = (Thrown, p).
Proof.
  intros Htext.
  unfold StorageService.setItem, StorageService.localStorage_setItem, bind, lift.
  now rewrite Htext.
Qed.

Lemma removeItem_run key (p : Page W) :
  exists p',
    StorageService.removeItem callback key p = (Returned tt, p')
    /\ localStorage p' = delete key (localStorage p)
    /\ listeners p' = listeners p
    /\ delivered p'
       = delivered p ++ map (fun listener => (listener, key, JNull)) (listeners p).
Proof.
  unfold StorageService.removeItem, bind, StorageService.localStorage_removeItem,
    modify.
  destruct (notifyListeners_run key JNull
              (put_localStorage (delete key (localStorage p)) p))
    as (p' & H & Hs & Hl & Hd).
  exists p'. rewrite H. auto.
Qed.

Lemma getItem_run key (p : Page W) :
  StorageService.getItem key p
  = (Returned match localStorage p !! key with
              | Some value => JStr value
              | None => JNull
              end, p).
Proof. reflexivity. Qed.

(** A value set is read back as its string, and every listener has been
    told, even when listeners throw; the other keys read as before. A key
    removed reads as null. A value that has no string makes [setItem]
    throw: nothing is stored and no listener is told. *)
Theorem setItem_then_getItem key value (p : Page W) :
  (forall text,
     ToString value = Returned text ->
     exists p' p'',
       StorageService.setItem callback key value p = (Returned tt, p')
       /\ fst (StorageService.getItem key p') = Returned (JStr text)
       /\ (forall other, other <> key ->
             fst (StorageService.getItem other p')
             = fst (StorageService.getItem other p))
       /\ delivered p'
          = delivered p
              ++ map (fun listener => (listener, key, value)) (listeners p)
       /\ StorageService.removeItem callback key p' = (Returned tt, p'')
       /\ fst (StorageService.getItem key p'') = Returned JNull
       /\ delivered p''
          = delivered p'
              ++ map (fun listener => (listener, key, JNull)) (listeners p))
  /\ (ToString value = Thrown ->
      StorageService.setItem callback key value p = (Thrown, p)).
Proof.
  split; [|apply setItem_unprintable].
  intros text Htext.
  destruct (setItem_run key value text p Htext) as (p' & H & Hs & Hl & Hd).
  destruct (removeItem_run key p') as (p'' & H' & Hs' & Hl' & Hd').
  exists p', p''. split; [exact H|].
  split; [rewrite getItem_run, Hs; simpl; now rewrite lookup_insert_eq|].
  split.
  { intros other Hne. rewrite !getItem_run, Hs. simpl.
    now rewrite lookup_insert_ne by congruence. }
  split; [exact Hd|]. split; [exact H'|].
  split; [rewrite getItem_run, Hs'; simpl; now rewrite lookup_delete_eq|].
  now rewrite Hd', Hl.
Qed.

(** Ending the user session removes the token, its timestamp and the OAuth
    state, and only them: every other key, the wallet address and the
    e-mail address of the session among them, reads as before. The user
    is no longer authenticated, and each listener was told of the three
    removals. *)
Theorem clearUserSession_removes_three_keys (p : Page W) :
  exists p',
    StorageService.clearUserSession callback p = (Returned tt, p')
    /\ localStorage p'
       = delete StorageService.OAUTH_STATE
           (delete StorageService.USER_JWT_TIMESTAMP
              (delete StorageService.USER_JWT (localStorage p)))
    /\ (forall key,
          key <> StorageService.USER_JWT ->
          key <> StorageService.USER_JWT_TIMESTAMP ->
          key <> StorageService.OAUTH_STATE ->
          fst (StorageService.getItem key p')
          = fst (StorageService.getItem key p))
    /\ fst (StorageService.getUserWalletAddress p')
       = fst (StorageService.getUserWalletAddress p)
    /\ fst (StorageService.getUserEmail p')
       = fst (StorageService.getUserEmail p)
    /\ fst (StorageService.getUserJwt p') = Returned JNull
    /\ fst (StorageService.isUserAuthenticated browser p')
       = Returned (JBool false)
    /\ length (delivered p')
       = (length (delivered p) + 3 * length (listeners p))%nat.
Proof.
  destruct (removeItem_run StorageService.USER_JWT p)
    as (p1 & H1 & Hs1 & Hl1 & Hd1).
  destruct (removeItem_run StorageService.USER_JWT_TIMESTAMP p1)
    as (p2 & H2 & Hs2 & Hl2 & Hd2).
  destruct (removeItem_run StorageService.OAUTH_STATE p2)
    as (p3 & H3 & Hs3 & Hl3 & Hd3).
  assert (Hstore : localStorage p3
                   = delete StorageService.OAUTH_STATE
                       (delete StorageService.USER_JWT_TIMESTAMP
                          (delete StorageService.USER_JWT (localStorage p))))
    by congruence.
  assert (Hkeep : forall key,
             key <> StorageService.USER_JWT ->
             key <> StorageService.USER_JWT_TIMESTAMP ->
             key <> StorageService.OAUTH_STATE ->
             fst (StorageService.getItem key p3)
             = fst (StorageService.getItem key p)).
  { intros key Ha Hb Hc. rewrite !getItem_run, Hstore. simpl.
    now rewrite !lookup_delete_ne by congruence. }
  assert (Hgone : localStorage p3 !! StorageService.USER_JWT = None).
  { rewrite Hstore. rewrite !lookup_delete_ne by discriminate.
    apply lookup_delete_eq. }
  exists p3. unfold StorageService.clearUserSession.
  rewrite (bind_run _ _ _ _ _ H1), (bind_run _ _ _ _ _ H2), H3.
  split; [reflexivity|]. split; [exact Hstore|]. split; [exact Hkeep|].
  split; [apply Hkeep; discriminate|]. split; [apply Hkeep; discriminate|].
  split; [unfold StorageService.getUserJwt; now rewrite getItem_run, Hgone|].
  split.
  - unfold StorageService.isUserAuthenticated, bind.
    rewrite getItem_run, Hgone. reflexivity.
  - rewrite Hd3, Hd2, Hd1, Hl2, Hl1, !length_app, !length_map. lia.
Qed.

Lemma optional_setItem_run (condition : bool) key value text (p : Page W) :
  ToString value = Returned text ->
  exists p',
    (if condition then StorageService.setItem callback key value else ret tt) p
    = (Returned tt, p')
    /\ localStorage p'
       = (if condition then <[key := text]> (localStorage p)
          else localStorage p)
    /\ listeners p' = listeners p.
Proof.
  intros Htext. destruct condition.
  - destruct (setItem_run key value text p Htext) as (p' & H & Hs & Hl & _).
    eauto.
  - exists p. auto.
Qed.

(** A session object with a token is stored and read back, when its
    timestamp, wallet address and e-mail have strings: the token is what
    [getUserJwt] returns, the user is authenticated exactly as far as the
    token passes the expiry check, the timestamp is the string of the
    session's own or else of the clock's, and the wallet and e-mail
    addresses are written when the session has them and left as they were
    when it has not. *)
Theorem setUserSession_then_read fields jwt stamp wallet email (p : Page W) :
  obj_get fields "jwt" = JStr jwt ->
  jwt <> EmptyString ->
  ToString (obj_get fields "timestamp") = Returned stamp ->
  ToString (obj_get fields "walletAddress") = Returned wallet ->
  ToString (obj_get fields "email") = Returned email ->
  exists p',
    StorageService.setUserSession browser callback (JObj fields) p
    = (Returned tt, p')
    /\ fst (StorageService.getUserJwt p') = Returned (JStr jwt)
    /\ fst (StorageService.isUserAuthenticated browser p')
       = Returned (isJWTValid browser jwt)
    /\ fst (StorageService.getItem StorageService.USER_JWT_TIMESTAMP p')
       = Returned
           (JStr (if truthy (obj_get fields "timestamp")
                  then stamp
                  else String_of_number (Date_now browser)))
    /\ fst (StorageService.getUserWalletAddress p')
       = (if truthy (obj_get fields "walletAddress")
          then Returned (JStr wallet)
          else fst (StorageService.getUserWalletAddress p))
    /\ fst (StorageService.getUserEmail p')
       = (if truthy (obj_get fields "email")
          then Returned (JStr email)
          else fst (StorageService.getUserEmail p)).
Proof.
  intros Hjwt Hne Hstamp Hwallet Hemail.
  assert (Hno : String.eqb jwt EmptyString = false)
    by (destruct (String.eqb_spec jwt EmptyString); [contradiction|reflexivity]).
  assert (Ht : truthy (JStr jwt) = true) by (simpl; now rewrite Hno).
  unfold StorageService.setUserSession. rewrite Hjwt, Ht, Hstamp.
  destruct (setItem_run StorageService.USER_JWT (JStr jwt) jwt p eq_refl)
    as (p1 & H1 & Hs1 & _).
  set (text := if truthy (obj_get fields "timestamp")
               then stamp
               else String_of_number (Date_now browser)).
  destruct (setItem_run StorageService.USER_JWT_TIMESTAMP (JStr text) text p1
              eq_refl)
    as (p2 & H2 & Hs2 & _).
  destruct (optional_setItem_run (truthy (obj_get fields "walletAddress"))
              "user_wallet_address" (obj_get fields "walletAddress") wallet p2
              Hwallet)
    as (p3 & H3 & Hs3 & _).
  destruct (optional_setItem_run (truthy (obj_get fields "email"))
              "user_email" (obj_get fields "email") email p3 Hemail)
    as (p4 & H4 & Hs4 & _).
  exists p4.
  rewrite (bind_run _ _ _ _ _ H1).
  assert (Hmid :
    (if truthy (obj_get fields "timestamp")
     then bind (lift (Returned stamp)) (fun text0 => ret (JStr text0))
     else ret (JStr (String_of_number (Date_now browser)))) p1
    = (Returned (JStr text), p1))
    by (subst text; destruct (truthy (obj_get fields "timestamp")); reflexivity).
  rewrite (bind_run _ _ _ _ _ Hmid).
  rewrite (bind_run _ _ _ _ _ H2), (bind_run _ _ _ _ _ H3), H4.
  split; [reflexivity|].
  unfold StorageService.getUserJwt, StorageService.getUserWalletAddress,
    StorageService.getUserEmail, StorageService.isUserAuthenticated, bind.
  rewrite !getItem_run. simpl fst. rewrite Hs4, Hs3, Hs2, Hs1. subst text.
  unfold StorageService.USER_JWT, StorageService.USER_JWT_TIMESTAMP.
  destruct (truthy (obj_get fields "email")),
           (truthy (obj_get fields "walletAddress")),
           (truthy (obj_get fields "timestamp"));
    repeat (rewrite lookup_insert_eq
            || rewrite lookup_insert_ne by discriminate);
    simpl; rewrite Hno; simpl; repeat split; reflexivity.
Qed.

(** What is not a string and has no token stores nothing and tells no
    one; [null] makes [setUserSession] throw. *)
Theorem setUserSession_ignores_other_values userSession (p : Page W) :
  match userSession with
  | JStr _ => False
  | JNull => False
  | JObj fields => truthy (obj_get fields "jwt") = false
  | _ => True
  end ->
  StorageService.setUserSession browser callback userSession p = (Returned tt, p)
  /\ fst (StorageService.setUserSession browser callback JNull p) = Thrown.
Proof.
  intros H. split; [|reflexivity].
  destruct userSession; try contradiction; try reflexivity.
  unfold StorageService.setUserSession. now rewrite H.
Qed.

Lemma told_never key (value : JsVal) (listener : nat) l :
  listener ∉ l ->
  filter (fun call : nat * string * JsVal => fst (fst call) = listener)
         (map (fun x => (x, key, value)) l)
  = [].
Proof.
  induction l as [|x l IH]; intros Hnot; [reflexivity|].
  simpl. rewrite filter_cons_False.
  - apply IH. intros Hin. apply Hnot. now right.
  - simpl. intros ->. apply Hnot. left.
Qed.

Lemma told_once key (value : JsVal) (listener : nat) l :
  NoDup l -> listener ∈ l ->
  length (filter (fun call : nat * string * JsVal => fst (fst call) = listener)
                 (map (fun x => (x, key, value)) l))
  = 1%nat.
Proof.
  induction l as [|x l IH]; intros Hnd Hin; [inversion Hin|].
  apply NoDup_cons in Hnd as [Hx Hl]. simpl.
  destruct (decide (x = listener)) as [->|Hne].
  - rewrite filter_cons_True by reflexivity. simpl.
    now rewrite told_never.
  - rewrite filter_cons_False by (simpl; congruence).
    apply IH; [exact Hl|].
    apply elem_of_cons in Hin as [->|Hin]; [contradiction|exact Hin].
Qed.

(** The listeners form a set: adding one twice is adding it once, so it is
    told once per change; a listener removed is told nothing more. The
    change is a [setItem] of a value that has a string; one that has none
    is not stored and tells no one, whoever listens. *)
Theorem listeners_form_a_set listener key value (p : Page W) :
  NoDup (listeners p) ->
  let added := snd (StorageService.addListener listener p) in
  let removed := snd (StorageService.removeListener listener p) in
  NoDup (listeners added)
  /\ listener ∈ listeners added
  /\ snd (StorageService.addListener listener added) = added
  /\ (forall text,
        ToString value = Returned text ->
        exists p',
          StorageService.setItem callback key value added = (Returned tt, p')
          /\ length (filter (fun call => fst (fst call) = listener)
                       (drop (length (delivered p)) (delivered p')))
             = 1%nat)
  /\ (ToString value = Thrown ->
      StorageService.setItem callback key value added = (Thrown, added))
  /\ NoDup (listeners removed)
  /\ (listener ∉ listeners removed)
  /\ (forall text,
        ToString value = Returned text ->
        exists p',
          StorageService.setItem callback key value removed = (Returned tt, p')
          /\ filter (fun call => fst (fst call) = listener)
                    (drop (length (delivered p)) (delivered p'))
             = [])
  /\ (ToString value = Thrown ->
      StorageService.setItem callback key value removed = (Thrown, removed)).
Proof.
  intros Hnd. cbv zeta.
  unfold StorageService.addListener, StorageService.removeListener, modify.
  simpl snd.
  set (added := if bool_decide (listener ∈ listeners p) then p
                else put_listeners (listeners p ++ [listener]) p).
  set (removed := put_listeners
                    (filter (fun other => other <> listener) (listeners p)) p).
  assert (Hnd' : NoDup (listeners added)).
  { subst added. case_bool_decide as Hin; simpl; [exact Hnd|].
    apply NoDup_app. split; [exact Hnd|]. split; [|apply NoDup_singleton].
    intros x Hx Hx'. apply list_elem_of_singleton in Hx'. congruence. }
  assert (Hin' : listener ∈ listeners added).
  { subst added. case_bool_decide as Hin; simpl; [exact Hin|].
    apply elem_of_app. right. now apply list_elem_of_singleton. }
  assert (Hsame : delivered added = delivered p)
    by (subst added; case_bool_decide; reflexivity).
  assert (Hout : listener ∉ listeners removed).
  { subst removed. simpl. intros Hin.
    apply list_elem_of_filter in Hin as [Hne _]. congruence. }
  split; [exact Hnd'|]. split; [exact Hin'|].
  split; [now rewrite bool_decide_eq_true_2|].
  split; [|split; [|split; [|split; [|split]]]].
  - intros text Htext.
    destruct (setItem_run key value text added Htext) as (p' & H & _ & _ & Hd).
    exists p'. split; [exact H|].
    rewrite Hd, Hsame, drop_app_length. now apply told_once.
  - apply setItem_unprintable.
  - subst removed. simpl. apply NoDup_filter. exact Hnd.
  - exact Hout.
  - intros text Htext.
    destruct (setItem_run key value text removed Htext)
      as (p' & H & _ & _ & Hd).
    exists p'. split; [exact H|].
    rewrite Hd. subst removed. simpl delivered. rewrite drop_app_length.
    now apply told_never.
  - apply setItem_unprintable.
Qed.

End StorageFacts.

(** * Properties of the browser's calls to the backend *)

Section ClientServerFacts.
Context {W : Type}.
Variable dimo : DIMO W.
Variable runtime : Runtime W.
Variable reason : Z -> string.
Variable trim : string -> string.
Variable TypeError_message : TypeError -> string.

Lemma get_config_run (s : State W) :
  get_config s
  = (Returned (if truthy (stored_config (tmpDir s))
               then Json 200 (stored_config (tmpDir s))
               else Json 404 (error_body "No configuration found")),
     add_log (FsReadFile "app-config.json") s).
Proof.
  unfold get_config. unfold try_catch at 1, bind at 1. rewrite loadConfig_run.
  destruct (truthy (stored_config (tmpDir s))); reflexivity.
Qed.

Lemma evaluate_truthy config value :
  ConfigUtils.evaluate trim config = Returned value ->
  truthy value = true ->
  exists fields clientId apiKey,
    config = JObj fields
    /\ value = JBool true
    /\ obj_get fields "clientId" = JStr clientId
    /\ obj_get fields "apiKey" = JStr apiKey
    /\ trim clientId <> EmptyString
    /\ trim apiKey <> EmptyString.
Proof.
  unfold ConfigUtils.evaluate.
  destruct (truthy config) eqn:Et; simpl;
    [|intros [= <-] Hv; congruence].
  destruct config as [| |b|n|str|items|fields]; simpl;
    try (intros [= <-]; discriminate).
  destruct (truthy (obj_get fields "clientId")) eqn:Etc; simpl;
    [|intros [= <-] Hv; congruence].
  destruct (truthy (obj_get fields "apiKey")) eqn:Etk; simpl;
    [|intros [= <-] Hv; congruence].
  destruct (obj_get fields "clientId") as [| |b|n|c|items|fs] eqn:Hc;
    simpl; try discriminate.
  destruct (String.eqb_spec (trim c) EmptyString) as [Hbc|Hbc]; simpl;
    [intros [= <-]; discriminate|].
  destruct (obj_get fields "apiKey") as [| |b|n|k|items|fs] eqn:Hk;
    simpl; try discriminate.
  destruct (String.eqb_spec (trim k) EmptyString) as [Hbk|Hbk]; simpl;
    [intros [= <-]; discriminate|].
  intros [= <-] _. exists fields, c, k. auto 10.
Qed.

(** The configuration check on what [GET /api/config] answers. A store
    without a usable record gives a null [isConfigured] and no error; a
    record whose clientId and apiKey are non-empty strings counts as
    configured exactly when both have something left after trimming, so a
    record the backend accepted with a blank clientId counts as not
    configured; and a configuration is handed on only with [isConfigured]
    true and such a clientId and apiKey. *)
Theorem configuration_check_through_backend (s s' : State W) response :
  get_config s = (Returned response, s') ->
  let stored := stored_config (tmpDir s) in
  let check := check_through reason trim TypeError_message response in
  (truthy stored = false ->
   check = {| ConfigUtils.isConfigured := JNull;
              ConfigUtils.config := JNull;
              ConfigUtils.error := JNull |})
  /\ (forall fields clientId apiKey,
        stored = JObj fields ->
        obj_get fields "clientId" = JStr clientId ->
        obj_get fields "apiKey" = JStr apiKey ->
        clientId <> EmptyString -> apiKey <> EmptyString ->
        let usable :=
          negb (String.eqb (trim clientId) EmptyString)
          && negb (String.eqb (trim apiKey) EmptyString) in
        check = {| ConfigUtils.isConfigured := JBool usable;
                   ConfigUtils.config := if usable then stored else JNull;
                   ConfigUtils.error := JNull |})
  /\ (ConfigUtils.config check <> JNull ->
      exists fields clientId apiKey,
        stored = JObj fields
        /\ ConfigUtils.config check = stored
        /\ ConfigUtils.isConfigured check = JBool true
        /\ obj_get fields "clientId" = JStr clientId
        /\ obj_get fields "apiKey" = JStr apiKey
        /\ trim clientId <> EmptyString
        /\ trim apiKey <> EmptyString).
Proof.
  rewrite get_config_run. intros [= <- _]. cbv zeta.
  unfold check_through.
  destruct (truthy (stored_config (tmpDir s))) eqn:Et.
  - (* a record is stored *)
    unfold reply_of, DimoApiService.getConfig, ok. simpl.
    unfold ConfigUtils.checkAppConfiguration.
    split; [discriminate|]. split.
    + intros fields clientId apiKey Hs Hc Hk Hcn Hkn.
      unfold ConfigUtils.evaluate. rewrite Et, Hs. simpl. rewrite Hc, Hk.
      assert (Ec : String.eqb clientId EmptyString = false)
        by (destruct (String.eqb_spec clientId EmptyString); congruence).
      assert (Ek : String.eqb apiKey EmptyString = false)
        by (destruct (String.eqb_spec apiKey EmptyString); congruence).
      simpl. rewrite Ec, Ek. simpl.
      destruct (String.eqb (trim clientId) EmptyString); simpl; [reflexivity|].
      destruct (String.eqb (trim apiKey) EmptyString); reflexivity.
    + destruct (ConfigUtils.evaluate trim (stored_config (tmpDir s)))
        as [value|] eqn:Ev; simpl; [|intros H; now elim H].
      destruct (truthy value) eqn:Etv; [|intros H; now elim H].
      intros _.
      destruct (evaluate_truthy _ _ Ev Etv)
        as (fields & c & k & Hs & -> & Hc & Hk & Hbc & Hbk).
      exists fields, c, k. auto 10.
  - (* no record: 404, which [getConfig] turns into null *)
    unfold reply_of, DimoApiService.getConfig, ok. simpl.
    split; [reflexivity|]. split.
    + intros fields clientId apiKey Hs. rewrite Hs in Et. discriminate Et.
    + simpl. intros H. now elim H.
Qed.

(** What [POST /api/reports/generate] can answer to a body that passes its
    two input checks. *)
Lemma generate_after_validation body (s : State W) id ids :
  obj_get body "vehicleTokenIds" = JArr (id :: ids) ->
  truthy (obj_get body "startDate") = true ->
  truthy (obj_get body "endDate") = true ->
  exists response s',
    post_reports_generate dimo runtime body s = (Returned response, s')
    /\ (response
        = Json 400 (error_body
                      "No configuration found. Please configure the app first.")
        \/ response = Json 500 (error_body "Failed to generate report")
        \/ exists filename count,
             response
             = Json 200
                 (JObj [("message", JStr "Report generated successfully");
                        ("filename", JStr filename);
                        ("recordCount", JNum count);
                        ("downloadUrl",
                         JStr ("/api/reports/download/" +:+ filename))])).
Proof.
  intros Hids Hs He. unfold post_reports_generate. rewrite Hids, Hs, He. simpl.
  match goal with
  | |- context [try_catch ?m ?h s] =>
      destruct (m s) as [[response|] s1] eqn:E;
      [rewrite (try_catch_run m h s response s1 E)
      |rewrite (try_catch_caught m h s s1 E)]
  end.
  - exists response, s1. split; [reflexivity|].
    apply bind_returned in E as (config & s2 & _ & E).
    destruct (negb (truthy config));
      [apply ret_returned in E as [<- _]; now left|].
    apply bind_returned in E as (args & s3 & _ & E).
    apply bind_returned in E as (developerJwt & s4 & _ & E).
    apply bind_returned in E as ([] & s5 & _ & E).
    apply bind_returned in E as (iso & s6 & _ & E).
    apply bind_returned in E as ([] & s7 & _ & E).
    apply bind_returned in E as (rows & s8 & _ & E).
    apply bind_returned in E as ([] & s9 & _ & E).
    apply ret_returned in E as [<- _]. right. right. eauto.
  - eexists _, _. split; [reflexivity|]. right. now left.
Qed.

Lemma dateRegex_test_length date :
  dateRegex_test date = true -> String.length date = 10%nat.
Proof.
  unfold dateRegex_test.
  repeat (destruct date as [|? date]; try discriminate). reflexivity.
Qed.

(** A request the page sends passes the backend's input checks: it is
    never answered with one of the two validation errors. Its dates have
    ten characters, and the page's call settles to the backend's answer,
    or to a rejection carrying the backend's own message after the
    method's prefix. *)
Theorem page_request_passes_validation Date_getTime startDate endDate
    selectedVehicles body (s : State W) :
  VehiclesPage.request Date_getTime startDate endDate selectedVehicles
  = inr body ->
  String.length startDate = 10%nat
  /\ String.length endDate = 10%nat
  /\ obj_get body "vehicleTokenIds" = JArr selectedVehicles
  /\ selectedVehicles <> []
  /\ exists response s',
       post_reports_generate dimo runtime body s = (Returned response, s')
       /\ ((response
            = Json 400 (error_body
                 "No configuration found. Please configure the app first.")
            /\ report_through reason TypeError_message response
               = Rejected
                   "Failed to generate report: No configuration found. Please configure the app first.")
           \/ (response = Json 500 (error_body "Failed to generate report")
               /\ report_through reason TypeError_message response
                  = Rejected
                      "Failed to generate report: Failed to generate report")
           \/ exists answer,
                response = Json 200 answer
                /\ report_through reason TypeError_message response
                   = Resolved answer).
Proof.
  unfold VehiclesPage.request.
  destruct (negb (truthy (JStr startDate)) || negb (truthy (JStr endDate)))
    eqn:Edates; [discriminate|].
  destruct selectedVehicles as [|vehicle vehicles]; [discriminate|]. simpl.
  destruct (negb (dateRegex_test startDate) || negb (dateRegex_test endDate))
    eqn:Eshape; [discriminate|].
  destruct (VehiclesPage.later Date_getTime startDate endDate); [discriminate|].
  intros [= <-].
  apply orb_false_elim in Edates as [Hs He].
  apply orb_false_elim in Eshape as [Hss Hse].
  apply negb_false_iff in Hs, He, Hss, Hse.
  split; [now apply dateRegex_test_length|].
  split; [now apply dateRegex_test_length|].
  split; [reflexivity|]. split; [discriminate|].
  destruct (generate_after_validation
              [("vehicleTokenIds", JArr (vehicle :: vehicles));
               ("startDate", JStr startDate); ("endDate", JStr endDate)]
              s vehicle vehicles eq_refl Hs He)
    as (response & s' & Hrun & Hcase).
  exists response, s'. split; [exact Hrun|].
  destruct Hcase as [-> | [-> | (filename & count & ->)]].
  - left. split; reflexivity.
  - right. left. split; reflexivity.
  - right. right. eexists. split; reflexivity.
Qed.

End ClientServerFacts.

(** * Properties of the token expiry helpers *)

Section ExpiryFacts.
Variable browser : Browser.

(** A token that passes [isJwtValid] has an expiration: [getJwtExpiration]
    is a number, in milliseconds, and it is no more than one second behind
    the clock. So a token whose expiration is null, for want of a readable
    payload or of an [exp], does not pass. *)
Theorem valid_token_has_expiration jwt :
  isJwtValid browser jwt = JBool true ->
  exists milliseconds,
    DimoApiService.getJwtExpiration browser jwt = IsNumber milliseconds
    /\ Date_now browser - 1000 < milliseconds.
Proof.
  unfold isJwtValid, DimoApiService.getJwtExpiration, decodeAndCompare, and_then.
  destruct (negb (truthy (JStr jwt))); [discriminate|].
  destruct (window_atob browser _) as [text|]; [|discriminate].
  destruct (window_JSON_parse browser text) as [payload|]; [|discriminate].
  destruct (js_prop payload "exp") as [exp|]; [|discriminate].
  destruct (truthy exp) eqn:Et; [|intros ->; discriminate Et].
  intros [= Hgt]. unfold js_gt in Hgt. unfold DimoApiService.times_1000.
  assert (Hbound : forall n, Z.ltb (Date_now browser / 1000) n = true ->
                             Date_now browser - 1000 < n * 1000).
  { intros n Hn. apply Z.ltb_lt in Hn.
    pose proof (Z.div_mod (Date_now browser) 1000 ltac:(lia)).
    pose proof (Z.mod_pos_bound (Date_now browser) 1000 ltac:(lia)). lia. }
  destruct exp as [| |b|n|str|items|fields];
    try (destruct (ToNumber browser _) as [n|]; [|discriminate];
         exists (n * 1000); split; [reflexivity | now apply Hbound]).
  exists (n * 1000). split; [reflexivity | now apply Hbound].
Qed.

End ExpiryFacts.

Section MissingConfigFacts.
Context {W : Type}.
Variable reason : Z -> string.
Variable TypeError_message : TypeError -> string.

(** With no configuration file in the store, reading the configuration
    through the client resolves to [null], deleting it through the client
    is rejected with the backend's message under the method's prefix, and
    saving a record without a client id or an API key is rejected in the
    same way; none of the three changes the store. *)
Theorem missing_config_through_the_client (runtime : Runtime W) body
    (s : State W) entries :
  tmpDir s = Some entries ->
  entries !! "app-config.json" = None ->
  truthy (obj_get body "clientId") = false
  \/ truthy (obj_get body "apiKey") = false ->
  (exists response s',
     get_config s = (Returned response, s')
     /\ tmpDir s' = tmpDir s
     /\ DimoApiService.getConfig TypeError_message
          (Resolved (reply_of reason response))
        = Resolved JNull)
  /\ (exists response s',
        delete_config s = (Returned response, s')
        /\ tmpDir s' = tmpDir s
        /\ DimoApiService.deleteConfig TypeError_message
             (Resolved (reply_of reason response))
           = Rejected "Failed to delete configuration: No configuration found")
  /\ (exists response s',
        post_config runtime body s = (Returned response, s')
        /\ tmpDir s' = tmpDir s
        /\ DimoApiService.saveConfig TypeError_message
             (Resolved (reply_of reason response))
           = Rejected
               "Failed to save configuration: Client ID and API Key are required").
Proof.
  intros Hdir Hnone Hbad. repeat split.
  - eexists _, _. split; [|split].
    + unfold get_config. unfold try_catch at 1, bind at 1.
      rewrite loadConfig_run. unfold stored_config. rewrite Hdir, Hnone.
      reflexivity.
    + reflexivity.
    + reflexivity.
  - eexists _, _. split; [|split].
    + rewrite delete_config_run, Hdir, Hnone. reflexivity.
    + reflexivity.
    + reflexivity.
  - eexists _, _. split; [|split].
    + unfold post_config.
      destruct Hbad as [-> | ->]; simpl; [|rewrite orb_true_r]; reflexivity.
    + reflexivity.
    + reflexivity.
Qed.

End MissingConfigFacts.

(** * The further theorems at the worked examples *)

Lemma post_config_last_write_wins_witness :
  exists config,
    js_prop config "clientId" = Returned (JStr "0xdef")
    /\ fst (loadConfig
              (snd (post_config fixed_clock
                      [("clientId", JStr "0xdef"); ("apiKey", JStr "k2")]
                      configured)))
       = Returned config.
Proof.
  destruct (post_config_last_write_wins fixed_clock credentials_body
              [("clientId", JStr "0xdef"); ("apiKey", JStr "k2")]
              (start (Some ∅)) ∅ eq_refl eq_refl eq_refl eq_refl eq_refl
              ltac:(rewrite lookup_empty; discriminate))
    as (config & s1 & s2 & final & -> & Hpost & Hid & _ & Hload & _).
  exists config. split; [exact Hid|].
  unfold configured. now rewrite Hpost.
Defined.

Lemma post_config_store_failure_witness :
  fst (post_config fixed_clock credentials_body (start None))
  = Returned (Json 500 (error_body "Failed to save configuration"))
  /\ tmpDir (snd (post_config fixed_clock credentials_body (start None))) = None.
Proof.
  apply (post_config_store_failure fixed_clock credentials_body (start None));
    [reflexivity | reflexivity | now left].
Defined.

Lemma delete_config_only_config_witness :
  fst (delete_config configured)
  = Returned (Json 200 (JObj [("message",
                               JStr "Configuration deleted successfully")]))
  /\ fst (delete_config (snd (delete_config configured)))
     = Returned (Json 404 (error_body "No configuration found")).
Proof.
  assert (E : fst (delete_config configured)
              = Returned (Json 200 (JObj [("message",
                            JStr "Configuration deleted successfully")])))
    by (vm_compute; reflexivity).
  split; [exact E|].
  destruct (delete_config_only_config configured
              (snd (delete_config configured)) _
              ltac:(rewrite <- E; apply surjective_pairing))
    as (entries & before & after & _ & _ & _ & _ & _ & _ & Hagain & _).
  exact Hagain.
Defined.

Lemma generate_completes_witness :
  exists answer s',
    post_reports_generate fleet fixed_clock
      (report_body [JStr "7"; JStr "9"; JNum 42; JStr "8"]) configured
    = (Returned (Json 200 answer), s')
    /\ length (reportData s') = 6%nat
    /\ sentinels (reportData s') = 1%nat.
Proof.
  destruct (generate_completes fleet fixed_clock
              (report_body [JStr "7"; JStr "9"; JNum 42; JStr "8"]) configured
              (JStr "7") [JStr "9"; JNum 42; JStr "8"] ["7"; "9"; "42"; "8"]
              "2024-01-01" "2024-01-31"
              (JObj [("client_id", JStr "0xabc");
                     ("domain", JStr "http://localhost:5173");
                     ("private_key", JStr "k1")])
              (JStr "developer-jwt") tt
              eq_refl
              ltac:(repeat constructor)
              eq_refl eq_refl eq_refl eq_refl eq_refl eq_refl eq_refl)
    as (answer & s' & Hrun & _ & Hrows & Hcount).
  { intros entries Hdir. vm_compute in Hdir. injection Hdir as <-.
    vm_compute. discriminate. }
  exists answer, s'. split; [exact Hrun|].
  split; [rewrite Hrows | rewrite Hcount]; vm_compute; reflexivity.
Defined.

Lemma generated_report_is_listed_and_served_witness :
  let run :=
    post_reports_generate fleet fixed_clock (report_body [JStr "7"; JStr "9"])
      configured in
  exists filename names,
    fst (listReports (snd run)) = Returned names
    /\ filename ∈ names
    /\ fst (loadConfig (snd run)) = fst (loadConfig configured).
Proof.
  cbv zeta.
  assert (E : fst (post_reports_generate fleet fixed_clock
                     (report_body [JStr "7"; JStr "9"]) configured)
              = Returned
                  (Json 200
                     (JObj [("message", JStr "Report generated successfully");
                            ("filename",
                             JStr "vehicle-report-2024-01-15T10-30-45-123Z.csv");
                            ("recordCount", JNum 5);
                            ("downloadUrl",
                             JStr "/api/reports/download/vehicle-report-2024-01-15T10-30-45-123Z.csv")])))
    by (vm_compute; reflexivity).
  destruct (generated_report_is_listed_and_served fleet fixed_clock
              (report_body [JStr "7"; JStr "9"]) configured
              (snd (post_reports_generate fleet fixed_clock
                      (report_body [JStr "7"; JStr "9"]) configured))
              _ ltac:(rewrite <- E; apply surjective_pairing))
    as (filename & names & titles & records & _ & _ & _ & Hlist & Hin & _ & Hcfg).
  exists filename, names. auto.
Defined.

Lemma report_rows_grouped_by_vehicle_witness :
  let run :=
    post_reports_generate fleet fixed_clock (report_body [JStr "7"; JStr "9"])
      configured in
  reportData (snd run)
  = rowsOf (JStr "7")
      {| Telemetry.vinVCLatest :=
           Some {| Telemetry.vin := Some "1HGCM82633A004352" |};
         Telemetry.signals :=
           Some [sample (Some 100%float) "2024-01-01T00:00:00Z";
                 sample (Some 150%float) "2024-01-02T00:00:00Z";
                 sample (Some 140%float) "2024-01-03T00:00:00Z";
                 sample (Some 200%float) "2024-01-04T00:00:00Z"] |}
    ++ [errorRow (JStr "9")].
Proof.
  cbv zeta.
  assert (E : fst (post_reports_generate fleet fixed_clock
                     (report_body [JStr "7"; JStr "9"]) configured)
              = Returned
                  (Json 200
                     (JObj [("message", JStr "Report generated successfully");
                            ("filename",
                             JStr "vehicle-report-2024-01-15T10-30-45-123Z.csv");
                            ("recordCount", JNum 5);
                            ("downloadUrl",
                             JStr "/api/reports/download/vehicle-report-2024-01-15T10-30-45-123Z.csv")])))
    by (vm_compute; reflexivity).
  destruct (report_rows_grouped_by_vehicle fleet fixed_clock
              (report_body [JStr "7"; JStr "9"]) configured
              (snd (post_reports_generate fleet fixed_clock
                      (report_body [JStr "7"; JStr "9"]) configured))
              _ "2024-01-01" "2024-01-31"
              ltac:(rewrite <- E; apply surjective_pairing) eq_refl eq_refl)
    as (ids & texts & args & developerJwt & w1 & Hids & Hall & Hargs & Hauth
        & Hrows & _).
  injection Hids as <-.
  apply Forall2_cons_inv_l in Hall as (t7 & rest & H7 & Hall & ->).
  apply Forall2_cons_inv_l in Hall as (t9 & rest' & H9 & Hall & ->).
  apply Forall2_nil_inv_l in Hall as ->.
  injection H7 as <-. injection H9 as <-.
  injection Hargs as <-. injection Hauth as <- <-.
  rewrite Hrows. vm_compute. reflexivity.
Defined.

Lemma generate_needs_developer_token_witness :
  fst (post_reports_generate locked_out fixed_clock (report_body [JStr "7"])
         configured)
  = Returned (Json 500 (error_body "Failed to generate report"))
  /\ tmpDir (snd (post_reports_generate locked_out fixed_clock
                    (report_body [JStr "7"]) configured))
     = tmpDir configured.
Proof.
  rewrite (generate_needs_developer_token locked_out fixed_clock
             (report_body [JStr "7"]) configured (JStr "7") []
             (JObj [("client_id", JStr "0xabc");
                    ("domain", JStr "http://localhost:5173");
                    ("private_key", JStr "k1")])
             tt eq_refl eq_refl eq_refl eq_refl eq_refl eq_refl).
  split; reflexivity.
Defined.

Lemma get_vehicles_all_or_nothing_witness :
  fst (get_vehicles broken_catalog fixed_clock JUndefined configured)
  = Returned (Json 500 (error_body "Failed to load vehicles"))
  /\ fst (get_vehicles fleet fixed_clock JUndefined (start (Some ∅)))
     = Returned (Json 400 (error_body
                   "No configuration found. Please configure the app first.")).
Proof.
  split.
  - apply (get_vehicles_all_or_nothing broken_catalog fixed_clock JUndefined
             configured)
      with (args := JObj [("client_id", JStr "0xabc");
                          ("domain", JStr "http://localhost:5173");
                          ("private_key", JStr "k1")])
           (developerJwt := JStr "developer-jwt") (w1 := tt) (w2 := tt)
           (data := {| Identity.vehicles :=
                         {| Identity.totalCount := 1;
                            Identity.pageInfo :=
                              JObj [("hasNextPage", JBool false)];
                            Identity.nodes :=
                              [{| Identity.tokenId := 11;
                                  Identity.definition := None;
                                  Identity.aftermarketDevice := None;
                                  Identity.syntheticDevice := None |}] |} |})
           (vehicle := {| Identity.tokenId := 11;
                          Identity.definition := None;
                          Identity.aftermarketDevice := None;
                          Identity.syntheticDevice := None |});
      try reflexivity.
    left.
  - destruct (get_vehicles_all_or_nothing fleet fixed_clock JUndefined
                (start (Some ∅))) as [H _].
    rewrite H; reflexivity.
Defined.

Lemma get_vehicles_passes_page_through_witness :
  exists body nodes,
    fst (get_vehicles fleet fixed_clock JUndefined configured)
    = Returned (Json 200 body)
    /\ js_prop body "totalCount" = Returned (JNum 2)
    /\ js_prop body "nodes" = Returned (JArr nodes)
    /\ length nodes = 2%nat.
Proof.
  assert (E : fst (get_vehicles fleet fixed_clock JUndefined configured)
              = Returned
                  (Json 200
                     (JObj [("totalCount", JNum 2);
                            ("pageInfo", JObj [("hasNextPage", JBool false)]);
                            ("nodes",
                             JArr [JObj [("tokenId", JNum 7);
                                         ("vehicleType", JStr "Honda Accord 2003");
                                         ("imei", JStr "N/A");
                                         ("mintedAt", JStr "2023-06-01")];
                                   JObj [("tokenId", JNum 42);
                                         ("vehicleType", JStr "Tesla Model 3 2019");
                                         ("imei", JStr "356938035643809");
                                         ("mintedAt", JStr "N/A")]])])))
    by (vm_compute; reflexivity).
  destruct (get_vehicles_passes_page_through fleet fixed_clock JUndefined
              configured
              (snd (get_vehicles fleet fixed_clock JUndefined configured))
              _ ltac:(rewrite <- E; apply surjective_pairing))
    as (developerJwt & w & w' & data & nodes & _ & Hcount & _ & Hnodes & _).
  eexists _, nodes. split; [exact E|]. split; [reflexivity|].
  split; [exact Hnodes|]. injection Hnodes as <-. reflexivity.
Defined.

Lemma post_auth_vehicle_answers_witness :
  fst (post_auth_vehicle example_getVehicleJwt
         [("tokenId", JNum 0); ("developerJwt", JStr "developer-jwt")]
         (start (Some ∅)))
  = Returned (Json 400 (error_body "Token ID and Developer JWT are required"))
  /\ fst (post_auth_vehicle example_getVehicleJwt
            [("tokenId", JNum (10 ^ 21)); ("developerJwt", JStr "developer-jwt")]
            (start (Some ∅)))
     = Returned (Json 500 (error_body
                   "Failed to get vehicle access for token 1e+21"))
  /\ post_auth_vehicle example_getVehicleJwt
       [("tokenId", JObj [("toString", JNum 1)]);
        ("developerJwt", JStr "developer-jwt")]
       (start (Some ∅))
     = (Thrown, start (Some ∅)).
Proof.
  split; [|split].
  - destruct (post_auth_vehicle_answers example_getVehicleJwt
                [("tokenId", JNum 0); ("developerJwt", JStr "developer-jwt")]
                (start (Some ∅))) as [H _].
    rewrite H; [reflexivity | now left].
  - destruct (post_auth_vehicle_answers example_getVehicleJwt
                [("tokenId", JNum (10 ^ 21));
                 ("developerJwt", JStr "developer-jwt")]
                (start (Some ∅))) as (_ & H & _).
    rewrite (H "1e+21"); reflexivity.
  - destruct (post_auth_vehicle_answers example_getVehicleJwt
                [("tokenId", JObj [("toString", JNum 1)]);
                 ("developerJwt", JStr "developer-jwt")]
                (start (Some ∅))) as (_ & _ & H).
    apply H; reflexivity.
Defined.

Lemma post_auth_developer_answers_witness :
  fst (post_auth_developer fleet configured)
  = Returned (Json 200 (JStr "developer-jwt"))
  /\ fst (post_auth_developer locked_out configured)
     = Returned (Json 500 (error_body
                   "Failed to authenticate with DIMO. Please check your credentials.")).
Proof.
  split.
  - destruct (post_auth_developer_answers fleet configured) as [_ H].
    rewrite (H (JObj [("client_id", JStr "0xabc");
                      ("domain", JStr "http://localhost:5173");
                      ("private_key", JStr "k1")]) eq_refl eq_refl).
    reflexivity.
  - destruct (post_auth_developer_answers locked_out configured) as [_ H].
    rewrite (H (JObj [("client_id", JStr "0xabc");
                      ("domain", JStr "http://localhost:5173");
                      ("private_key", JStr "k1")]) eq_refl eq_refl).
    reflexivity.
Defined.

Lemma setUserSession_then_read_witness :
  exists p',
    StorageService.setUserSession example_browser example_callback
      (JObj [("jwt", JStr "a.e30.c"); ("email", JStr "ada@example.org");
             ("timestamp", JNum (10 ^ 21))])
      example_page
    = (Returned tt, p')
    /\ fst (StorageService.getUserJwt p') = Returned (JStr "a.e30.c")
    /\ fst (StorageService.getItem StorageService.USER_JWT_TIMESTAMP p')
       = Returned (JStr "1e+21")
    /\ fst (StorageService.getUserEmail p') = Returned (JStr "ada@example.org")
    /\ fst (StorageService.getUserWalletAddress p') = Returned (JStr "0xfeed").
Proof.
  destruct (setUserSession_then_read example_browser example_callback
              [("jwt", JStr "a.e30.c"); ("email", JStr "ada@example.org");
               ("timestamp", JNum (10 ^ 21))]
              "a.e30.c" "1e+21" "undefined" "ada@example.org" example_page
              eq_refl ltac:(discriminate) eq_refl eq_refl eq_refl)
    as (p' & Hrun & Hjwt & _ & Hstamp & Hwallet & Hemail).
  exists p'. split; [exact Hrun|]. split; [exact Hjwt|].
  split; [exact Hstamp|]. split; [exact Hemail | exact Hwallet].
Defined.

Lemma setUserSession_ignores_other_values_witness :
  StorageService.setUserSession example_browser example_callback (JNum 5)
    example_page
  = (Returned tt, example_page).
Proof.
  apply (setUserSession_ignores_other_values example_browser example_callback
           (JNum 5) example_page I).
Defined.

Lemma listeners_form_a_set_witness :
  NoDup (listeners example_page)
  /\ listeners (snd (StorageService.addListener 2%nat example_page))
     = [1%nat; 2%nat]
  /\ (2%nat ∉ listeners (snd (StorageService.removeListener 2%nat example_page))).
Proof.
  assert (Hnd : NoDup (listeners example_page)).
  { simpl. apply NoDup_cons. split; [|apply NoDup_singleton].
    intros H. apply list_elem_of_singleton in H. discriminate H. }
  split; [exact Hnd|]. split; [reflexivity|].
  apply (listeners_form_a_set example_callback 2%nat "user_jwt" JNull
           example_page Hnd).
Defined.

Lemma setItem_then_getItem_witness :
  exists p',
    StorageService.setItem example_callback "oauth_state"
      (JArr [JNum 1; JNull; JStr "x"]) example_page
    = (Returned tt, p')
    /\ fst (StorageService.getItem "oauth_state" p') = Returned (JStr "1,,x").
Proof.
  destruct (setItem_then_getItem example_callback "oauth_state"
              (JArr [JNum 1; JNull; JStr "x"]) example_page) as [H _].
  destruct (H "1,,x" eq_refl) as (p' & p'' & Hset & Hget & _).
  exists p'. split; [exact Hset | exact Hget].
Defined.


Lemma configuration_check_through_backend_witness :
  check_through reason_phrase (fun s => s) example_messages
    (Json 200 (stored_config (tmpDir configured)))
  = {| ConfigUtils.isConfigured := JBool true;
       ConfigUtils.config := stored_config (tmpDir configured);
       ConfigUtils.error := JNull |}.
Proof.
  assert (E : get_config configured
              = (Returned (Json 200 (stored_config (tmpDir configured))),
                 snd (get_config configured))).
  { rewrite (surjective_pairing (get_config configured)) at 1.
    f_equal; vm_compute; reflexivity. }
  destruct (configuration_check_through_backend reason_phrase (fun s => s)
              example_messages configured _ _ E) as (_ & H & _).
  apply (H [("clientId", JStr "0xabc"); ("apiKey", JStr "k1");
            ("redirectUri", JStr "http://localhost:5173");
            ("createdAt", JStr "2024-01-15T10:30:45.123Z")]
           "0xabc" "k1");
    try reflexivity; discriminate.
Defined.

Lemma page_request_passes_validation_witness :
  VehiclesPage.request no_calendar "2024-01-01" "2024-01-31" [JStr "42"; JNum 7]
  = inr (report_body [JStr "42"; JNum 7])
  /\ exists response s',
       post_reports_generate fleet fixed_clock
         (report_body [JStr "42"; JNum 7]) configured
       = (Returned response, s')
       /\ response <> Json 400 (error_body "Vehicle token IDs are required").
Proof.
  split; [reflexivity|].
  destruct (page_request_passes_validation fleet fixed_clock reason_phrase
              example_messages no_calendar "2024-01-01" "2024-01-31"
              [JStr "42"; JNum 7]
              (report_body [JStr "42"; JNum 7]) configured eq_refl)
    as (_ & _ & _ & _ & response & s' & Hrun & Hcase).
  exists response, s'. split; [exact Hrun|].
  destruct Hcase as [[-> _] | [[-> _] | (answer & -> & _)]]; discriminate.
Defined.

Lemma valid_token_has_expiration_witness :
  isJwtValid token_browser "h.eyJleHAiOjk5OTk5OTk5OTl9.s" = JBool true
  /\ DimoApiService.getJwtExpiration token_browser "h.eyJleHAiOjk5OTk5OTk5OTl9.s"
     = IsNumber 9999999999000.
Proof.
  split; [reflexivity|].
  destruct (valid_token_has_expiration token_browser
              "h.eyJleHAiOjk5OTk5OTk5OTl9.s" eq_refl)
    as (milliseconds & Hexp & _).
  rewrite Hexp. vm_compute in Hexp. symmetry. exact Hexp.
Defined.

Lemma missing_config_through_the_client_witness :
  exists response s',
    delete_config (start (Some ∅)) = (Returned response, s')
    /\ DimoApiService.deleteConfig example_messages
         (Resolved (reply_of reason_phrase response))
       = Rejected "Failed to delete configuration: No configuration found".
Proof.
  destruct (missing_config_through_the_client reason_phrase example_messages
              fixed_clock [("apiKey", JStr "k1")] (start (Some ∅)) ∅
              eq_refl (lookup_empty _) (or_introl eq_refl))
    as (_ & (response & s' & Hrun & _ & Hclient) & _).
  exists response, s'. split; [exact Hrun | exact Hclient].
Defined.
